(** * The ingestion pipeline of fi-compass: Pub/Sub consumer, archive and cache

    A shallow embedding of [backend_main/app/services/pubsub_consumer.py]
    (class [PubSubConsumer]): the two message callbacks, the two processing
    coroutines, the archive insert and the two cache updates.  Python values
    are an inductive type, dictionaries are association lists in insertion
    order, exceptions are a result type, and the three external services
    (broker, columnar archive, document store) are explicit state. *)

From Stdlib Require Import ZArith Ascii Floats.SpecFloat.
From stdpp Require Import gmap strings pretty list fin_maps sorting.

Set Warnings "-register-all".

Local Open Scope string_scope.
Local Open Scope Z_scope.
Local Open Scope list_scope.

(** ** Python values *)

Module Py.

(** What [json.loads] can return, plus the store's timestamp type
    ([VTime], what [firestore.SERVER_TIMESTAMP] becomes once written).
    A Python [float] is an IEEE binary64 number. *)
Inductive value : Type :=
| VNull
| VBool (b : bool)
| VInt (n : Z)
| VFloat (f : spec_float)
| VStr (s : string)
| VTime (t : nat)
| VList (l : list value)
| VDict (d : list (string * value)).

(** A dictionary with text keys, in insertion order. *)
Abbreviation dict := (list (string * value)).

Inductive exn : Type :=
| KeyError | TypeError | ValueError | OverflowError | AttributeError
| RuntimeError | StoreError | NotFound.

(** The outcome of an expression that may raise. *)
Inductive res (A : Type) : Type :=
| Ok (a : A)
| Raise (e : exn).
Arguments Ok {A} a.
Arguments Raise {A} e.

Definition res_bind {A B} (r : res A) (k : A -> res B) : res B :=
  match r with Ok a => k a | Raise e => Raise e end.

Fixpoint dict_get (k : string) (d : dict) : option value :=
  match d with
  | [] => None
  | (k', v) :: d' => if String.eqb k k' then Some v else dict_get k d'
  end.

(** [d[k] = v]: replaces the value in place, or appends a new key. *)
Fixpoint dict_set (k : string) (v : value) (d : dict) : dict :=
  match d with
  | [] => [(k, v)]
  | (k', v') :: d' =>
      if String.eqb k k' then (k, v) :: d' else (k', v') :: dict_set k v d'
  end.

Definition keys (d : dict) : list string := map fst d.

(** [needle in hay] on text. *)
Fixpoint is_substring (needle hay : string) : bool :=
  String.prefix needle hay
  || match hay with
     | EmptyString => false
     | String _ hay' => is_substring needle hay'
     end.

(** [k in data] for a text [k]. *)
Definition contains (k : string) (data : value) : res bool :=
  match data with
  | VDict d => Ok (bool_decide (is_Some (dict_get k d)))
  | VList l =>
      Ok (existsb (fun v => match v with VStr s => String.eqb s k | _ => false end) l)
  | VStr s => Ok (is_substring k s)
  | _ => Raise TypeError
  end.

(** [data[k]] for a text [k]. *)
Definition subscript (data : value) (k : string) : res value :=
  match data with
  | VDict d => match dict_get k d with Some v => Ok v | None => Raise KeyError end
  | _ => Raise TypeError
  end.

(** [data.get(k, dflt)]. *)
Definition get_default (data : value) (k : string) (dflt : value) : res value :=
  match data with
  | VDict d => Ok (default dflt (dict_get k d))
  | _ => Raise AttributeError
  end.

(** [all(field in data for field in fields)]: stops at the first miss. *)
Fixpoint all_in (fields : list string) (data : value) : res bool :=
  match fields with
  | [] => Ok true
  | f :: fs =>
      res_bind (contains f data) (fun b => if b then all_in fs data else Ok false)
  end.

(** *** Numbers *)

Definition prec : Z := 53.
Definition emax : Z := 1024.

(** [float(n)] for an integer: rounded to nearest even, [OverflowError]
    beyond the binary64 range. *)
Definition float_of_int (n : Z) : res spec_float :=
  match binary_normalize prec emax n 0 false with
  | S754_infinity _ => Raise OverflowError
  | f => Ok f
  end.

(** [int(f)] for a float: truncation toward zero. *)
Definition int_of_float (f : spec_float) : res Z :=
  match f with
  | S754_zero _ => Ok 0
  | S754_infinity _ => Raise OverflowError
  | S754_nan => Raise ValueError
  | S754_finite s m e => Ok (cond_Zopp s (Z.shiftl (Zpos m) e))
  end.

Definition Z_of_bool (b : bool) : Z := if b then 1 else 0.

(** What lies outside the repository and outside this development: how
    Python reads a number out of text and prints a value into a format
    string, how the document store names a document it creates itself, and
    how it orders field values in [order_by]. *)
Class Platform : Type := {
  float_of_str : string -> option spec_float;
  int_of_str : string -> option Z;
  str_of : value -> string;
  auto_id : nat -> string;
  field_leb : value -> value -> bool
}.

Section Builtins.
Context `{Platform}.

(** [float(v)]. *)
Definition py_float (v : value) : res spec_float :=
  match v with
  | VFloat f => Ok f
  | VInt n => float_of_int n
  | VBool b => float_of_int (Z_of_bool b)
  | VStr s => match float_of_str s with Some f => Ok f | None => Raise ValueError end
  | _ => Raise TypeError
  end.

(** [int(v)]. *)
Definition py_int (v : value) : res Z :=
  match v with
  | VInt n => Ok n
  | VBool b => Ok (Z_of_bool b)
  | VFloat f => int_of_float f
  | VStr s => match int_of_str s with Some n => Ok n | None => Raise ValueError end
  | _ => Raise TypeError
  end.

(** [f"{v}"]. *)
Definition py_format (v : value) : string :=
  match v with
  | VStr s => s
  | _ => str_of v
  end.

(** [a + b] where one side is known to be a number, as in
    [entry['time_spent'] += int(..)] and in [sum(..)], which starts from
    the integer 0: any operand that is not a number raises. *)
Definition num_add (a b : value) : res value :=
  let as_num v :=
    match v with
    | VInt n => Some (inl n)
    | VBool b => Some (inl (Z_of_bool b))
    | VFloat f => Some (inr f)
    | _ => None
    end in
  match as_num a, as_num b with
  | Some (inl x), Some (inl y) => Ok (VInt (x + y))
  | Some (inr f), Some (inl y) =>
      res_bind (float_of_int y) (fun g => Ok (VFloat (SFadd prec emax f g)))
  | Some (inl x), Some (inr g) =>
      res_bind (float_of_int x) (fun f => Ok (VFloat (SFadd prec emax f g)))
  | Some (inr f), Some (inr g) => Ok (VFloat (SFadd prec emax f g))
  | _, _ => Raise TypeError
  end.
End Builtins.

End Py.

(** ** The three external services as state *)

Module Store.
Import Py.

Inductive stream : Type := Market | Screentime.

(** What [insert_rows_json] does: it raises, or it returns the list of row
    errors, empty when every row was accepted. *)
Inductive bq_outcome : Type :=
| BqRaises
| BqReturns (errors : list value).

(** What the environment decides while one message is handled: the clock,
    whether an event loop runs in the calling thread (else
    [asyncio.create_task] raises), what the archive answers, and which store
    calls raise, for whatever reason: the network, a name the store
    refuses, a query the client will not stream. *)
Record env : Type := MkEnv {
  now : string;
  server_time : nat;
  loop_running : bool;
  bq_result : bq_outcome;
  get_raises : bool;
  set_raises : bool;
  add_raises : bool;
  stream_raises : bool;
  commit_raises : bool;
  update_raises : bool
}.

Record message : Type := MkMessage {
  msg_id : nat;
  payload : option value   (* [None]: the bytes do not decode as JSON *)
}.

Inductive log_entry : Type :=
| CallbackError (s : stream)
| InvalidFormat (s : stream)
| ProcessingError (s : stream)
| BigQueryInsertErrors (errors : list value)
| BigQueryInsertError
| CacheUpdateError (s : stream).

(** A coroutine handed to the event loop by [asyncio.create_task]. *)
Record task : Type := MkTask {
  task_stream : stream;
  task_data : value;
  task_env : env
}.

Record World : Type := MkWorld {
  market_table : list dict;                     (* archive, market stream *)
  screentime_table : list dict;                 (* archive, screen-time stream *)
  market_data : gmap string dict;               (* collection market_data *)
  price_history : gmap string (list (nat * dict)); (* its price_history subcollections *)
  screentime_daily : gmap string dict;          (* collection screentime_daily *)
  users : gmap string dict;                     (* collection users *)
  acked : list nat;
  nacked : list nat;
  tasks : list task;                            (* scheduled, not yet run *)
  log : list log_entry;                         (* logger.error calls *)
  next_id : nat                                 (* source of fresh identifiers *)
}.

Definition empty_world : World :=
  MkWorld [] [] ∅ ∅ ∅ ∅ [] [] [] [] 0.

Definition with_market_table (f : list dict -> list dict) (w : World) : World :=
  let 'MkWorld a b c d e g h i j k l := w in MkWorld (f a) b c d e g h i j k l.
Definition with_screentime_table (f : list dict -> list dict) (w : World) : World :=
  let 'MkWorld a b c d e g h i j k l := w in MkWorld a (f b) c d e g h i j k l.
Definition with_market_data (f : gmap string dict -> gmap string dict) (w : World) : World :=
  let 'MkWorld a b c d e g h i j k l := w in MkWorld a b (f c) d e g h i j k l.
Definition with_price_history
    (f : gmap string (list (nat * dict)) -> gmap string (list (nat * dict)))
    (w : World) : World :=
  let 'MkWorld a b c d e g h i j k l := w in MkWorld a b c (f d) e g h i j k l.
Definition with_screentime_daily (f : gmap string dict -> gmap string dict) (w : World) : World :=
  let 'MkWorld a b c d e g h i j k l := w in MkWorld a b c d (f e) g h i j k l.
Definition with_users (f : gmap string dict -> gmap string dict) (w : World) : World :=
  let 'MkWorld a b c d e g h i j k l := w in MkWorld a b c d e (f g) h i j k l.
Definition with_acked (f : list nat -> list nat) (w : World) : World :=
  let 'MkWorld a b c d e g h i j k l := w in MkWorld a b c d e g (f h) i j k l.
Definition with_nacked (f : list nat -> list nat) (w : World) : World :=
  let 'MkWorld a b c d e g h i j k l := w in MkWorld a b c d e g h (f i) j k l.
Definition with_tasks (f : list task -> list task) (w : World) : World :=
  let 'MkWorld a b c d e g h i j k l := w in MkWorld a b c d e g h i (f j) k l.
Definition with_log (f : list log_entry -> list log_entry) (w : World) : World :=
  let 'MkWorld a b c d e g h i j k l := w in MkWorld a b c d e g h i j (f k) l.
Definition with_next_id (f : nat -> nat) (w : World) : World :=
  let 'MkWorld a b c d e g h i j k l := w in MkWorld a b c d e g h i j k (f l).

(** *** Computations over the world that may raise *)

Definition M (A : Type) : Type := World -> World * res A.

Definition ret {A} (a : A) : M A := fun w => (w, Ok a).
Definition raise {A} (e : exn) : M A := fun w => (w, Raise e).
Definition bind {A B} (c : M A) (k : A -> M B) : M B :=
  fun w => match c w with
           | (w', Ok a) => k a w'
           | (w', Raise e) => (w', Raise e)
           end.
Definition lift {A} (r : res A) : M A := fun w => (w, r).
Definition modify (f : World -> World) : M unit := fun w => (f w, Ok tt).
Definition when_raises (flag : bool) (e : exn) : M unit :=
  if flag then raise e else ret tt.

(** [try: body except Exception as e: logger.error(..)] *)
Definition try_log (body : M unit) (entry : log_entry) : M unit :=
  fun w => match body w with
           | (w', Ok _) => (w', Ok tt)
           | (w', Raise _) => (with_log (fun l => l ++ [entry]) w', Ok tt)
           end.

Definition log_error (entry : log_entry) : M unit :=
  modify (with_log (fun l => l ++ [entry])).

Definition fresh_id : M nat :=
  fun w => (with_next_id S w, Ok (next_id w)).

Declare Scope M_scope.
Delimit Scope M_scope with M.
Notation "x <- c ;; k" := (bind c (fun x => k))
  (at level 100, c at next level, right associativity) : M_scope.
Notation "c ;;; k" := (bind c (fun _ => k))
  (at level 100, right associativity) : M_scope.

(** *** Merging a written document into a stored one

    [reference.set(data, merge=True)]: every leaf of [data] is written at
    its path; a map with entries is descended into, so the paths it does not
    mention keep what the stored document has there; an empty map, like any
    other value, replaces what was stored. *)
Fixpoint merge_value (new old : value) {struct new} : value :=
  match new with
  | VDict n =>
      match n, old with
      | _ :: _, VDict o =>
          VDict ((fix go (n : dict) (acc : dict) {struct n} : dict :=
                    match n with
                    | [] => acc
                    | (k, v) :: n' =>
                        go n' (dict_set k
                                 (match dict_get k acc with
                                  | Some ov => merge_value v ov
                                  | None => v
                                  end) acc)
                    end) n o)
      | _, _ => new
      end
  | _ => new
  end.

(** The same loop, named: the fields of [new] written one by one into [acc]. *)
Fixpoint merge_fields (n : dict) (acc : dict) {struct n} : dict :=
  match n with
  | [] => acc
  | (k, v) :: n' =>
      merge_fields n' (dict_set k
                         (match dict_get k acc with
                          | Some ov => merge_value v ov
                          | None => v
                          end) acc)
  end.

(** A whole document written with [merge=True] over what the store holds
    (nothing, for a new document). *)
Definition merge_doc (new : dict) (old : option dict) : dict :=
  match old with
  | Some o => match merge_value (VDict new) (VDict o) with
              | VDict d => d
              | _ => new
              end
  | None => new
  end.

End Store.

(** ** The consumer *)

Module Consumer.
Import Py Store.
Local Open Scope M_scope.

Section Code.
Context `{Platform}.

(** [try: body except Exception: handler] *)
Definition try_except (body handler : M unit) : M unit :=
  fun w => match body w with
           | (w', Ok _) => (w', Ok tt)
           | (w', Raise _) => handler w'
           end.

(** *** Archive Sink *)

Definition append_rows (table : stream) (rows : list dict) : World -> World :=
  match table with
  | Market => with_market_table (fun t => t ++ rows)
  | Screentime => with_screentime_table (fun t => t ++ rows)
  end.

Definition table_of (table : stream) (w : World) : list dict :=
  match table with
  | Market => market_table w
  | Screentime => screentime_table w
  end.

(** [_sync_insert], the part the executor runs:
    [errors = self.bigquery_client.insert_rows_json(table_ref, rows)].
    The rows carry no row ids.  The store appends them when it reports no
    error and appends none of them otherwise. *)
Definition _sync_insert (table : stream) (rows : list dict) (e : env)
  : M (list value) :=
  match bq_result e with
  | BqRaises => raise StoreError
  | BqReturns [] => modify (append_rows table rows) ;;; ret []
  | BqReturns errors => ret errors
  end.

(** [if errors: logger.error(..) else: logger.debug(..)] *)
Definition _insert_report (errors : list value) : M unit :=
  match errors with
  | [] => ret tt
  | _ => log_error (BigQueryInsertErrors errors)
  end.

Definition _insert_to_bigquery (table : stream) (rows : list dict) (e : env)
  : M unit :=
  try_except
    (errors <- _sync_insert table rows e ;; _insert_report errors)
    (log_error BigQueryInsertError).

(** *** Document store calls *)

(** [collection(..).document(id)]: a text id names the document, [None]
    asks the client for an identifier of its own, anything else raises. *)
Definition document (id : value) : M string :=
  match id with
  | VStr s => ret s
  | VNull => n <- fresh_id ;; ret (auto_id n)
  | _ => raise ValueError
  end.

Fixpoint insert_by (leb : dict -> dict -> bool) (x : nat * dict)
    (l : list (nat * dict)) : list (nat * dict) :=
  match l with
  | [] => [x]
  | y :: l' => if leb x.2 y.2 then x :: l else y :: insert_by leb x l'
  end.

Definition field_order (field : string) (a b : dict) : bool :=
  match dict_get field a, dict_get field b with
  | Some x, Some y => field_leb x y
  | _, _ => true
  end.

(** [.order_by(field)]: the documents that have the field, in the store's
    order of its values. *)
Definition order_by (field : string) (docs : list (nat * dict))
  : list (nat * dict) :=
  foldr (insert_by (field_order field)) []
    (filter (fun d => is_Some (dict_get field d.2)) docs).

Definition limit_to_last (n : nat) (docs : list (nat * dict)) : list (nat * dict) :=
  drop (length docs - n) docs.

Definition limit (n : nat) (docs : list (nat * dict)) : list (nat * dict) :=
  take n docs.

(** [.stream()] and the loop that consumes it. *)
Definition stream_docs (docs : list (nat * dict)) (e : env) : M (list (nat * dict)) :=
  when_raises (stream_raises e) StoreError ;;; ret docs.

Definition history_of (ref : string) (w : World) : list (nat * dict) :=
  default [] (price_history w !! ref).

Definition delete_docs (ref : string) (ids : list nat) : World -> World :=
  with_price_history (fun h =>
    <[ref := filter (fun d => d.1 ∉ ids) (default [] (h !! ref))]> h).

(** *** Cache Updater, market stream  ([_update_market_cache]) *)

Definition market_update_data (data : value) (e : env) : res dict :=
  res_bind (subscript data "symbol") (fun symbol =>
  res_bind (subscript data "price") (fun price =>
  res_bind (py_float price) (fun current_price =>
  res_bind (get_default data "volume" (VInt 0)) (fun volume =>
  res_bind (get_default data "change" (VFloat (S754_zero false))) (fun change =>
  res_bind (get_default data "change_percent" (VFloat (S754_zero false))) (fun change_percent =>
  res_bind (get_default data "high" price) (fun high =>
  res_bind (get_default data "low" price) (fun low =>
  res_bind (get_default data "market" (VStr "NSE")) (fun market =>
  Ok [("symbol", symbol);
      ("current_price", VFloat current_price);
      ("volume", volume);
      ("change", change);
      ("change_percent", change_percent);
      ("high", high);
      ("low", low);
      ("last_updated", VTime (server_time e));
      ("market", market)]))))))))).

Definition history_entry (data : value) : res dict :=
  res_bind (subscript data "price") (fun price =>
  res_bind (py_float price) (fun price =>
  res_bind (get_default data "volume" (VInt 0)) (fun volume =>
  res_bind (subscript data "timestamp") (fun timestamp =>
  Ok [("price", VFloat price); ("volume", volume); ("timestamp", timestamp)])))).

Definition _update_market_cache_body (data : value) (e : env) : M unit :=
  symbol <- lift (subscript data "symbol") ;;
  market_ref <- document symbol ;;
  update_data <- lift (market_update_data data e) ;;
  (* market_ref.set(update_data, merge=True) *)
  when_raises (set_raises e) StoreError ;;;
  modify (with_market_data (fun m =>
    <[market_ref := merge_doc update_data (m !! market_ref)]> m)) ;;;
  (* history_ref.add({..}) *)
  entry <- lift (history_entry data) ;;
  when_raises (add_raises e) StoreError ;;;
  id <- fresh_id ;;
  modify (with_price_history (fun h =>
    <[market_ref := default [] (h !! market_ref) ++ [(id, entry)]]> h)) ;;;
  (* old_docs = history_ref.order_by('timestamp').limit_to_last(100).stream() *)
  history <- (fun w => (w, Ok (history_of market_ref w))) ;;
  old_docs <- stream_docs (limit_to_last 100 (order_by "timestamp" history)) e ;;
  let count := length old_docs in
  if (100 <? count)%nat then
    oldest_docs <- stream_docs (limit (count - 100) (order_by "timestamp" history)) e ;;
    when_raises (commit_raises e) StoreError ;;;
    modify (delete_docs market_ref (map fst oldest_docs))
  else ret tt.

Definition _update_market_cache (data : value) (e : env) : M unit :=
  try_except (_update_market_cache_body data e)
             (log_error (CacheUpdateError Market)).

(** *** Cache Updater, screen-time stream  ([_update_screentime_cache]) *)

(** [sum(app['time_spent'] for app in apps_data.values())] *)
Fixpoint sum_time_spent (apps : dict) (acc : value) : res value :=
  match apps with
  | [] => Ok acc
  | (_, app) :: apps' =>
      res_bind (subscript app "time_spent") (fun t =>
      res_bind (num_add acc t) (fun acc' => sum_time_spent apps' acc'))
  end.

(** The [if app_name in apps_data: .. else: ..] statement.  A stored
    [apps] field that is not a map, and an app name that is not text,
    make the function raise before it writes anything. *)
Definition update_app_time (data : value) (apps_data : value) : res dict :=
  res_bind (subscript data "app_name") (fun app_name =>
  match apps_data, app_name with
  | VDict apps, VStr name =>
      match dict_get name apps with
      | Some entry =>
          res_bind (subscript entry "time_spent") (fun old =>
          res_bind (subscript data "time_spent") (fun t =>
          res_bind (py_int t) (fun minutes =>
          res_bind (num_add old (VInt minutes)) (fun new =>
          match entry with
          | VDict fields => Ok (dict_set name (VDict (dict_set "time_spent" new fields)) apps)
          | _ => Raise TypeError
          end))))
      | None =>
          res_bind (subscript data "time_spent") (fun t =>
          res_bind (py_int t) (fun minutes =>
          res_bind (get_default data "category" (VStr "Other")) (fun category =>
          Ok (dict_set name
                (VDict [("time_spent", VInt minutes); ("category", category)])
                apps))))
      end
  | _, _ => Raise TypeError
  end).

Definition daily_key (user_id date : value) : string :=
  py_format user_id +:+ "_" +:+ py_format date.

Definition _update_screentime_cache_body (data : value) (e : env) : M unit :=
  user_id <- lift (subscript data "user_id") ;;
  date <- lift (subscript data "date") ;;
  let daily_ref := daily_key user_id date in
  (* doc = daily_ref.get() *)
  when_raises (get_raises e) StoreError ;;;
  doc <- (fun w => (w, Ok (screentime_daily w !! daily_ref))) ;;
  let apps_data :=
    match doc with
    | Some existing_data => default (VDict []) (dict_get "apps" existing_data)
    | None => VDict []
    end in
  apps_data <- lift (update_app_time data apps_data) ;;
  total_time <- lift (sum_time_spent apps_data (VInt 0)) ;;
  (* daily_ref.set({..}, merge=True) *)
  when_raises (set_raises e) StoreError ;;;
  modify (with_screentime_daily (fun m =>
    <[daily_ref := merge_doc
         [("user_id", user_id);
          ("date", date);
          ("total_time_minutes", total_time);
          ("apps", VDict apps_data);
          ("last_updated", VTime (server_time e))]
         (m !! daily_ref)]> m)) ;;;
  (* user_ref.update({..}): the document must exist *)
  user_ref <- document user_id ;;
  when_raises (update_raises e) StoreError ;;;
  user_doc <- (fun w => (w, match users w !! user_ref with
                            | Some d => Ok d
                            | None => Raise NotFound
                            end)) ;;
  modify (with_users (fun m =>
    <[user_ref :=
        dict_set "daily_screentime_minutes" total_time
          (dict_set "last_screentime_update" (VTime (server_time e)) user_doc)]> m)).

Definition _update_screentime_cache (data : value) (e : env) : M unit :=
  try_except (_update_screentime_cache_body data e)
             (log_error (CacheUpdateError Screentime)).

(** *** Validation and dispatch  ([_process_market_data],
    [_process_screentime_data]) *)

Definition market_row (data : value) (e : env) : res dict :=
  res_bind (subscript data "symbol") (fun symbol =>
  res_bind (subscript data "price") (fun price =>
  res_bind (py_float price) (fun fprice =>
  res_bind (get_default data "volume" (VInt 0)) (fun volume =>
  res_bind (get_default data "change" (VFloat (S754_zero false))) (fun change =>
  res_bind (get_default data "change_percent" (VFloat (S754_zero false))) (fun change_percent =>
  res_bind (get_default data "high" price) (fun high =>
  res_bind (get_default data "low" price) (fun low =>
  res_bind (get_default data "open" price) (fun open =>
  res_bind (subscript data "timestamp") (fun timestamp =>
  res_bind (get_default data "market" (VStr "NSE")) (fun market =>
  Ok [("symbol", symbol);
      ("price", VFloat fprice);
      ("volume", volume);
      ("change", change);
      ("change_percent", change_percent);
      ("high", high);
      ("low", low);
      ("open", open);
      ("timestamp", timestamp);
      ("market", market);
      ("processed_at", VStr (now e))]))))))))))).

Definition screentime_row (data : value) (e : env) : res dict :=
  res_bind (subscript data "user_id") (fun user_id =>
  res_bind (subscript data "app_name") (fun app_name =>
  res_bind (get_default data "category" (VStr "Other")) (fun category =>
  res_bind (subscript data "time_spent") (fun t =>
  res_bind (py_int t) (fun minutes =>
  res_bind (subscript data "date") (fun date =>
  res_bind (get_default data "device_type" (VStr "mobile")) (fun device_type =>
  Ok [("user_id", user_id);
      ("app_name", app_name);
      ("category", category);
      ("time_spent_minutes", VInt minutes);
      ("date", date);
      ("device_type", device_type);
      ("processed_at", VStr (now e))]))))))).

Definition market_required : list string := ["symbol"; "price"; "timestamp"].
Definition screentime_required : list string :=
  ["user_id"; "app_name"; "time_spent"; "date"].

Definition _process_market_data (data : value) (e : env) : M unit :=
  try_except
    (valid <- lift (all_in market_required data) ;;
     if negb valid then log_error (InvalidFormat Market)
     else
       bq_row <- lift (market_row data e) ;;
       _insert_to_bigquery Market [bq_row] e ;;;
       _update_market_cache data e)
    (log_error (ProcessingError Market)).

Definition _process_screentime_data (data : value) (e : env) : M unit :=
  try_except
    (valid <- lift (all_in screentime_required data) ;;
     if negb valid then log_error (InvalidFormat Screentime)
     else
       bq_row <- lift (screentime_row data e) ;;
       _insert_to_bigquery Screentime [bq_row] e ;;;
       _update_screentime_cache data e)
    (log_error (ProcessingError Screentime)).

(** *** Consumer Loop: the per-message [callback] of
    [_consume_market_data] and [_consume_screentime_data] *)

(** [json.loads(message.data.decode('utf-8'))] *)
Definition decode (m : message) : M value :=
  match payload m with
  | Some data => ret data
  | None => raise ValueError
  end.

(** [asyncio.create_task(self._process_..(data))]: the coroutine is only
    scheduled here, it has not run when the call returns. *)
Definition create_task (s : stream) (data : value) (e : env) : M unit :=
  when_raises (negb (loop_running e)) RuntimeError ;;;
  modify (with_tasks (fun q => q ++ [MkTask s data e])).

Definition ack (m : message) : M unit :=
  modify (with_acked (fun l => l ++ [msg_id m])).
Definition nack (m : message) : M unit :=
  modify (with_nacked (fun l => l ++ [msg_id m])).

Definition callback (s : stream) (m : message) (e : env) : M unit :=
  try_except
    (data <- decode m ;;
     create_task s data e ;;;
     ack m)
    (log_error (CallbackError s) ;;; nack m).

(** The event loop running what was scheduled, one coroutine after the
    other. *)
Definition run_task (t : task) : M unit :=
  match task_stream t with
  | Market => _process_market_data (task_data t) (task_env t)
  | Screentime => _process_screentime_data (task_data t) (task_env t)
  end.

Definition run_ready : M unit :=
  fun w =>
    (foldl (fun w t => (run_task t w).1) (with_tasks (fun _ => []) w) (tasks w),
     Ok tt).

(** One delivery: the callback, then the loop. *)
Definition deliver (s : stream) (m : message) (e : env) : M unit :=
  callback s m e ;;; run_ready.

(** *** The cache merge, one store call at a time

    [_update_screentime_cache] calls the store three times:
    [daily_ref.get()], [daily_ref.set(..)] and [user_ref.update(..)].  It
    takes no lock and opens no transaction, so between two of its calls the
    store serves whoever else calls it, and what the function has read
    stays in its local variables meanwhile.  A merge under way stands
    before one of the three calls, with the locals it needs from there. *)
Inductive merge : Type :=
| AtGet (data : value) (e : env)
| AtSet (data : value) (e : env) (user_id date : value) (doc : option dict)
| AtUpdate (e : env) (user_id total_time : value)
| Merged.

(** From the start of the function to the return of [daily_ref.get()]. *)
Definition merge_get (data : value) (e : env) : M merge :=
  user_id <- lift (subscript data "user_id") ;;
  date <- lift (subscript data "date") ;;
  when_raises (get_raises e) StoreError ;;;
  doc <- (fun w => (w, Ok (screentime_daily w !! daily_key user_id date))) ;;
  ret (AtSet data e user_id date doc).

(** From there to the return of [daily_ref.set({..}, merge=True)]: the
    totals are computed from the document that was read, and merged into
    the document the store holds by then. *)
Definition merge_set (data : value) (e : env) (user_id date : value)
    (doc : option dict) : M merge :=
  let daily_ref := daily_key user_id date in
  let apps_data :=
    match doc with
    | Some existing_data => default (VDict []) (dict_get "apps" existing_data)
    | None => VDict []
    end in
  apps_data <- lift (update_app_time data apps_data) ;;
  total_time <- lift (sum_time_spent apps_data (VInt 0)) ;;
  when_raises (set_raises e) StoreError ;;;
  modify (with_screentime_daily (fun m =>
    <[daily_ref := merge_doc
         [("user_id", user_id);
          ("date", date);
          ("total_time_minutes", total_time);
          ("apps", VDict apps_data);
          ("last_updated", VTime (server_time e))]
         (m !! daily_ref)]> m)) ;;;
  ret (AtUpdate e user_id total_time).

(** From there to the end of the function. *)
Definition merge_update (e : env) (user_id total_time : value) : M merge :=
  user_ref <- document user_id ;;
  when_raises (update_raises e) StoreError ;;;
  user_doc <- (fun w => (w, match users w !! user_ref with
                            | Some d => Ok d
                            | None => Raise NotFound
                            end)) ;;
  modify (with_users (fun m =>
    <[user_ref :=
        dict_set "daily_screentime_minutes" total_time
          (dict_set "last_screentime_update" (VTime (server_time e)) user_doc)]> m)) ;;;
  ret Merged.

(** The next store call of a merge; an exception ends the merge in the
    function's [except], which logs. *)
Definition merge_step (m : merge) (w : World) : World * merge :=
  let caught (c : M merge) :=
    match c w with
    | (w', Ok m') => (w', m')
    | (w', Raise _) => ((log_error (CacheUpdateError Screentime) w').1, Merged)
    end in
  match m with
  | AtGet data e => caught (merge_get data e)
  | AtSet data e user_id date doc => caught (merge_set data e user_id date doc)
  | AtUpdate e user_id total_time => caught (merge_update e user_id total_time)
  | Merged => (w, Merged)
  end.

(** The store serves the merges in the order their calls reach it. *)
Definition step_at (i : nat) (cfg : list merge * World) : list merge * World :=
  match cfg.1 !! i with
  | Some m => let '(w', m') := merge_step m cfg.2 in (<[i := m']> cfg.1, w')
  | None => cfg
  end.

Definition run_schedule (schedule : list nat) (cfg : list merge * World)
  : list merge * World :=
  foldl (fun cfg i => step_at i cfg) cfg schedule.

Definition is_merged (m : merge) : bool :=
  match m with Merged => true | _ => false end.

End Code.
End Consumer.

(** ** What the statements below read off the state *)

Module Reading.
Import Py Store Consumer.

(** A value as [json.loads] builds it: no map has a key twice. *)
Fixpoint wf (v : value) : bool :=
  match v with
  | VDict d =>
      bool_decide (NoDup (map fst d))
      && forallb (fun kv => match kv with (_, x) => wf x end) d
  | _ => true
  end.

(** [new] written over [old] field by field leaves exactly [new]: the
    stored fields are the first fields of [new], in the same order, and
    each written value absorbs the stored one. *)
Inductive covers : dict -> dict -> Prop :=
| covers_nil n : covers n []
| covers_cons k v ov n o :
    merge_value v ov = v -> covers n o -> covers ((k, v) :: n) ((k, ov) :: o).

(** The minutes recorded for one app entry of a day document. *)
Definition entry_minutes (entry : value) : option Z :=
  match entry with
  | VDict fields =>
      match dict_get "time_spent" fields with
      | Some (VInt t) => Some t
      | _ => None
      end
  | _ => None
  end.

(** The [apps] map of a day document, empty when the field is absent. *)
Definition apps_of (doc : dict) : option dict :=
  match dict_get "apps" doc with
  | Some (VDict apps) => Some apps
  | Some _ => None
  | None => Some []
  end.

(** The per-app totals of a day document, in the order of its [apps] map. *)
Fixpoint per_app (apps : dict) : option (list (string * Z)) :=
  match apps with
  | [] => Some []
  | (name, entry) :: apps' =>
      match entry_minutes entry, per_app apps' with
      | Some t, Some rest => Some ((name, t) :: rest)
      | _, _ => None
      end
  end.

Definition per_app_totals (doc : dict) : option (list (string * Z)) :=
  match apps_of doc with
  | Some apps => per_app apps
  | None => None
  end.

Fixpoint total_of (name : string) (totals : list (string * Z)) : option Z :=
  match totals with
  | [] => None
  | (n, t) :: rest => if String.eqb name n then Some t else total_of name rest
  end.

Definition sum_totals (totals : list (string * Z)) : Z :=
  foldr (fun nt acc => nt.2 + acc) 0 totals.

(** The per-app total of [name] in the day document stored under [key]. *)
Definition app_total (key name : string) (w : World) : option Z :=
  match screentime_daily w !! key with
  | Some doc =>
      match per_app_totals doc with
      | Some totals => total_of name totals
      | None => None
      end
  | None => None
  end.

(** Everything the two sinks hold: the archive tables and the cache
    collections. *)
Definition sinks (w : World) :=
  (market_table w, screentime_table w,
   market_data w, price_history w, screentime_daily w, users w).

(** A field value that is not itself a map. *)
Definition flat (v : value) : bool :=
  match v with VDict _ => false | _ => true end.

Definition flat_fields (d : dict) : bool :=
  forallb (fun kv => flat kv.2) d.

(** The entries of the price history of a symbol, without their ids. *)
Definition history_entries (symbol : string) (w : World) : list dict :=
  map snd (history_of symbol w).

(** The price history of a symbol as its readers get it, from
    [history_ref.order_by('timestamp')]. *)
Definition history_by_timestamp `{Platform} (symbol : string) (w : World) : list dict :=
  map snd (order_by "timestamp" (history_of symbol w)).

(** [a] comes no later than [b] in the store's order of their timestamps. *)
Definition timestamp_le `{Platform} (a b : dict) : Prop :=
  field_order "timestamp" a b = true.

(** The history entries a run of ticks asks the store to add. *)
Definition entries_of `{Platform} (events : list (value * env)) : list dict :=
  map (fun de => match history_entry de.1 with
                 | Ok entry => entry
                 | Raise _ => []
                 end) events.

(** The store's order of timestamps compares any two of these entries. *)
Definition comparable `{Platform} (entries : list dict) : Prop :=
  forall a b, In a entries -> In b entries -> timestamp_le a b \/ timestamp_le b a.

(** The store's order of timestamps is transitive on these entries, and no
    two different entries share a timestamp. *)
Definition distinct_timestamps `{Platform} (entries : list dict) : Prop :=
  (forall a b c, In a entries -> In b entries -> In c entries ->
     timestamp_le a b -> timestamp_le b c -> timestamp_le a c)
  /\ (forall a b, In a entries -> In b entries ->
        timestamp_le a b -> timestamp_le b a -> a = b).

(** Modelled from the spec: [date] "must parse as YYYY-MM-DD"; the source
    has no such check in the consumer.  Four digits, a dash, two digits, a
    dash, two digits, naming a day of the calendar. *)
Definition digit_of (c : Ascii.ascii) : option nat :=
  let n := Ascii.nat_of_ascii c in
  if ((48 <=? n) && (n <=? 57))%nat then Some (n - 48)%nat else None.

Definition two_digits (a b : Ascii.ascii) : option nat :=
  match digit_of a, digit_of b with
  | Some x, Some y => Some (10 * x + y)%nat
  | _, _ => None
  end.

Definition leap_year (y : nat) : bool :=
  ((y mod 4 =? 0) && (negb (y mod 100 =? 0) || (y mod 400 =? 0)))%nat.

Definition days_in_month (y m : nat) : nat :=
  match m with
  | 1 | 3 | 5 | 7 | 8 | 10 | 12 => 31
  | 4 | 6 | 9 | 11 => 30
  | 2 => if leap_year y then 29 else 28
  | _ => 0
  end%nat.

Definition is_ymd (s : string) : bool :=
  match s with
  | String y1 (String y2 (String y3 (String y4 (String d1
      (String m1 (String m2 (String d2 (String a1 (String a2 EmptyString))))))))) =>
      match two_digits y1 y2, two_digits y3 y4, two_digits m1 m2, two_digits a1 a2 with
      | Some yh, Some yl, Some m, Some d =>
          let y := (100 * yh + yl)%nat in
          Ascii.eqb d1 "-"%char && Ascii.eqb d2 "-"%char
          && (1 <=? y)%nat && (1 <=? d)%nat && (d <=? days_in_month y m)%nat
      | _, _, _, _ => false
      end
  | _ => false
  end.

(** A market tick as the data model has it: a map with a text [symbol], a
    [price] that [float(..)] accepts, a [timestamp], and no field that is
    itself a map. *)
Definition market_event_ok `{Platform} (symbol : string) (data : value) : bool :=
  match data with
  | VDict d =>
      match dict_get "symbol" d, dict_get "price" d with
      | Some (VStr s), Some price =>
          String.eqb s symbol
          && match py_float price with Ok _ => true | Raise _ => false end
          && bool_decide (is_Some (dict_get "timestamp" d))
          && flat_fields d
      | _, _ => false
      end
  | _ => false
  end.

(** The fields [_update_market_cache] writes, in the order it writes them. *)
Definition market_keys : list string :=
  ["symbol"; "current_price"; "volume"; "change"; "change_percent";
   "high"; "low"; "last_updated"; "market"].

(** What [_update_screentime_cache] takes as [apps_data] from the store:
    the [apps] field of the day document, an empty map when the document or
    the field is absent. *)
Definition stored_apps (doc : option dict) : value :=
  match doc with
  | Some existing_data => default (VDict []) (dict_get "apps" existing_data)
  | None => VDict []
  end.

(** The document [_update_screentime_cache] writes for a day. *)
Definition day_fields (user_id date total_time : value) (apps_data : dict)
    (e : env) : dict :=
  [("user_id", user_id);
   ("date", date);
   ("total_time_minutes", total_time);
   ("apps", VDict apps_data);
   ("last_updated", VTime (server_time e))].

(** The per-app totals a day document holds when it is absent (none) or
    well formed; [None] for a document this pipeline cannot have written. *)
Definition day_state (doc : option dict) : option (list (string * Z)) :=
  match stored_apps doc with
  | VDict apps => if wf (VDict apps) then per_app apps else None
  | _ => None
  end.

(** A screen-time event of [minutes] minutes of [app] for a user and a
    date: the four required fields are there, the app name is text,
    [int(..)] reads [minutes] out of [time_spent], and no map in the
    payload has a key twice. *)
Definition usage_event `{Platform} (data user_id date : value) (app : string)
    (minutes : Z) : Prop :=
  subscript data "user_id" = Ok user_id
  /\ subscript data "date" = Ok date
  /\ subscript data "app_name" = Ok (VStr app)
  /\ (exists t, subscript data "time_spent" = Ok t /\ py_int t = Ok minutes)
  /\ wf data = true.

(** Merges of one event, one per environment, none of which has called
    the store yet. *)
Definition merges_of (data : value) (envs : list env) : list merge :=
  map (AtGet data) envs.

(** Each merge makes its three calls before the next makes its first. *)
Definition one_by_one (n : nat) : list nat :=
  flat_map (fun i => [i; i; i]) (seq 0 n).

(** Every merge has read before the first writes, and every merge has
    written before the first updates the user. *)
Definition readers_first (n : nat) : list nat :=
  seq 0 n ++ seq 0 n ++ seq 0 n.

(** One round: every merge makes its next call, the first merge first. *)
Fixpoint sweep `{Platform} (pool : list merge) (w : World) : list merge * World :=
  match pool with
  | [] => ([], w)
  | m :: pool' =>
      let '(w1, m1) := merge_step m w in
      let '(pool1, w2) := sweep pool' w1 in
      (m1 :: pool1, w2)
  end.

(** The function called once per environment, one call after the other. *)
Definition merge_in_turn `{Platform} (data : value) (envs : list env) (w : World) : World :=
  foldl (fun w e => (_update_screentime_cache data e w).1) w envs.

End Reading.

(** ** A platform and inputs for the worked examples *)

Module Examples.
Import Py Store Consumer Reading.

(** An unsigned decimal literal. *)
Fixpoint digits_value (s : string) (acc : N) : option N :=
  match s with
  | EmptyString => Some acc
  | String c s' =>
      match digit_of c with
      | Some d => digits_value s' (10 * acc + N.of_nat d)%N
      | None => None
      end
  end.

Definition decimal (s : string) : option Z :=
  match s with
  | EmptyString => None
  | _ => option_map Z.of_N (digits_value s 0%N)
  end.

Definition rank (v : value) : nat :=
  match v with
  | VNull => 0 | VBool _ => 1 | VInt _ | VFloat _ => 2 | VTime _ => 3
  | VStr _ => 4 | VList _ => 5 | VDict _ => 6
  end%nat.

(** Reads unsigned decimal literals, prints integers in decimal, names the
    documents it creates [auto-0], [auto-1], .., and orders values by kind,
    text by code point, integers and timestamps by size. *)
#[export] Instance plain : Platform := {|
  float_of_str s :=
    match decimal s with
    | Some n => match float_of_int n with Ok f => Some f | Raise _ => None end
    | None => None
    end;
  int_of_str := decimal;
  str_of v :=
    match v with
    | VInt n => pretty n
    | VNull => "None"
    | VBool true => "True"
    | VBool false => "False"
    | _ => "?"
    end;
  auto_id n := "auto-" +:+ pretty n;
  field_leb a b :=
    match a, b with
    | VStr x, VStr y => String.leb x y
    | VInt x, VInt y => (x <=? y)%Z
    | VTime x, VTime y => (x <=? y)%nat
    | _, _ => (rank a <=? rank b)%nat
    end
|}.

(** No failure anywhere: the loop runs, the archive accepts, no store call
    raises. *)
Definition calm (t : nat) : env :=
  MkEnv ("2024-01-01T00:00:" +:+ pretty t) t true (BqReturns [])
        false false false false false false.

Definition three_digits (i : nat) : string :=
  pretty (i / 100)%nat +:+ pretty (i / 10 mod 10)%nat +:+ pretty (i mod 10)%nat.

(** The [i]-th tick of a run of ticks for one symbol, a millisecond apart. *)
Definition tick (i : nat) : value :=
  VDict [("symbol", VStr "INFY");
         ("price", VInt (1500 + Z.of_nat i));
         ("volume", VInt 10);
         ("timestamp", VStr ("2024-01-01T09:15:00." +:+ three_digits i))].

Definition ticks (n : nat) : list (value * env) :=
  map (fun i => (tick i, calm i)) (seq 0 n).

(** Cache merges applied one after the other. *)
Definition merge_all `{Platform} (events : list (value * env)) (w : World) : World :=
  foldl (fun w de => (_update_market_cache de.1 de.2 w).1) w events.

Definition usage (app : string) (minutes : Z) : value :=
  VDict [("user_id", VStr "u1");
         ("app_name", VStr app);
         ("time_spent", VInt minutes);
         ("date", VStr "2024-01-01")].


(** The archive rejects the row at its schema level; the store is fine. *)
Definition row_rejected : env :=
  MkEnv "2024-01-01T00:00:00" 0 true
        (BqReturns [VDict [("index", VInt 0);
                           ("errors", VList [VStr "no such field: open"])]])
        false false false false false false.

(** A screen-time event whose date is no date. *)
Definition undated_usage : value :=
  VDict [("user_id", VStr "u1");
         ("app_name", VStr "Chrome");
         ("time_spent", VInt 10);
         ("date", VStr "not-a-date")].

(** A tick without its price. *)
Definition unpriced_tick : dict :=
  [("symbol", VStr "INFY"); ("timestamp", VStr "2024-01-01T09:15:00.000")].

(** The same run against a store client that refuses to stream the
    limited query. *)
Definition unstreamed (t : nat) : env :=
  MkEnv ("2024-01-01T00:00:" +:+ pretty t) t true (BqReturns [])
        false false false true false false.

Definition ticks_unstreamed (n : nat) : list (value * env) :=
  map (fun i => (tick i, unstreamed i)) (seq 0 n).

(** Two ticks arriving against the order of their timestamps. *)
Definition late_tick_first : list (value * env) :=
  [(tick 1, calm 1); (tick 0, calm 2)].

(** Ten minutes of Chrome of a user the store does not know. *)
Definition guest_usage : value :=
  VDict [("user_id", VStr "u2");
         ("app_name", VStr "Chrome");
         ("time_spent", VInt 10);
         ("date", VStr "2024-01-01")].

(** A store that knows the user [u1]. *)
Definition registered : World :=
  with_users (fun m => <["u1" := [("email", VStr "u1@example.org");
                                   ("daily_screentime_minutes", VInt 999)]]> m)
             empty_world.

(** The world after ten minutes of Chrome were merged for [u1]. *)
Definition after_ten `{Platform} : World :=
  (_update_screentime_cache (usage "Chrome" 10) (calm 1) registered).1.

(** Fifty environments in which no call fails. *)
Definition fifty : list env := map calm (seq 0 50).

End Examples.

(** ** Further readings and inputs *)

Module Scenarios.
Import Py Store Consumer Reading Examples.

(** The document store alone, and the archive alone. *)
Definition cache_of (w : World) :=
  (market_data w, price_history w, screentime_daily w, users w).

Definition archive_of (w : World) := (market_table w, screentime_table w).

Definition is_object (data : value) : bool :=
  match data with VDict _ => true | _ => false end.

(** A screen-time event without its date. *)
Definition undated : dict :=
  [("user_id", VStr "u1"); ("app_name", VStr "Chrome"); ("time_spent", VInt 10)].

(** A JSON array that happens to hold the names of the required fields. *)
Definition field_names : value :=
  VList [VStr "symbol"; VStr "price"; VStr "timestamp"].

(** A tick whose price is [null]. *)
Definition null_priced : dict :=
  [("symbol", VStr "INFY"); ("price", VNull);
   ("timestamp", VStr "2024-01-01T09:15:00.000")].

(** Two worlds that hold the same documents and hand out the same fresh
    identifiers. *)
Definition same_store (w1 w2 : World) : Prop :=
  cache_of w1 = cache_of w2 /\ next_id w1 = next_id w2.

(** A computation that reads nothing but the document store: from worlds
    with the same store it returns the same and leaves the same store. *)
Definition store_only {A} (c : M A) : Prop :=
  forall w1 w2, same_store w1 w2 ->
    same_store (c w1).1 (c w2).1 /\ (c w1).2 = (c w2).2.

(** The document a market cache update addresses: the symbol when it is
    text, a name of the store's own making when it is [null]. *)
Definition market_ref_of `{Platform} (data : value) (w : World) : string :=
  match subscript data "symbol" with
  | Ok (VStr s) => s
  | Ok VNull => auto_id (next_id w)
  | _ => ""
  end.

(** The day document and the user document a screen-time cache update
    addresses. *)
Definition day_ref_of `{Platform} (data : value) : string :=
  match subscript data "user_id", subscript data "date" with
  | Ok user_id, Ok date => daily_key user_id date
  | _, _ => ""
  end.

Definition user_ref_of `{Platform} (data : value) (w : World) : string :=
  match subscript data "user_id" with
  | Ok (VStr u) => u
  | Ok VNull => auto_id (next_id w)
  | _ => ""
  end.

(** The fields stored for one app in the day document under [key]. *)
Definition app_entry (key name : string) (w : World) : option dict :=
  match screentime_daily w !! key ≫= dict_get "apps" with
  | Some (VDict apps) =>
      match dict_get name apps with
      | Some (VDict fields) => Some fields
      | _ => None
      end
  | _ => None
  end.

(** Screen-time cache merges applied one after the other. *)
Definition merge_usage `{Platform} (events : list (value * env)) (w : World) : World :=
  foldl (fun w de => (_update_screentime_cache de.1 de.2 w).1) w events.

(** The app an event names and the minutes it carries, as the cache update
    reads them. *)
Definition event_app (data : value) : option string :=
  match subscript data "app_name" with
  | Ok (VStr name) => Some name
  | _ => None
  end.

Definition event_minutes `{Platform} (data : value) : Z :=
  match res_bind (subscript data "time_spent") py_int with
  | Ok minutes => minutes
  | Raise _ => 0
  end.

Definition names_app (app : string) (data : value) : bool :=
  match event_app data with
  | Some name => String.eqb name app
  | None => false
  end.

(** The minutes a batch of events carries for one app. *)
Definition minutes_of `{Platform} (app : string) (events : list (value * env)) : Z :=
  foldr (fun de acc => (if names_app app de.1 then event_minutes de.1 else 0) + acc)
        0 events.

(** A per-app total after a batch of events. *)
Definition after_batch `{Platform} (app : string) (events : list (value * env))
    (total : option Z) : option Z :=
  if existsb (fun de => names_app app de.1) events
  then Some (default 0 total + minutes_of app events)
  else total.

(** A store failure on the history write only. *)
Definition add_fails : env :=
  MkEnv "2024-01-01T00:00:00" 3 true (BqReturns [])
        false false true false false false.

(** 28.75 minutes of Chrome, reported as a fraction, with its own category. *)
Definition fractional_usage : value :=
  VDict [("user_id", VStr "u1");
         ("app_name", VStr "Chrome");
         ("time_spent", VFloat (S754_finite false 8092405580431360 (-48)));
         ("category", VStr "Work");
         ("date", VStr "2024-01-01")].

(** Three events for [u1] on one date: Chrome, Slack, Chrome again. *)
Definition mixed_batch : list (value * env) :=
  [(usage "Chrome" 10, calm 1); (usage "Slack" 3, calm 2); (usage "Chrome" 5, calm 3)].

(** The archive answers with an exception; the store is fine. *)
Definition archive_down : env :=
  MkEnv "2024-01-01T00:00:00" 0 true BqRaises
        false false false false false false.

End Scenarios.

(** ** Starting and stopping the consumers

    [start_consumers], [stop_consumers] and the [while self._running] loops
    of [_consume_market_data] and [_consume_screentime_data]: the flag, the
    loop coroutines that are alive, and the streaming pulls that
    [subscriber_client.subscribe] has opened.  The future that [subscribe]
    returns is assigned and never used again, so nothing in the class
    cancels a pull. *)

Module Lifecycle.
Import Store.

Inductive service_log_entry : Type :=
| ConsumerError (s : stream).

Record Service : Type := MkService {
  _running : bool;
  market_loops : nat;          (* live [_consume_market_data] coroutines *)
  screentime_loops : nat;      (* live [_consume_screentime_data] coroutines *)
  pulls : list (stream * nat); (* open streaming pulls, with their max_messages *)
  slept : nat;                 (* seconds spent in [asyncio.sleep] by the loops *)
  service_log : list service_log_entry
}.

(** A freshly constructed [PubSubConsumer]. *)
Definition new_service : Service := MkService false 0 0 [] 0 [].

(** [pubsub_v1.types.FlowControl(max_messages=..)] *)
Definition max_messages (s : stream) : nat :=
  match s with Market => 1000 | Screentime => 500 end%nat.

Definition loops (s : stream) (sv : Service) : nat :=
  match s with Market => market_loops sv | Screentime => screentime_loops sv end.

(** [self._running = True], then one [asyncio.create_task] per stream. *)
Definition start_consumers (sv : Service) : Service :=
  MkService true (S (market_loops sv)) (S (screentime_loops sv))
            (pulls sv) (slept sv) (service_log sv).

(** [self._running = False], and nothing else. *)
Definition stop_consumers (sv : Service) : Service :=
  MkService false (market_loops sv) (screentime_loops sv)
            (pulls sv) (slept sv) (service_log sv).

Definition exit_loop (s : stream) (sv : Service) : Service :=
  match s with
  | Market =>
      MkService (_running sv) (pred (market_loops sv)) (screentime_loops sv)
                (pulls sv) (slept sv) (service_log sv)
  | Screentime =>
      MkService (_running sv) (market_loops sv) (pred (screentime_loops sv))
                (pulls sv) (slept sv) (service_log sv)
  end.

(** One turn of one live loop of stream [s], from its test of the flag to
    its next [await asyncio.sleep(..)]: the loop ends when the flag is
    down; else it subscribes and sleeps one second, or logs the failure of
    [subscribe] and sleeps five. *)
Definition loop_turn (s : stream) (subscribe_raises : bool) (sv : Service) : Service :=
  match loops s sv with
  | O => sv
  | S _ =>
      if negb (_running sv) then exit_loop s sv
      else if subscribe_raises then
        MkService (_running sv) (market_loops sv) (screentime_loops sv)
                  (pulls sv) (slept sv + 5) (service_log sv ++ [ConsumerError s])
      else
        MkService (_running sv) (market_loops sv) (screentime_loops sv)
                  (pulls sv ++ [(s, max_messages s)]) (slept sv + 1) (service_log sv)
  end.

(** What can happen to the service, in the order the event loop lets it
    happen. *)
Inductive action : Type :=
| Start
| Stop
| Turn (s : stream) (subscribe_raises : bool).

Definition act (a : action) (sv : Service) : Service :=
  match a with
  | Start => start_consumers sv
  | Stop => stop_consumers sv
  | Turn s subscribe_raises => loop_turn s subscribe_raises sv
  end.

Definition run (actions : list action) (sv : Service) : Service :=
  foldl (fun sv a => act a sv) sv actions.

Definition is_start (a : action) : bool :=
  match a with Start => true | _ => false end.

(** A minute of both loops turning, every [subscribe] succeeding. *)
Definition one_minute : list action :=
  concat (replicate 60 [Turn Market false; Turn Screentime false]).

End Lifecycle.

(** ** The consumer of the market-data service

    [stock_market_data/app/services/pubsub_consumer.py]: the two callbacks
    of the other [PubSubConsumer].  They write both sinks themselves, inside
    the [try] that ends in [message.ack()], and leave the payload as it
    came. *)

Module Sibling.
Import Py Store.

(** What one delivery finds: which clients the object holds
    ([if self.firestore_client:], [if self.bigquery_client:]), whether the
    store refuses the document (its name, or the write in [doc_ref.set]),
    whether [get_table] raises, and what [insert_rows_json] answers. *)
Record calls : Type := MkCalls {
  firestore_client : bool;
  bigquery_client : bool;
  doc_set_raises : bool;
  get_table_raises : bool;
  insert_rows_json : bq_outcome
}.

Inductive sibling_log : Type :=
| ProcessingFailed (s : stream)
| InsertErrors (errors : list value).

Record Sinks : Type := MkSinks {
  market_docs : gmap string dict;         (* collection market_data *)
  screentime_docs : list (string * dict); (* collection screentime_data *)
  market_rows : list dict;                (* archive, market table *)
  screentime_rows : list dict;            (* archive, screen-time table *)
  acks : list nat;
  nacks : list nat;
  errors_logged : list sibling_log;
  next_doc : nat
}.

Definition no_sinks : Sinks := MkSinks ∅ [] [] [] [] [] [] 0.

Section Code.
Context `{Platform}.

Definition set_market_doc (ref : string) (data : dict) (w : Sinks) : Sinks :=
  MkSinks (<[ref := data]> (market_docs w)) (screentime_docs w) (market_rows w)
          (screentime_rows w) (acks w) (nacks w) (errors_logged w) (next_doc w).

Definition add_screentime_doc (ref : string) (data : dict) (w : Sinks) : Sinks :=
  MkSinks (market_docs w) (screentime_docs w ++ [(ref, data)]) (market_rows w)
          (screentime_rows w) (acks w) (nacks w) (errors_logged w) (next_doc w).

Definition take_id (w : Sinks) : Sinks :=
  MkSinks (market_docs w) (screentime_docs w) (market_rows w)
          (screentime_rows w) (acks w) (nacks w) (errors_logged w) (S (next_doc w)).

Definition append_row (s : stream) (row : dict) (w : Sinks) : Sinks :=
  match s with
  | Market =>
      MkSinks (market_docs w) (screentime_docs w) (market_rows w ++ [row])
              (screentime_rows w) (acks w) (nacks w) (errors_logged w) (next_doc w)
  | Screentime =>
      MkSinks (market_docs w) (screentime_docs w) (market_rows w)
              (screentime_rows w ++ [row]) (acks w) (nacks w) (errors_logged w) (next_doc w)
  end.

Definition log_sibling (entry : sibling_log) (w : Sinks) : Sinks :=
  MkSinks (market_docs w) (screentime_docs w) (market_rows w)
          (screentime_rows w) (acks w) (nacks w) (errors_logged w ++ [entry]) (next_doc w).

Definition ack (m : message) (w : Sinks) : Sinks :=
  MkSinks (market_docs w) (screentime_docs w) (market_rows w)
          (screentime_rows w) (acks w ++ [msg_id m]) (nacks w) (errors_logged w) (next_doc w).

Definition nack (m : message) (w : Sinks) : Sinks :=
  MkSinks (market_docs w) (screentime_docs w) (market_rows w)
          (screentime_rows w) (acks w) (nacks w ++ [msg_id m]) (errors_logged w) (next_doc w).

(** [collection('market_data').document(data.get('symbol', 'unknown'))]
    and [doc_ref.set(data)], a write without [merge]: the document becomes
    the payload. *)
Definition store_market (data : dict) (c : calls) (w : Sinks) : Sinks * res unit :=
  if firestore_client c then
    match default (VStr "unknown") (dict_get "symbol" data) with
    | VStr ref =>
        if doc_set_raises c then (w, Raise StoreError)
        else (set_market_doc ref data w, Ok tt)
    | VNull =>
        let ref := auto_id (next_doc w) in
        if doc_set_raises c then (take_id w, Raise StoreError)
        else (set_market_doc ref data (take_id w), Ok tt)
    | _ => (w, Raise ValueError)
    end
  else (w, Ok tt).

(** [collection('screentime_data').document()] and [doc_ref.set(data)]:
    a document of its own for every delivery. *)
Definition store_screentime (data : dict) (c : calls) (w : Sinks) : Sinks * res unit :=
  if firestore_client c then
    let ref := auto_id (next_doc w) in
    if doc_set_raises c then (take_id w, Raise StoreError)
    else (add_screentime_doc ref data (take_id w), Ok tt)
  else (w, Ok tt).

(** [get_table], [insert_rows_json(table, [data])], and
    [if errors: logger.error(..)]. *)
Definition archive (s : stream) (data : dict) (c : calls) (w : Sinks) : Sinks * res unit :=
  if bigquery_client c then
    if get_table_raises c then (w, Raise StoreError)
    else match insert_rows_json c with
         | BqRaises => (w, Raise StoreError)
         | BqReturns [] => (append_row s data w, Ok tt)
         | BqReturns errors => (log_sibling (InsertErrors errors) w, Ok tt)
         end
  else (w, Ok tt).

Definition store (s : stream) : dict -> calls -> Sinks -> Sinks * res unit :=
  match s with Market => store_market | Screentime => store_screentime end.

(** The body of the callback's [try], up to [message.ack()]. *)
Definition callback_body (s : stream) (m : message) (c : calls) (w : Sinks)
  : Sinks * res unit :=
  match payload m with
  | None => (w, Raise ValueError)            (* json.loads *)
  | Some (VDict data) =>
      match store s data c w with
      | (w1, Raise ex) => (w1, Raise ex)
      | (w1, Ok _) =>
          match archive s data c w1 with
          | (w2, Raise ex) => (w2, Raise ex)
          | (w2, Ok _) => (ack m w2, Ok tt)
          end
      end
  | Some _ => (w, Raise AttributeError)      (* data.get(..) in the log line *)
  end.

(** [callback(message)] of [_consume_market_data] and of
    [_consume_screentime_data]. *)
Definition callback (s : stream) (m : message) (c : calls) (w : Sinks) : Sinks :=
  match callback_body s m c w with
  | (w', Ok _) => w'
  | (w', Raise _) => nack m (log_sibling (ProcessingFailed s) w')
  end.

(** Does every call the callback makes for this payload return? *)
Definition store_returns (s : stream) (data : dict) (c : calls) : bool :=
  negb (firestore_client c)
  || (negb (doc_set_raises c)
      && match s with
         | Market =>
             match default (VStr "unknown") (dict_get "symbol" data) with
             | VStr _ | VNull => true
             | _ => false
             end
         | Screentime => true
         end).

Definition archive_returns (c : calls) : bool :=
  negb (bigquery_client c)
  || (negb (get_table_raises c)
      && match insert_rows_json c with BqRaises => false | BqReturns _ => true end).

Definition all_return (s : stream) (m : message) (c : calls) : bool :=
  match payload m with
  | Some (VDict data) => store_returns s data c && archive_returns c
  | _ => false
  end.

Definition docs_written (w : Sinks) : nat := length (screentime_docs w).

Fixpoint redeliver (n : nat) (s : stream) (m : message) (c : calls) (w : Sinks) : Sinks :=
  match n with
  | O => w
  | S n' => redeliver n' s m c (callback s m c w)
  end.

End Code.

(** A market payload with no price, an archive whose insert raises, and a
    store that holds an older TCS document. *)
Definition unpriced_note : message :=
  MkMessage 7 (Some (VDict [("symbol", VStr "TCS"); ("note", VStr "no price")])).

Definition usage_note : message :=
  MkMessage 8 (Some (VDict [("user_id", VStr "u1"); ("app_name", VStr "Chrome")])).

Definition archive_raises : calls := MkCalls true true false false BqRaises.

Definition stale_tcs : Sinks :=
  MkSinks {[ "TCS" := [("symbol", VStr "TCS"); ("current_price", VInt 3500)] ]}
          [] [] [] [] [] [] 0.

End Sibling.

(** ** The receiving routes of the market-data service

    [stock_market_data/app/routes/pubsub.py]: [receive_screentime_data],
    [receive_market_data] and [_categorize_app], with the
    [publish_screentime_data] and [publish_market_data] of that service's
    [PubSubConsumer] which they call.  A topic is the list of the payloads
    published to it; a payload is the dictionary handed to [json.dumps],
    which is what [json.loads] gives back to a consumer. *)

Module Receiver.
Import Py Store.

Module ScreentimeEvent.
Record t : Type := Make {
  device_id : string;
  user_id : string;
  event_type : string;
  timestamp : string;
  data : dict;
  source : string
}.
End ScreentimeEvent.

Module ScreentimeBatch.
Record t : Type := Make {
  device_id : string;
  user_id : string;
  timestamp : string;
  events : list ScreentimeEvent.t;
  batch_size : Z
}.
End ScreentimeBatch.

Module MarketDataEvent.
Record t : Type := Make {
  symbol : string;
  price : spec_float;
  volume : Z;
  change : spec_float;
  change_percent : spec_float;
  timestamp : string;
  source : string
}.
End MarketDataEvent.

(** How one call of [publish_.._data] goes: [_initialize_gcp_clients]
    fails, or [json.dumps], [publish] or [future.result()] raises, or the
    message is published. *)
Inductive publish_outcome : Type :=
| ClientsUnavailable
| PublishRaises
| Published.

Inductive receiver_log : Type :=
| CannotPublish (s : stream)     (* logger.warning in publish_.._data *)
| PublishFailed (s : stream)     (* logger.error in publish_.._data *)
| ReceiveFailed (s : stream).    (* logger.error in the route *)

Record Topics : Type := MkTopics {
  market_topic : list value;
  screentime_topic : list value;
  receiver_logged : list receiver_log
}.

Definition no_topics : Topics := MkTopics [] [] [].

Inductive response : Type :=
| Accepted (message : string) (subject : string) (timestamp : string)
| HTTPException (status_code : Z) (detail : string).

Definition topic (s : stream) (t : Topics) : list value :=
  match s with Market => market_topic t | Screentime => screentime_topic t end.

Definition to_topic (s : stream) (data : dict) (t : Topics) : Topics :=
  match s with
  | Market => MkTopics (market_topic t ++ [VDict data]) (screentime_topic t) (receiver_logged t)
  | Screentime => MkTopics (market_topic t) (screentime_topic t ++ [VDict data]) (receiver_logged t)
  end.

Definition log_receiver (entry : receiver_log) (t : Topics) : Topics :=
  MkTopics (market_topic t) (screentime_topic t) (receiver_logged t ++ [entry]).

(** [publish_market_data] and [publish_screentime_data] of the service's
    [PubSubConsumer]: they answer [True] or [False] and never raise. *)
Definition publish (s : stream) (data : dict) (outcome : publish_outcome) (t : Topics)
  : Topics * bool :=
  match outcome with
  | ClientsUnavailable => (log_receiver (CannotPublish s) t, false)
  | PublishRaises => (log_receiver (PublishFailed s) t, false)
  | Published => (to_topic s data t, true)
  end.

Section Code.
(** [str.lower]. *)
Variable lower : string -> string.

Definition any_in (words : list string) (text : string) : bool :=
  existsb (fun word => is_substring word text) words.

(** [_categorize_app(app_name)]; the argument is whatever
    [event.data.get('app', '')] gave, and only text has [.lower()]. *)
Definition _categorize_app (app_name : value) : res string :=
  match app_name with
  | VStr name =>
      let app_lower := lower name in
      Ok (if any_in ["chrome"; "firefox"; "edge"; "safari"] app_lower then "browsing"
          else if any_in ["word"; "excel"; "powerpoint"; "outlook"] app_lower then "productivity"
          else if any_in ["vscode"; "pycharm"; "intellij"; "sublime"] app_lower then "development"
          else if any_in ["slack"; "teams"; "zoom"; "discord"] app_lower then "communication"
          else if any_in ["youtube"; "netflix"; "spotify"; "twitch"] app_lower then "entertainment"
          else if any_in ["photoshop"; "illustrator"; "figma"; "canva"] app_lower then "design"
          else if any_in ["terminal"; "cmd"; "powershell"] app_lower then "system"
          else "other")
  | _ => Raise AttributeError
  end.

(** The [enriched_data] of [receive_screentime_data]. *)
Definition enriched_usage (event : ScreentimeEvent.t) (received_at : string) : res dict :=
  let data := ScreentimeEvent.data event in
  res_bind (_categorize_app (default (VStr "") (dict_get "app" data))) (fun category =>
  Ok [("device_id", VStr (ScreentimeEvent.device_id event));
      ("user_id", VStr (ScreentimeEvent.user_id event));
      ("event_type", VStr (ScreentimeEvent.event_type event));
      ("timestamp", VStr (ScreentimeEvent.timestamp event));
      ("app_name", default (VStr "unknown") (dict_get "app" data));
      ("title", default (VStr "") (dict_get "title" data));
      ("duration", default (VInt 0) (dict_get "duration" data));
      ("category", VStr category);
      ("source", VStr (ScreentimeEvent.source event));
      ("received_at", VStr received_at)]).

(** [payload] is the enrichment of [event], at some time. *)
Definition enriched (event : ScreentimeEvent.t) (payload : value) : Prop :=
  exists received_at enriched_data,
    enriched_usage event received_at = Ok enriched_data
    /\ payload = VDict enriched_data.

(** [for event in request.events: ..]: the [i]-th event is enriched at
    [clock i] and handed to [publish_screentime_data], whose answer is
    dropped; the inner [except] has nothing to catch. *)
Fixpoint publish_events (events : list ScreentimeEvent.t) (i : nat)
    (clock : nat -> string) (outcome : nat -> publish_outcome) (t : Topics)
  : Topics * res unit :=
  match events with
  | [] => (t, Ok tt)
  | event :: rest =>
      match enriched_usage event (clock i) with
      | Raise ex => (t, Raise ex)
      | Ok enriched_data =>
          publish_events rest (S i) clock outcome
            (publish Screentime enriched_data (outcome i) t).1
      end
  end.

Definition receive_screentime_data (request : ScreentimeBatch.t)
    (clock : nat -> string) (outcome : nat -> publish_outcome) (t : Topics)
  : Topics * response :=
  match publish_events (ScreentimeBatch.events request) 0 clock outcome t with
  | (t', Ok _) =>
      (t', Accepted ("Processed " ++ pretty (ScreentimeBatch.batch_size request)
                       ++ " screentime events")
                    (ScreentimeBatch.device_id request)
                    (clock (length (ScreentimeBatch.events request))))
  | (t', Raise _) =>
      (log_receiver (ReceiveFailed Screentime) t',
       HTTPException 500 "Failed to process screentime data")
  end.

End Code.

(** The [enriched_data] of [receive_market_data]. *)
Definition enriched_tick (request : MarketDataEvent.t) (received_at : string) : dict :=
  [("symbol", VStr (MarketDataEvent.symbol request));
   ("price", VFloat (MarketDataEvent.price request));
   ("volume", VInt (MarketDataEvent.volume request));
   ("change", VFloat (MarketDataEvent.change request));
   ("change_percent", VFloat (MarketDataEvent.change_percent request));
   ("timestamp", VStr (MarketDataEvent.timestamp request));
   ("source", VStr (MarketDataEvent.source request));
   ("received_at", VStr received_at)].

Definition receive_market_data (request : MarketDataEvent.t)
    (clock : nat -> string) (outcome : publish_outcome) (t : Topics)
  : Topics * response :=
  ((publish Market (enriched_tick request (clock 0%nat)) outcome t).1,
   Accepted ("Processed market data for " ++ MarketDataEvent.symbol request)
            (MarketDataEvent.symbol request)
            (clock 1%nat)).

(** The row that the consumer of [backend_main] archives for a tick that
    came through [receive_market_data]. *)
Definition archived_tick (request : MarketDataEvent.t) (processed_at : string) : dict :=
  [("symbol", VStr (MarketDataEvent.symbol request));
   ("price", VFloat (MarketDataEvent.price request));
   ("volume", VInt (MarketDataEvent.volume request));
   ("change", VFloat (MarketDataEvent.change request));
   ("change_percent", VFloat (MarketDataEvent.change_percent request));
   ("high", VFloat (MarketDataEvent.price request));
   ("low", VFloat (MarketDataEvent.price request));
   ("open", VFloat (MarketDataEvent.price request));
   ("timestamp", VStr (MarketDataEvent.timestamp request));
   ("market", VStr "NSE");
   ("processed_at", VStr processed_at)].

(** Is [event.data.get('app', '')] text? *)
Definition app_is_text (event : ScreentimeEvent.t) : bool :=
  match default (VStr "") (dict_get "app" (ScreentimeEvent.data event)) with
  | VStr _ => true
  | _ => false
  end.

(** Lower case for the letters A to Z, for the examples. *)
Fixpoint ascii_lower (s : string) : string :=
  match s with
  | EmptyString => EmptyString
  | String c s' =>
      let n := Ascii.nat_of_ascii c in
      String (if (65 <=? n)%nat && (n <=? 90)%nat then Ascii.ascii_of_nat (n + 32) else c)
             (ascii_lower s')
  end.

Definition every_second (i : nat) : string := "2024-01-01T00:00:0" ++ pretty i.

Definition window (app : value) : ScreentimeEvent.t :=
  ScreentimeEvent.Make "laptop" "u1" "window" "2024-01-01T00:00:00"
                       [("app", app); ("duration", VInt 60)] "activitywatch".

(** Two windows, then one whose [app] is a number, then one more. *)
Definition broken_batch : ScreentimeBatch.t :=
  ScreentimeBatch.Make "laptop" "u1" "2024-01-01T00:00:00"
    [window (VStr "Chrome"); window (VStr "Slack"); window (VInt 7); window (VStr "Zoom")]
    4.

Definition good_batch : ScreentimeBatch.t :=
  ScreentimeBatch.Make "laptop" "u1" "2024-01-01T00:00:00"
    [window (VStr "Chrome"); window (VStr "Slack")] 40.

Definition quote : MarketDataEvent.t :=
  MarketDataEvent.Make "TCS" (S754_finite false 3500 0) 100
                       (S754_zero false) (S754_zero false)
                       "2024-01-01T09:15:00" "feed".

End Receiver.

(** ** The ingest route

    [backend_main/app/routes/screentime.py], [ingest_screen_time_data]: the
    other way into the day documents.  It works on the same collections as
    the consumer's cache updater, and writes one document per request into
    [screentime_records] besides. *)

Module Ingest.
Import Py Store Consumer.
Local Open Scope M_scope.

Module ScreenTimeData.
Record t : Type := Make {
  user_id : string;
  app_name : string;
  time_spent_minutes : Z;
  category : option string;     (* Optional[str] = "Other" *)
  date : string;
  device_type : option string   (* Optional[str] = "mobile" *)
}.
End ScreenTimeData.

(** What one request finds: whether [firestore.Client(..)] raises, which
    store calls raise, and the store's clock. *)
Record calls : Type := MkCalls {
  no_client : bool;
  daily_get_raises : bool;
  daily_set_raises : bool;
  record_set_raises : bool;
  user_update_raises : bool;
  written_at : nat
}.

Record Backend : Type := MkBackend {
  store : World;
  screentime_records : list (string * dict);   (* collection screentime_records *)
  ingest_errors : nat                          (* logger.error calls of the route *)
}.

Inductive response : Type :=
| ScreenTimeResponse (success : bool) (data : dict) (message : string)
| HTTPException (status_code : Z) (detail : string).

(** The value of [Depends(lambda: {})]. *)
Definition current_user_dependency : dict := [].

(** [if not v]. *)
Definition truthy (v : value) : bool :=
  match v with
  | VNull => false
  | VBool b => b
  | VInt n => negb (n =? 0)
  | VFloat (S754_zero _) => false
  | VFloat _ => true
  | VStr s => negb (String.eqb s "")
  | VTime _ => true
  | VList l => match l with [] => false | _ => true end
  | VDict d => match d with [] => false | _ => true end
  end.

Definition optional (o : option string) : value :=
  match o with Some s => VStr s | None => VNull end.

(** The [if data.app_name in apps_data: .. else: ..] statement. *)
Definition ingest_app_time (data : ScreenTimeData.t) (apps_data : value) : res dict :=
  let name := ScreenTimeData.app_name data in
  match apps_data with
  | VDict apps =>
      match dict_get name apps with
      | Some entry =>
          res_bind (subscript entry "time_spent") (fun old =>
          res_bind (num_add old (VInt (ScreenTimeData.time_spent_minutes data))) (fun new =>
          match entry with
          | VDict fields => Ok (dict_set name (VDict (dict_set "time_spent" new fields)) apps)
          | _ => Raise TypeError
          end))
      | None =>
          Ok (dict_set name
                (VDict [("time_spent", VInt (ScreenTimeData.time_spent_minutes data));
                        ("category", optional (ScreenTimeData.category data))])
                apps)
      end
  | _ => Raise TypeError
  end.

Section Code.
Context `{Platform}.
(** Does [datetime.strptime(text, "%Y-%m-%d")] return? *)
Variable strptime_ymd : string -> bool.

(** From [daily_ref = ..] to [daily_ref.set({..}, merge=True)]. *)
Definition merge_day (data : ScreenTimeData.t) (user_id : value) (c : calls) : M value :=
  let daily_ref := daily_key user_id (VStr (ScreenTimeData.date data)) in
  when_raises (daily_get_raises c) StoreError ;;;
  doc <- (fun w => (w, Ok (screentime_daily w !! daily_ref))) ;;
  let apps_data :=
    match doc with
    | Some existing_data => default (VDict []) (dict_get "apps" existing_data)
    | None => VDict []
    end in
  apps_data <- lift (ingest_app_time data apps_data) ;;
  total_time <- lift (sum_time_spent apps_data (VInt 0)) ;;
  when_raises (daily_set_raises c) StoreError ;;;
  modify (with_screentime_daily (fun m =>
    <[daily_ref := merge_doc
         [("user_id", user_id);
          ("date", VStr (ScreenTimeData.date data));
          ("total_time_minutes", total_time);
          ("apps", VDict apps_data);
          ("last_updated", VTime (written_at c))]
         (m !! daily_ref)]> m)) ;;;
  ret total_time.

(** The document written into [screentime_records]. *)
Definition record_of (data : ScreenTimeData.t) (user_id : value) (c : calls) : dict :=
  [("user_id", user_id);
   ("app_name", VStr (ScreenTimeData.app_name data));
   ("category", optional (ScreenTimeData.category data));
   ("time_spent_minutes", VInt (ScreenTimeData.time_spent_minutes data));
   ("date", VStr (ScreenTimeData.date data));
   ("device_type", optional (ScreenTimeData.device_type data));
   ("timestamp", VTime (written_at c))].

(** [user_ref.update({..})]: the document must exist. *)
Definition update_user (user_id total_time : value) (c : calls) : M unit :=
  user_ref <- document user_id ;;
  when_raises (user_update_raises c) StoreError ;;;
  user_doc <- (fun w => (w, match users w !! user_ref with
                            | Some d => Ok d
                            | None => Raise NotFound
                            end)) ;;
  modify (with_users (fun m =>
    <[user_ref :=
        dict_set "daily_screentime_minutes" total_time
          (dict_set "last_screentime_update" (VTime (written_at c)) user_doc)]> m)).

(** [except Exception as e: logger.error(..); raise HTTPException(500, ..)] *)
Definition failed (w : World) (b : Backend) : Backend * response :=
  (MkBackend w (screentime_records b) (S (ingest_errors b)),
   HTTPException 500 "Failed to ingest screen time data").

Definition ingest_screen_time_data (data : ScreenTimeData.t) (current_user : dict)
    (c : calls) (b : Backend) : Backend * response :=
  let user_id := default VNull (dict_get "userId" current_user) in
  if negb (truthy user_id) then
    (b, HTTPException 401 "User not authenticated")
  else if negb (match user_id with
                | VStr u => String.eqb (ScreenTimeData.user_id data) u
                | _ => false
                end) then
    (b, HTTPException 403 "Cannot ingest data for other users")
  else if no_client c then failed (store b) b
  else if negb (strptime_ymd (ScreenTimeData.date data)) then
    (b, HTTPException 400 "Invalid date format. Use YYYY-MM-DD")
  else
    match merge_day data user_id c (store b) with
    | (w1, Raise _) => failed w1 b
    | (w1, Ok total_time) =>
        (* record_ref = db.collection('screentime_records').document() *)
        let record_ref := auto_id (next_id w1) in
        let w2 := with_next_id S w1 in
        if record_set_raises c then failed w2 b
        else
          let records := screentime_records b ++ [(record_ref, record_of data user_id c)] in
          match update_user user_id total_time c w2 with
          | (w3, Raise _) =>
              (MkBackend w3 records (S (ingest_errors b)),
               HTTPException 500 "Failed to ingest screen time data")
          | (w3, Ok _) =>
              (MkBackend w3 records (ingest_errors b),
               ScreenTimeResponse true
                 [("user_id", user_id);
                  ("date", VStr (ScreenTimeData.date data));
                  ("app_name", VStr (ScreenTimeData.app_name data));
                  ("time_spent", VInt (ScreenTimeData.time_spent_minutes data));
                  ("total_daily_time", total_time)]
                 ("Screen time data ingested successfully for "
                    ++ ScreenTimeData.app_name data))
          end
    end.

End Code.

(** The event the consumer would get for the same usage. *)
Definition event_of (data : ScreenTimeData.t) : value :=
  VDict [("user_id", VStr (ScreenTimeData.user_id data));
         ("app_name", VStr (ScreenTimeData.app_name data));
         ("time_spent", VInt (ScreenTimeData.time_spent_minutes data));
         ("date", VStr (ScreenTimeData.date data));
         ("category", optional (ScreenTimeData.category data))].

(** The request's oracle as the consumer's: the same calls fail, at the
    same store time. *)
Definition env_of (c : calls) (e : env) : Prop :=
  get_raises e = daily_get_raises c
  /\ set_raises e = daily_set_raises c
  /\ update_raises e = user_update_raises c
  /\ server_time e = written_at c.

Definition signed_in (user : string) : dict := [("userId", VStr user)].

Definition all_fine : calls := MkCalls false false false false false 1.

(** Only the write into [screentime_records] raises. *)
Definition record_fails : calls := MkCalls false false false true false 1.

Definition chrome_on (date : string) : ScreenTimeData.t :=
  ScreenTimeData.Make "u1" "Chrome" 10 (Some "Work") date (Some "mobile").

(** Accepts nothing but the one well-formed date of the examples. *)
Definition only_new_year (text : string) : bool := String.eqb text "2024-01-01".

End Ingest.

(** ** Properties *)

Module Theory.
Import Py Store Consumer Reading Examples.
Local Open Scope M_scope.

(** *** What a computation leaves alone *)

(** [keeps proj c]: running [c] does not change the part [proj] of the
    world, whether it returns or raises. *)
Definition keeps {A X} (proj : World -> X) (c : M A) : Prop :=
  forall w, proj (c w).1 = proj w.

Lemma keeps_ret {A X} (proj : World -> X) (a : A) : keeps proj (ret a).
Proof. intros w. reflexivity. Qed.

Lemma keeps_raise {A X} (proj : World -> X) (e : exn) : keeps proj (@raise A e).
Proof. intros w. reflexivity. Qed.

Lemma keeps_lift {A X} (proj : World -> X) (r : res A) : keeps proj (lift r).
Proof. intros w. reflexivity. Qed.

Lemma keeps_read {A X} (proj : World -> X) (f : World -> res A) :
  keeps proj (fun w => (w, f w)).
Proof. intros w. reflexivity. Qed.

Lemma keeps_bind {A B X} (proj : World -> X) (c : M A) (k : A -> M B) :
  keeps proj c -> (forall a, keeps proj (k a)) -> keeps proj (bind c k).
Proof.
  intros Hc Hk w. unfold bind. specialize (Hc w).
  destruct (c w) as [w' [a|e]]; simpl in *; [rewrite Hk|]; exact Hc.
Qed.

Lemma keeps_try_except {X} (proj : World -> X) (body handler : M unit) :
  keeps proj body -> keeps proj handler -> keeps proj (try_except body handler).
Proof.
  intros Hb Hh w. unfold try_except. specialize (Hb w).
  destruct (body w) as [w' [a|e]]; simpl in *; [|rewrite Hh]; exact Hb.
Qed.

Lemma keeps_modify {X} (proj : World -> X) (f : World -> World) :
  (forall w, proj (f w) = proj w) -> keeps proj (modify f).
Proof. intros Hf w. apply Hf. Qed.

Lemma keeps_when_raises {X} (proj : World -> X) (b : bool) (e : exn) :
  keeps proj (when_raises b e).
Proof. intros w. destruct b; reflexivity. Qed.

Lemma keeps_if {A X} (proj : World -> X) (b : bool) (c1 c2 : M A) :
  keeps proj c1 -> keeps proj c2 -> keeps proj (if b then c1 else c2).
Proof. destruct b; auto. Qed.

Create HintDb keeps discriminated.

#[local] Hint Resolve keeps_ret keeps_raise keeps_lift keeps_read keeps_bind
  keeps_try_except keeps_when_raises keeps_if : keeps.

(** A setter of one field read through the projection of another. *)
Ltac frame := intros; repeat match goal with w : World |- _ => destruct w end; reflexivity.

#[local] Hint Extern 1 (keeps _ (modify _)) => (apply keeps_modify; frame) : keeps.
#[local] Hint Extern 1 (keeps _ (log_error _)) => (apply keeps_modify; frame) : keeps.
#[local] Hint Extern 1 (keeps _ fresh_id) => (intros ?; frame) : keeps.

(** *** Dictionaries *)

Lemma dict_get_None k (d : dict) : dict_get k d = None <-> k ∉ map fst d.
Proof.
  induction d as [|[k' v] d IH]; simpl.
  - split; [intros _; apply not_elem_of_nil|reflexivity].
  - rewrite not_elem_of_cons. destruct (String.eqb_spec k k') as [->|Hne].
    + split; [discriminate|intros [[] _]; reflexivity].
    + rewrite IH. tauto.
Qed.

Lemma dict_get_set_eq k v (d : dict) : dict_get k (dict_set k v d) = Some v.
Proof.
  induction d as [|[k' v'] d IH]; simpl.
  - rewrite String.eqb_refl. reflexivity.
  - destruct (String.eqb_spec k k') as [->|Hne]; simpl.
    + rewrite String.eqb_refl. reflexivity.
    + apply String.eqb_neq in Hne. rewrite Hne. exact IH.
Qed.

Lemma dict_get_set_ne k k' v (d : dict) :
  k <> k' -> dict_get k' (dict_set k v d) = dict_get k' d.
Proof.
  intros Hne. induction d as [|[k0 v0] d IH]; simpl.
  - destruct (String.eqb_spec k' k); [congruence|reflexivity].
  - destruct (String.eqb_spec k k0) as [->|Hne0]; simpl.
    + destruct (String.eqb_spec k' k0); [congruence|reflexivity].
    + rewrite IH. reflexivity.
Qed.

Lemma dict_set_fresh k v (d : dict) :
  dict_get k d = None -> dict_set k v d = d ++ [(k, v)].
Proof.
  induction d as [|[k' v'] d IH]; simpl; [reflexivity|].
  destruct (String.eqb k k'); [discriminate|]. intros Hn. rewrite IH; auto.
Qed.

Lemma dict_get_middle k ov (n1 o : dict) :
  k ∉ map fst n1 -> dict_get k (n1 ++ (k, ov) :: o) = Some ov.
Proof.
  induction n1 as [|[k' v'] n1 IH]; simpl; intros Hk.
  - rewrite String.eqb_refl. reflexivity.
  - apply not_elem_of_cons in Hk as [Hne Hk].
    apply String.eqb_neq in Hne. rewrite Hne. auto.
Qed.

Lemma dict_set_middle k v ov (n1 o : dict) :
  k ∉ map fst n1 -> dict_set k v (n1 ++ (k, ov) :: o) = n1 ++ (k, v) :: o.
Proof.
  induction n1 as [|[k' v'] n1 IH]; simpl; intros Hk.
  - rewrite String.eqb_refl. reflexivity.
  - apply not_elem_of_cons in Hk as [Hne Hk].
    apply String.eqb_neq in Hne. rewrite Hne, IH; auto.
Qed.

(** *** Writing with [merge=True] *)

Lemma merge_value_dict k v (n o : dict) :
  merge_value (VDict ((k, v) :: n)) (VDict o) = VDict (merge_fields ((k, v) :: n) o).
Proof.
  reflexivity.
Qed.

Lemma merge_fields_covers (n2 : dict) : forall n1 o,
  NoDup (map fst (n1 ++ n2)) -> covers n2 o ->
  merge_fields n2 (n1 ++ o) = n1 ++ n2.
Proof.
  induction n2 as [|[k v] n2 IH]; intros n1 o Hnd Hc.
  - inversion Hc; subst. reflexivity.
  - assert (Hk : k ∉ map fst n1).
    { rewrite map_app in Hnd. apply NoDup_app in Hnd as (_ & Hd & _).
      intros Hin. apply (Hd _ Hin). simpl. left. }
    assert (Hnd' : NoDup (map fst ((n1 ++ [(k, v)]) ++ n2))).
    { rewrite <- app_assoc. exact Hnd. }
    cbn [merge_fields]. inversion Hc as [|k0 v0 ov n0 o0 Hm Hc']; subst.
    + rewrite (proj2 (dict_get_None k (n1 ++ [])));
        [|rewrite app_nil_r; exact Hk].
      rewrite dict_set_fresh; [|apply dict_get_None; rewrite app_nil_r; exact Hk].
      rewrite app_nil_r.
      rewrite <- (app_nil_r (n1 ++ [(k, v)])) at 1.
      rewrite (IH (n1 ++ [(k, v)]) [] Hnd' (covers_nil _)).
      rewrite <- app_assoc. reflexivity.
    + rewrite (dict_get_middle _ _ _ _ Hk), Hm, (dict_set_middle _ _ _ _ _ Hk).
      replace (n1 ++ (k, v) :: o0) with ((n1 ++ [(k, v)]) ++ o0)
        by (rewrite <- app_assoc; reflexivity).
      rewrite (IH _ _ Hnd' Hc'). rewrite <- app_assoc. reflexivity.
Qed.

Lemma merge_value_covers (n o : dict) :
  NoDup (map fst n) -> covers n o -> merge_value (VDict n) (VDict o) = VDict n.
Proof.
  intros Hnd Hc. destruct n as [|[k v] n]; [reflexivity|].
  rewrite merge_value_dict. f_equal.
  exact (merge_fields_covers _ [] o Hnd Hc).
Qed.

Lemma merge_doc_covers (new : dict) (old : option dict) :
  NoDup (map fst new) ->
  (forall o, old = Some o -> covers new o) ->
  merge_doc new old = new.
Proof.
  intros Hnd Hc. destruct old as [o|]; [|reflexivity].
  unfold merge_doc. rewrite merge_value_covers; auto.
Qed.

Lemma merge_value_flat v ov : flat v = true -> merge_value v ov = v.
Proof. destruct v; simpl; congruence. Qed.

Lemma covers_flat (n : dict) : forall o,
  map fst n = map fst o -> flat_fields n = true -> covers n o.
Proof.
  induction n as [|[k v] n IH]; intros [|[k' ov] o] Hk Hf;
    try discriminate; try constructor.
  simpl in Hk, Hf. apply andb_prop in Hf as [Hv Hf].
  injection Hk as -> Hk. constructor; [apply merge_value_flat; exact Hv|auto].
Qed.

(** Induction over a value and, for a map, over the values it holds. *)
Lemma value_dict_ind (P : value -> Prop) :
  P VNull -> (forall b, P (VBool b)) -> (forall n, P (VInt n)) ->
  (forall f, P (VFloat f)) -> (forall s, P (VStr s)) -> (forall t, P (VTime t)) ->
  (forall l, P (VList l)) ->
  (forall d, Forall (fun kv => P kv.2) d -> P (VDict d)) ->
  forall v, P v.
Proof.
  intros Hnull Hbool Hint Hfloat Hstr Htime Hlist Hdict.
  fix IH 1. intros [|b|n|f|s|t|l|d];
    [apply Hnull|apply Hbool|apply Hint|apply Hfloat|apply Hstr|apply Htime
    |apply Hlist|].
  apply Hdict. induction d as [|[k v] d IHd]; constructor; [apply IH|exact IHd].
Qed.

Lemma covers_same (d : dict) :
  Forall (fun kv => merge_value kv.2 kv.2 = kv.2) d -> covers d d.
Proof.
  induction 1 as [|[k v] d Hv _ IH]; constructor; assumption.
Qed.

(** Writing back what is stored changes nothing. *)
Lemma merge_value_self v : wf v = true -> merge_value v v = v.
Proof.
  induction v as [| | | | | | |d IH] using value_dict_ind; try reflexivity.
  intros Hwf. simpl in Hwf. apply andb_prop in Hwf as [Hnd Hall].
  apply bool_decide_eq_true in Hnd.
  apply merge_value_covers; [exact Hnd|]. apply covers_same.
  clear Hnd. induction IH as [|[k v] d Hv _ IHd]; constructor.
  - apply Hv. simpl in Hall. apply andb_prop in Hall. tauto.
  - apply IHd. simpl in Hall. apply andb_prop in Hall. tauto.
Qed.

Lemma wf_dict_inv (d : dict) :
  wf (VDict d) = true ->
  NoDup (map fst d) /\ Forall (fun kv => wf kv.2 = true) d.
Proof.
  simpl. intros Hwf. apply andb_prop in Hwf as [Hnd Hall].
  apply bool_decide_eq_true in Hnd. split; [exact Hnd|].
  clear Hnd. induction d as [|[k v] d IH]; constructor; simpl in *;
    apply andb_prop in Hall; tauto.
Qed.

Lemma covers_refl (d : dict) : wf (VDict d) = true -> covers d d.
Proof.
  intros Hwf. apply wf_dict_inv in Hwf as [_ Hall]. apply covers_same.
  eapply Forall_impl; [exact Hall|]. intros [k v] Hv. apply merge_value_self, Hv.
Qed.

(** One value replaced in place by one that absorbs it. *)
Lemma covers_dict_set k v ov (d : dict) :
  Forall (fun kv => wf kv.2 = true) d ->
  dict_get k d = Some ov -> merge_value v ov = v ->
  covers (dict_set k v d) d.
Proof.
  intros Hall. induction Hall as [|[k' v'] d Hv Hall IH]; simpl; [discriminate|].
  destruct (String.eqb_spec k k') as [->|Hne]; intros Hget Hm.
  - injection Hget as ->. constructor; [exact Hm|].
    apply covers_same. eapply Forall_impl; [exact Hall|].
    intros [k0 v0] Hv0. apply merge_value_self, Hv0.
  - constructor; [apply merge_value_self, Hv|auto].
Qed.

(** One key added at the end. *)
Lemma covers_dict_add k v (d : dict) :
  Forall (fun kv => wf kv.2 = true) d ->
  dict_get k d = None -> covers (dict_set k v d) d.
Proof.
  intros Hall Hnone. rewrite (dict_set_fresh _ _ _ Hnone).
  clear Hnone. induction Hall as [|[k' v'] d Hv Hall IH]; simpl; constructor.
  - apply merge_value_self, Hv.
  - exact IH.
Qed.

Lemma dict_get_wf k v (d : dict) :
  Forall (fun kv => wf kv.2 = true) d -> dict_get k d = Some v -> wf v = true.
Proof.
  induction 1 as [|[k' v'] d Hv _ IH]; simpl; [discriminate|].
  destruct (String.eqb k k'); [intros [= <-]; exact Hv|exact IH].
Qed.

Lemma merge_fields_get (n : dict) : forall acc k,
  NoDup (map fst n) ->
  dict_get k (merge_fields n acc)
  = match dict_get k n with
    | Some v => Some (match dict_get k acc with
                      | Some ov => merge_value v ov
                      | None => v
                      end)
    | None => dict_get k acc
    end.
Proof.
  induction n as [|[k' v'] n IH]; intros acc k Hnd; [reflexivity|].
  simpl in Hnd. apply NoDup_cons in Hnd as [Hk' Hnd].
  cbn [merge_fields dict_get]. rewrite IH by exact Hnd.
  destruct (String.eqb_spec k k') as [->|Hne].
  - rewrite (proj2 (dict_get_None k' n) Hk'). apply dict_get_set_eq.
  - rewrite (dict_get_set_ne k' k) by congruence. reflexivity.
Qed.

Lemma wf_dict_intro (d : dict) :
  NoDup (map fst d) -> Forall (fun kv => wf kv.2 = true) d -> wf (VDict d) = true.
Proof.
  intros Hnd Hall. simpl. apply andb_true_intro. split.
  - apply bool_decide_eq_true. exact Hnd.
  - induction Hall as [|[k v] d Hv _ IH]; simpl; [reflexivity|].
    simpl in Hnd, Hv. apply NoDup_cons in Hnd as [_ Hnd].
    rewrite Hv. apply IH, Hnd.
Qed.

Lemma dict_set_keys k v (d : dict) :
  map fst (dict_set k v d)
  = match dict_get k d with Some _ => map fst d | None => map fst d ++ [k] end.
Proof.
  induction d as [|[k' v'] d IH]; simpl; [reflexivity|].
  destruct (String.eqb_spec k k') as [->|Hne]; simpl; [reflexivity|].
  rewrite IH. destruct (dict_get k d); reflexivity.
Qed.

Lemma dict_set_NoDup k v (d : dict) :
  NoDup (map fst d) -> NoDup (map fst (dict_set k v d)).
Proof.
  intros Hnd. rewrite dict_set_keys. destruct (dict_get k d) eqn:Hk; [exact Hnd|].
  apply NoDup_app. split; [exact Hnd|]. split; [|apply NoDup_singleton].
  intros x Hx Hx'. apply list_elem_of_singleton in Hx'. subst x.
  apply dict_get_None in Hk. contradiction.
Qed.

Lemma dict_set_Forall (P : string * value -> Prop) k v (d : dict) :
  Forall P d -> P (k, v) -> Forall P (dict_set k v d).
Proof.
  intros Hall Hp. induction Hall as [|[k' v'] d Hv Hall IH]; simpl.
  - constructor; [exact Hp|constructor].
  - destruct (String.eqb k k'); constructor; assumption.
Qed.

Lemma wf_dict_set k v (d : dict) :
  wf (VDict d) = true -> wf v = true -> wf (VDict (dict_set k v d)) = true.
Proof.
  intros Hd Hv. apply wf_dict_inv in Hd as [Hnd Hall].
  apply wf_dict_intro; [apply dict_set_NoDup, Hnd|apply dict_set_Forall; assumption].
Qed.

Lemma merge_doc_get (new : dict) (old : option dict) k :
  NoDup (map fst new) -> new <> [] ->
  dict_get k (merge_doc new old)
  = match dict_get k new with
    | Some v => Some (match old ≫= dict_get k with
                      | Some ov => merge_value v ov
                      | None => v
                      end)
    | None => old ≫= dict_get k
    end.
Proof.
  intros Hnd Hne. destruct old as [o|].
  - destruct new as [|[k' v'] new]; [congruence|].
    change (Some o ≫= dict_get k) with (dict_get k o).
    unfold merge_doc. rewrite merge_value_dict. apply merge_fields_get, Hnd.
  - simpl. destruct (dict_get k new); reflexivity.
Qed.

(** *** Per-app totals *)

Lemma total_of_per_app (apps : dict) : forall totals name,
  per_app apps = Some totals ->
  total_of name totals = dict_get name apps ≫= entry_minutes.
Proof.
  induction apps as [|[n entry] apps IH]; intros totals name; simpl.
  - intros [= <-]. reflexivity.
  - destruct (entry_minutes entry) as [t|] eqn:Ht; [|discriminate].
    destruct (per_app apps) as [rest|] eqn:Hrest; [|discriminate].
    intros [= <-]. simpl. destruct (String.eqb name n); [symmetry; exact Ht|].
    apply IH. reflexivity.
Qed.

Lemma per_app_entry name entry (apps : dict) : forall totals,
  per_app apps = Some totals -> dict_get name apps = Some entry ->
  exists fields t,
    entry = VDict fields /\ dict_get "time_spent" fields = Some (VInt t).
Proof.
  induction apps as [|[n e0] apps IH]; intros totals; simpl; [discriminate|].
  destruct (entry_minutes e0) as [t|] eqn:Ht; [|discriminate].
  destruct (per_app apps) as [rest|] eqn:Hrest; [|discriminate].
  intros _. destruct (String.eqb name n); [|eauto].
  intros [= <-]. unfold entry_minutes in Ht.
  destruct e0 as [| | | | | | |fields]; try discriminate.
  destruct (dict_get "time_spent" fields) as [[| |t'| | | | |]|] eqn:Hts;
    try discriminate.
  eauto.
Qed.

Lemma per_app_set name entry x (apps : dict) : forall totals,
  per_app apps = Some totals -> entry_minutes entry = Some x ->
  is_Some (per_app (dict_set name entry apps)).
Proof.
  induction apps as [|[n e0] apps IH]; intros totals; simpl.
  - intros _ Hx. rewrite Hx. eauto.
  - destruct (entry_minutes e0) as [t|] eqn:Ht; [|discriminate].
    destruct (per_app apps) as [rest|] eqn:Hrest; [|discriminate].
    intros _ Hx. destruct (String.eqb name n); simpl.
    + rewrite Hx, Hrest. eauto.
    + rewrite Ht. destruct (IH rest eq_refl Hx) as [r Hr]. rewrite Hr. eauto.
Qed.

Lemma per_app_set_sum name entry x (apps : dict) : forall totals,
  per_app apps = Some totals -> entry_minutes entry = Some x ->
  exists totals',
    per_app (dict_set name entry apps) = Some totals'
    /\ sum_totals totals' = sum_totals totals - default 0 (total_of name totals) + x.
Proof.
  induction apps as [|[n e0] apps IH]; intros totals; simpl.
  - intros [= <-] Hx. rewrite Hx. eexists. split; [reflexivity|]. simpl. lia.
  - destruct (entry_minutes e0) as [t|] eqn:Ht; [|discriminate].
    destruct (per_app apps) as [rest|] eqn:Hrest; [|discriminate].
    intros [= <-] Hx. simpl. destruct (String.eqb name n); simpl.
    + rewrite Hx, Hrest. eexists. split; [reflexivity|]. simpl. lia.
    + rewrite Ht. destruct (IH rest eq_refl Hx) as (r & Hr & Hsum). rewrite Hr.
      eexists. split; [reflexivity|]. simpl. lia.
Qed.

Section WithPlatform.
Context `{Platform}.

Lemma keeps_document {X} (proj : World -> X) (id : value) :
  (forall f w, proj (with_next_id f w) = proj w) -> keeps proj (document id).
Proof.
  intros Hid. destruct id; simpl; auto with keeps.
  apply keeps_bind; auto with keeps. intros w. apply Hid.
Qed.

(** The broker's view of a message is settled by the callback alone. *)
Lemma keeps_insert_acked table rows e :
  keeps acked (_insert_to_bigquery table rows e)
  /\ keeps nacked (_insert_to_bigquery table rows e).
Proof.
  unfold _insert_to_bigquery, _sync_insert, _insert_report.
  split; apply keeps_try_except; auto with keeps;
    (apply keeps_bind; [|intros []; auto with keeps]);
    destruct (bq_result e) as [|[|? ?]]; auto with keeps;
    (apply keeps_bind; auto with keeps; apply keeps_modify;
     destruct table; frame).
Qed.

Lemma keeps_market_cache_acked data e :
  keeps acked (_update_market_cache data e)
  /\ keeps nacked (_update_market_cache data e).
Proof.
  unfold _update_market_cache, _update_market_cache_body, stream_docs, delete_docs.
  split; apply keeps_try_except; auto with keeps;
    repeat (first [ apply keeps_document; frame
                  | apply keeps_bind; [|intros ?]
                  | apply keeps_if
                  | solve [auto with keeps] ]).
Qed.

Lemma keeps_screentime_cache_acked data e :
  keeps acked (_update_screentime_cache data e)
  /\ keeps nacked (_update_screentime_cache data e).
Proof.
  unfold _update_screentime_cache, _update_screentime_cache_body.
  split; apply keeps_try_except; auto with keeps;
    repeat (first [ apply keeps_document; frame
                  | apply keeps_bind; [|intros ?]
                  | solve [auto with keeps] ]).
Qed.

Lemma keeps_run_task t : keeps acked (run_task t) /\ keeps nacked (run_task t).
Proof.
  unfold run_task, _process_market_data, _process_screentime_data.
  pose proof (fun rows e => proj1 (keeps_insert_acked Market rows e)) as Ha1.
  pose proof (fun rows e => proj2 (keeps_insert_acked Market rows e)) as Hn1.
  pose proof (fun rows e => proj1 (keeps_insert_acked Screentime rows e)) as Ha2.
  pose proof (fun rows e => proj2 (keeps_insert_acked Screentime rows e)) as Hn2.
  pose proof (fun d e => proj1 (keeps_market_cache_acked d e)) as Ha3.
  pose proof (fun d e => proj2 (keeps_market_cache_acked d e)) as Hn3.
  pose proof (fun d e => proj1 (keeps_screentime_cache_acked d e)) as Ha4.
  pose proof (fun d e => proj2 (keeps_screentime_cache_acked d e)) as Hn4.
  destruct (task_stream t); split; apply keeps_try_except; auto with keeps;
    (apply keeps_bind; [auto with keeps|intros ?]);
    apply keeps_if; auto with keeps;
    (apply keeps_bind; [auto with keeps|intros ?]);
    apply keeps_bind; auto with keeps.
Qed.

Lemma keeps_run_ready : keeps acked run_ready /\ keeps nacked run_ready.
Proof.
  unfold run_ready. split; intros w; simpl.
  - transitivity (acked (with_tasks (fun _ => []) w)); [|frame].
    generalize (with_tasks (fun _ => []) w) as w0.
    induction (tasks w) as [|t ts IH]; intros w0; simpl; [reflexivity|].
    rewrite IH. apply keeps_run_task.
  - transitivity (nacked (with_tasks (fun _ => []) w)); [|frame].
    generalize (with_tasks (fun _ => []) w) as w0.
    induction (tasks w) as [|t ts IH]; intros w0; simpl; [reflexivity|].
    rewrite IH. apply keeps_run_task.
Qed.

(** What the callback does to the world, case by case. *)
Lemma callback_scheduled s m e w data :
  payload m = Some data -> loop_running e = true ->
  callback s m e w =
    (with_acked (fun l => l ++ [msg_id m])
       (with_tasks (fun q => q ++ [MkTask s data e]) w), Ok tt).
Proof.
  intros Hp Hl. unfold callback, try_except, bind, decode, create_task, ack.
  rewrite Hp, Hl. reflexivity.
Qed.

Lemma callback_refused s m e w :
  payload m = None \/ loop_running e = false ->
  callback s m e w =
    (with_nacked (fun l => l ++ [msg_id m])
       (with_log (fun l => l ++ [CallbackError s]) w), Ok tt).
Proof.
  intros Hc. unfold callback, try_except, bind, decode, create_task, ack, nack.
  destruct (payload m) as [data|]; [|reflexivity].
  destruct Hc as [Hc|Hc]; [discriminate|]. rewrite Hc. reflexivity.
Qed.

(** The callback acknowledges a message exactly when its payload decodes
    and the processing coroutine could be scheduled, and negatively
    acknowledges it otherwise.  That is settled before the coroutine has
    run: the callback itself touches neither sink, and nothing the
    coroutine does later, success or failure of either sink, changes what
    the broker was told. *)
Lemma ack_follows_scheduling_not_sinks s m e w :
  let scheduled := bool_decide (is_Some (payload m)) && loop_running e in
  let w1 := (callback s m e w).1 in
  let w2 := (deliver s m e w).1 in
  acked w1 = (if scheduled then acked w ++ [msg_id m] else acked w)
  /\ nacked w1 = (if scheduled then nacked w else nacked w ++ [msg_id m])
  /\ (market_table w1, screentime_table w1) = (market_table w, screentime_table w)
  /\ (market_data w1, price_history w1, screentime_daily w1, users w1)
     = (market_data w, price_history w, screentime_daily w, users w)
  /\ acked w2 = acked w1 /\ nacked w2 = nacked w1.
Proof.
  intros scheduled w1 w2.
  assert (Hdel : w2 = (run_ready w1).1).
  { subst w1 w2. unfold deliver, bind.
    destruct (callback s m e w) as [w' [[]|ex]] eqn:Hcb; [reflexivity|].
    exfalso. unfold callback, try_except in Hcb.
    destruct (bind _ _ w) as [? [|]]; simpl in Hcb; discriminate. }
  assert (Hcases : (scheduled = true /\ exists data, payload m = Some data /\ loop_running e = true)
                   \/ (scheduled = false /\ (payload m = None \/ loop_running e = false))).
  { subst scheduled. destruct (payload m) as [data|]; simpl.
    - destruct (loop_running e); [left|right]; eauto.
    - right. eauto. }
  rewrite Hdel, (proj1 keeps_run_ready w1), (proj2 keeps_run_ready w1).
  destruct Hcases as [[-> (data & Hp & Hl)]|[-> Hc]]; subst w1.
  - rewrite (callback_scheduled _ _ _ _ _ Hp Hl). destruct w; simpl. repeat split.
  - rewrite (callback_refused _ _ _ _ Hc). destruct w; simpl. repeat split.
Qed.


(** C6, as the code has it.  The archive append has no deduplication: an insert
    the store accepts appends its rows to what the table holds, so the
    same rows appended twice are in the table twice. *)
Theorem C6_append_twice_appends_twice table rows e1 e2 w :
  bq_result e1 = BqReturns [] -> bq_result e2 = BqReturns [] ->
  let w1 := (_insert_to_bigquery table rows e1 w).1 in
  let w2 := (_insert_to_bigquery table rows e2 w1).1 in
  table_of table w1 = table_of table w ++ rows
  /\ table_of table w2 = table_of table w ++ rows ++ rows.
Proof.
  intros H1 H2. unfold _insert_to_bigquery, try_except, bind, _sync_insert.
  rewrite H1, H2. simpl. destruct table, w; simpl; split; try reflexivity;
    symmetry; apply app_assoc.
Qed.

(** C8, as the code has it.  When the store rejects rows, the append logs the
    errors it was handed and returns as it does on success: nothing is
    appended and nothing is reported to the caller, and the processing
    coroutine goes on to the cache update. *)
Theorem C8_row_errors_are_logged_not_reported data e w errors bq_row :
  bq_result e = BqReturns errors -> errors <> [] ->
  all_in market_required data = Ok true -> market_row data e = Ok bq_row ->
  let logged := with_log (fun l => l ++ [BigQueryInsertErrors errors]) in
  (forall table rows w0,
      _insert_to_bigquery table rows e w0 = (logged w0, Ok tt))
  /\ _process_market_data data e w = _update_market_cache data e (logged w).
Proof.
  intros Hbq Hne Hvalid Hrow logged.
  assert (Hins : forall table rows w0,
             _insert_to_bigquery table rows e w0 = (logged w0, Ok tt)).
  { intros table rows w0.
    unfold _insert_to_bigquery, try_except, bind, _sync_insert, _insert_report.
    rewrite Hbq. destruct errors; [congruence|reflexivity]. }
  split; [exact Hins|].
  unfold _process_market_data, try_except, bind, lift.
  rewrite Hvalid, Hrow. cbn [negb]. rewrite Hins.
  unfold _update_market_cache, try_except.
  destruct (_update_market_cache_body data e (logged w)) as [w' [[]|ex]]; reflexivity.
Qed.

(** *** Validation *)

Lemma all_in_missing fields field d :
  In field fields -> dict_get field d = None ->
  all_in fields (VDict d) = Ok false.
Proof.
  induction fields as [|f fs IH]; intros Hin Hnone; [destruct Hin|].
  simpl. destruct (bool_decide (is_Some (dict_get f d))) eqn:Hf; [|reflexivity].
  destruct Hin as [->|Hin]; [|auto].
  apply bool_decide_eq_true in Hf. rewrite Hnone in Hf.
  destruct Hf; discriminate.
Qed.

Lemma process_market_rejects d e w field :
  In field market_required -> dict_get field d = None ->
  _process_market_data (VDict d) e w
  = (with_log (fun l => l ++ [InvalidFormat Market]) w, Ok tt).
Proof.
  intros Hin Hnone. unfold _process_market_data, try_except, bind, lift.
  rewrite (all_in_missing _ _ _ Hin Hnone). reflexivity.
Qed.

Lemma process_screentime_rejects d e w field :
  In field screentime_required -> dict_get field d = None ->
  _process_screentime_data (VDict d) e w
  = (with_log (fun l => l ++ [InvalidFormat Screentime]) w, Ok tt).
Proof.
  intros Hin Hnone. unfold _process_screentime_data, try_except, bind, lift.
  rewrite (all_in_missing _ _ _ Hin Hnone). reflexivity.
Qed.

(** C2.  A market event that lacks [symbol], [price] or [timestamp] is
    rejected before either sink is called: processing it only logs the
    invalid format, and a delivery of it leaves the archive tables and
    every cache document as they were. *)
Theorem C2_market_event_missing_field_writes_nothing m d e w field :
  payload m = Some (VDict d) -> tasks w = [] ->
  In field market_required -> dict_get field d = None ->
  _process_market_data (VDict d) e w
  = (with_log (fun l => l ++ [InvalidFormat Market]) w, Ok tt)
  /\ sinks (deliver Market m e w).1 = sinks w.
Proof.
  intros Hp Ht Hin Hnone. split; [exact (process_market_rejects _ _ _ _ Hin Hnone)|].
  unfold deliver, bind.
  destruct (loop_running e) eqn:Hl.
  - rewrite (callback_scheduled _ _ _ _ _ Hp Hl). unfold run_ready.
    destruct w; simpl in *; subst; simpl. unfold run_task; simpl.
    rewrite (process_market_rejects _ _ _ _ Hin Hnone). reflexivity.
  - rewrite (callback_refused Market m e w (or_intror Hl)). unfold run_ready.
    destruct w; simpl in *; subst; reflexivity.
Qed.

(** *** The market cache *)

(** The count the trimming is decided on is taken from a query already
    limited to 100 documents, so it never exceeds 100. *)
Lemma trim_branch_dead (docs : list (nat * dict)) :
  (100 <? length (limit_to_last 100 docs))%nat = false.
Proof.
  apply Nat.ltb_ge. unfold limit_to_last. rewrite length_drop. lia.
Qed.

(** One cache merge of a well-formed tick with the store answering. *)
Lemma market_cache_merge s data e w upd entry :
  subscript data "symbol" = Ok (VStr s) ->
  market_update_data data e = Ok upd ->
  history_entry data = Ok entry ->
  set_raises e = false -> add_raises e = false ->
  let w' := (_update_market_cache data e w).1 in
  market_data w' = <[s := merge_doc upd (market_data w !! s)]> (market_data w)
  /\ price_history w' = <[s := history_of s w ++ [(next_id w, entry)]]> (price_history w)
  /\ next_id w' = S (next_id w).
Proof.
  intros Hs Hu He Hset Hadd.
  unfold _update_market_cache, _update_market_cache_body, document, stream_docs.
  unfold try_except, when_raises, bind, lift, modify, fresh_id, ret, raise.
  rewrite Hs, Hu, He, Hset, Hadd. cbn beta iota.
  destruct (stream_raises e); cbn beta iota;
    [|rewrite trim_branch_dead]; destruct w; simpl; auto.
Qed.

Lemma flat_fields_get k v (d : dict) :
  flat_fields d = true -> dict_get k d = Some v -> flat v = true.
Proof.
  induction d as [|[k' v'] d IH]; simpl; [discriminate|].
  intros Hf. apply andb_prop in Hf as [Hv Hf].
  destruct (String.eqb k k'); [intros [= <-]; exact Hv|auto].
Qed.

Lemma flat_default k dflt (d : dict) :
  flat_fields d = true -> flat dflt = true ->
  flat (default dflt (dict_get k d)) = true.
Proof.
  intros Hf Hd. destruct (dict_get k d) eqn:Hk; simpl; [|exact Hd].
  eapply flat_fields_get; eauto.
Qed.

(** What a well-formed tick makes the cache update compute. *)
Lemma market_event_ok_inv s data e :
  market_event_ok s data = true ->
  exists upd entry,
    subscript data "symbol" = Ok (VStr s)
    /\ market_update_data data e = Ok upd
    /\ history_entry data = Ok entry
    /\ map fst upd = market_keys
    /\ flat_fields upd = true.
Proof.
  unfold market_event_ok. destruct data as [| | | | | | |d]; try discriminate.
  destruct (dict_get "symbol" d) as [[| | | |s'| | |]|] eqn:Hsym; try discriminate.
  destruct (dict_get "price" d) as [price|] eqn:Hprice; try discriminate.
  destruct (py_float price) as [f|] eqn:Hf;
    [|rewrite andb_false_r; discriminate].
  intros Hok. repeat (apply andb_prop in Hok as [Hok ?]).
  apply String.eqb_eq in Hok as ->.
  match goal with Ht : bool_decide _ = true |- _ =>
    apply bool_decide_eq_true in Ht as [ts Hts] end.
  assert (Hpf : flat price = true) by (eapply flat_fields_get; eauto).
  unfold market_update_data, history_entry, subscript, get_default, res_bind.
  rewrite Hsym, Hprice, Hf, Hts.
  eexists _, _. repeat split. simpl.
  rewrite !flat_default; auto.
Qed.

Lemma NoDup_market_keys : NoDup market_keys.
Proof. apply (proj1 (bool_decide_eq_true (NoDup market_keys))). reflexivity. Qed.

(** One merge of a well-formed tick into a cache whose document for the
    symbol, if any, was written by an earlier merge. *)
Lemma market_cache_step s data e w :
  market_event_ok s data = true ->
  set_raises e = false -> add_raises e = false ->
  (forall doc, market_data w !! s = Some doc -> map fst doc = market_keys) ->
  let w' := (_update_market_cache data e w).1 in
  exists upd entry,
    market_update_data data e = Ok upd
    /\ history_entry data = Ok entry
    /\ map fst upd = market_keys
    /\ market_data w' !! s = Some upd
    /\ history_entries s w' = history_entries s w ++ [entry].
Proof.
  intros Hok Hset Hadd Hinv w'.
  destruct (market_event_ok_inv s data e Hok) as (upd & entry & Hs & Hu & He & Hk & Hf).
  destruct (market_cache_merge s data e w upd entry Hs Hu He Hset Hadd)
    as (Hmd & Hph & _).
  exists upd, entry. repeat split; auto; subst w'.
  - rewrite Hmd, lookup_insert_eq. f_equal. apply merge_doc_covers.
    + rewrite Hk. exact NoDup_market_keys.
    + intros o Ho. apply covers_flat; [|exact Hf].
      rewrite Hk. symmetry. apply Hinv, Ho.
  - unfold history_entries, history_of. rewrite Hph, lookup_insert_eq. simpl.
    rewrite map_app. reflexivity.
Qed.

Lemma merge_all_cons de events w :
  merge_all (de :: events) w
  = merge_all events (_update_market_cache de.1 de.2 w).1.
Proof. reflexivity. Qed.

(** A run of merges, by induction on the run. *)
Lemma merge_all_run s events : forall w,
  Forall (fun de => market_event_ok s de.1 = true
                    /\ set_raises de.2 = false /\ add_raises de.2 = false) events ->
  (forall doc, market_data w !! s = Some doc -> map fst doc = market_keys) ->
  let w' := merge_all events w in
  (forall data e, last events = Some (data, e) ->
     exists doc, market_update_data data e = Ok doc
                 /\ market_data w' !! s = Some doc)
  /\ exists entries,
       Forall2 (fun de entry => history_entry de.1 = Ok entry) events entries
       /\ history_entries s w' = history_entries s w ++ entries.
Proof.
  induction events as [|[data e] events IH]; intros w Hall Hinv.
  - split; [discriminate|]. exists []. split; [constructor|].
    simpl. rewrite app_nil_r. reflexivity.
  - apply Forall_cons in Hall as [(Hok & Hset & Hadd) Hall].
    destruct (market_cache_step s data e w Hok Hset Hadd Hinv)
      as (upd & entry & Hu & He & Hk & Hmd & Hh).
    rewrite merge_all_cons. simpl fst; simpl snd.
    set (w1 := (_update_market_cache data e w).1) in *.
    assert (Hinv1 : forall doc, market_data w1 !! s = Some doc ->
                                map fst doc = market_keys).
    { intros doc Hdoc. rewrite Hmd in Hdoc. injection Hdoc as <-. exact Hk. }
    destruct (IH w1 Hall Hinv1) as [Hlast (entries & Hents & Hhist)].
    split.
    + intros data' e' Hl. destruct events as [|de' events'].
      * injection Hl as <- <-. exists upd. split; [exact Hu|exact Hmd].
      * apply Hlast. exact Hl.
    + exists (entry :: entries). split; [constructor; assumption|].
      rewrite Hhist, Hh, <- app_assoc. reflexivity.
Qed.

Lemma history_entries_determined events : forall entries,
  Forall2 (fun (de : value * env) entry => history_entry de.1 = Ok entry)
          events entries ->
  entries = map (fun de => match history_entry de.1 with
                           | Ok entry => entry
                           | Raise _ => []
                           end) events.
Proof.
  induction 1 as [|de entry events entries He _ IH]; simpl; [reflexivity|].
  rewrite He, <- IH. reflexivity.
Qed.

(** *** The history read in the order of its timestamps *)

Lemma insert_by_Permutation leb x (l : list (nat * dict)) :
  Permutation (insert_by leb x l) (x :: l).
Proof.
  induction l as [|a l IH]; simpl; [reflexivity|].
  destruct (leb x.2 a.2); [reflexivity|].
  rewrite IH. apply perm_swap.
Qed.

Lemma sorted_by_Permutation leb (l : list (nat * dict)) :
  Permutation (foldr (insert_by leb) [] l) l.
Proof.
  induction l as [|a l IH]; simpl; [reflexivity|].
  rewrite insert_by_Permutation. constructor. exact IH.
Qed.

Lemma insert_by_HdRel (R : relation (nat * dict)) leb y x l :
  R y x -> HdRel R y l -> HdRel R y (insert_by leb x l).
Proof.
  intros Hyx Hhd. destruct l as [|a l]; simpl; [constructor; exact Hyx|].
  destruct (leb x.2 a.2); constructor; [exact Hyx|].
  inversion Hhd; assumption.
Qed.

Lemma insert_by_Sorted (R : relation (nat * dict)) (leb : dict -> dict -> bool)
    (x : nat * dict) l :
  (forall y, In y l -> if leb x.2 y.2 then R x y else R y x) ->
  Sorted R l -> Sorted R (insert_by leb x l).
Proof.
  induction l as [|a l IH]; intros Hrel Hs; simpl; [repeat constructor|].
  inversion Hs as [|? ? Hsl Hhd]; subst.
  pose proof (Hrel a (or_introl eq_refl)) as Ha.
  destruct (leb x.2 a.2).
  - constructor; [exact Hs|]. constructor. exact Ha.
  - constructor.
    + apply IH; [|exact Hsl]. intros y Hy. apply Hrel. right. exact Hy.
    + apply insert_by_HdRel; assumption.
Qed.

Lemma sorted_by_Sorted (R : relation (nat * dict)) (leb : dict -> dict -> bool)
    (l : list (nat * dict)) :
  (forall x y, In x l -> In y l -> if leb x.2 y.2 then R x y else R y x) ->
  Sorted R (foldr (insert_by leb) [] l).
Proof.
  induction l as [|a l IH]; intros Hrel; simpl; [constructor|].
  apply insert_by_Sorted.
  - intros y Hy. apply Hrel; [left; reflexivity|right].
    eapply Permutation_in; [apply sorted_by_Permutation|exact Hy].
  - apply IH. intros x y Hx Hy. apply Hrel; right; assumption.
Qed.

Lemma history_entry_timestamp data entry :
  history_entry data = Ok entry -> is_Some (dict_get "timestamp" entry).
Proof.
  unfold history_entry.
  destruct (subscript data "price") as [price|]; [|discriminate]. simpl.
  destruct (py_float price); [|discriminate]. simpl.
  destruct (get_default data "volume" (VInt 0)); [|discriminate]. simpl.
  destruct (subscript data "timestamp"); [|discriminate]. simpl.
  intros [= <-]. simpl. eauto.
Qed.

Lemma order_by_all field (docs : list (nat * dict)) :
  Forall (fun d => is_Some (dict_get field d.2)) docs ->
  order_by field docs = foldr (insert_by (field_order field)) [] docs.
Proof.
  intros Hall. unfold order_by. f_equal.
  induction Hall as [|d docs Hd _ IH]; [reflexivity|].
  rewrite filter_cons_True by exact Hd. f_equal. exact IH.
Qed.

(** After a run of well-formed ticks into an empty history: what the store
    holds, and what a reader gets. *)
Lemma history_read s events w :
  Forall (fun de => market_event_ok s de.1 = true
                    /\ set_raises de.2 = false /\ add_raises de.2 = false) events ->
  market_data w !! s = None -> price_history w !! s = None ->
  let w' := merge_all events w in
  map snd (history_of s w') = entries_of events
  /\ history_by_timestamp s w'
     = map snd (foldr (insert_by (field_order "timestamp")) [] (history_of s w')).
Proof.
  intros Hall Hmd Hph w'.
  assert (Hinv : forall doc, market_data w !! s = Some doc ->
                             map fst doc = market_keys)
    by (intros doc; rewrite Hmd; discriminate).
  assert (Hempty : history_entries s w = []).
  { unfold history_entries, history_of. rewrite Hph. reflexivity. }
  destruct (merge_all_run s events w Hall Hinv) as [_ (entries & Hents & Hh)].
  fold w' in Hh. rewrite Hempty in Hh. simpl in Hh. unfold history_entries in Hh.
  assert (Hmap : map snd (history_of s w') = entries_of events).
  { rewrite Hh. apply (history_entries_determined _ _ Hents). }
  split; [exact Hmap|].
  unfold history_by_timestamp. rewrite order_by_all; [reflexivity|].
  apply List.Forall_forall. intros d Hd.
  assert (Hin : In d.2 entries) by (rewrite <- Hh; apply in_map, Hd).
  clear -Hents Hin. induction Hents as [|de entry evs ents He _ IH]; [destruct Hin|].
  destruct Hin as [<-|Hin]; [exact (history_entry_timestamp _ _ He)|auto].
Qed.

(** C7, as the code has it.  For at most 100 well-formed ticks of one symbol
    merged in some order into a cache that has nothing for the symbol,
    every store call succeeding, the store's order comparing the
    timestamps of any two of them: [current] holds the fields of the tick
    merged last, whatever its timestamp; the history, read in the order of
    its timestamps as every reader reads it, holds one entry per tick,
    sorted by timestamp; and, when no two ticks share a timestamp, merging
    the same ticks in any other order gives the same history. *)
Theorem C7_last_arrival_wins_history_sorted_by_timestamp (s : string) events w :
  Forall (fun de => market_event_ok s de.1 = true
                    /\ set_raises de.2 = false /\ add_raises de.2 = false) events ->
  market_data w !! s = None -> price_history w !! s = None ->
  (length events <= 100)%nat ->
  comparable (entries_of events) ->
  let w' := merge_all events w in
  (forall data e, last events = Some (data, e) ->
     exists doc, market_update_data data e = Ok doc
                 /\ market_data w' !! s = Some doc)
  /\ Permutation (history_by_timestamp s w') (entries_of events)
  /\ Sorted timestamp_le (history_by_timestamp s w')
  /\ (distinct_timestamps (entries_of events) ->
      forall events', Permutation events' events ->
        history_by_timestamp s (merge_all events' w) = history_by_timestamp s w').
Proof.
  intros Hall Hmd Hph _ Htotal w'.
  assert (Hinv : forall doc, market_data w !! s = Some doc ->
                             map fst doc = market_keys)
    by (intros doc; rewrite Hmd; discriminate).
  destruct (merge_all_run s events w Hall Hinv) as [Hlast _]. fold w' in Hlast.
  (* the relation restricted to the entries at hand *)
  set (R := fun a b : dict =>
              In a (entries_of events) /\ In b (entries_of events) /\ timestamp_le a b).
  assert (Hread : forall evs, Permutation evs events ->
            Permutation (history_by_timestamp s (merge_all evs w)) (entries_of events)
            /\ Sorted R (history_by_timestamp s (merge_all evs w))).
  { intros evs Hperm.
    assert (Hall' : Forall (fun de => market_event_ok s de.1 = true
                      /\ set_raises de.2 = false /\ add_raises de.2 = false) evs).
    { rewrite Forall_forall in *. intros de Hin. apply Hall.
      rewrite <- Hperm. exact Hin. }
    destruct (history_read s evs w Hall' Hmd Hph) as [Hmap Hby].
    assert (Hents : Permutation (entries_of evs) (entries_of events))
      by (apply Permutation_map, Hperm).
    rewrite Hby. split.
    - rewrite (Permutation_map snd (sorted_by_Permutation _ _)), Hmap. exact Hents.
    - apply (Sorted_fmap snd (fun p q => R p.2 q.2) R); [auto|].
      apply sorted_by_Sorted. intros x y Hx Hy.
      assert (Hx' : In x.2 (entries_of events)).
      { eapply Permutation_in; [exact Hents|]. rewrite <- Hmap. apply in_map, Hx. }
      assert (Hy' : In y.2 (entries_of events)).
      { eapply Permutation_in; [exact Hents|]. rewrite <- Hmap. apply in_map, Hy. }
      destruct (field_order "timestamp" x.2 y.2) eqn:Hle.
      + repeat split; assumption.
      + repeat split; try assumption.
        destruct (Htotal _ _ Hx' Hy') as [H1|H1]; [|exact H1].
        unfold timestamp_le in H1. congruence. }
  destruct (Hread events (Permutation_refl _)) as [Hperm Hsorted].
  split; [exact Hlast|]. split; [exact Hperm|]. split.
  - eapply Sorted_fmap with (f := id) (R1 := R) in Hsorted;
      [rewrite list_fmap_id in Hsorted; exact Hsorted|].
    intros x y (_ & _ & Hle). exact Hle.
  - intros (Htrans & Hanti) events' Hperm'.
    destruct (Hread events' Hperm') as [Hperm1 Hsorted1].
    assert (Transitive R).
    { intros a b c (Ha & Hb & Hab) (_ & Hc & Hbc). repeat split; eauto. }
    apply (Sorted_unique_strong R); [|exact Hsorted1|exact Hsorted|].
    + intros a b _ _ (Ha & Hb & Hab) (_ & _ & Hba). auto.
    + etransitivity; [exact Hperm1|symmetry; exact Hperm].
Qed.

(** *** The screen-time cache *)

(** The day document after a merge whose reads and first write succeed,
    whatever happens to the later update of the user document. *)
Lemma screentime_cache_daily data e w user_id date apps_data total_time :
  subscript data "user_id" = Ok user_id ->
  subscript data "date" = Ok date ->
  get_raises e = false -> set_raises e = false ->
  let daily_ref := daily_key user_id date in
  update_app_time data (stored_apps (screentime_daily w !! daily_ref)) = Ok apps_data ->
  sum_time_spent apps_data (VInt 0) = Ok total_time ->
  screentime_daily (_update_screentime_cache data e w).1
  = <[daily_ref := merge_doc (day_fields user_id date total_time apps_data e)
                             (screentime_daily w !! daily_ref)]> (screentime_daily w).
Proof.
  intros Hu Hd Hget Hset daily_ref Happs Hsum.
  unfold _update_screentime_cache, _update_screentime_cache_body, document.
  unfold try_except, when_raises, bind, lift, modify, fresh_id, ret, raise, log_error.
  rewrite Hu, Hd, Hget, Hset. cbn beta iota. fold daily_ref.
  unfold stored_apps in Happs. rewrite Happs, Hsum. cbn beta iota.
  destruct user_id; destruct (update_raises e); cbn beta iota;
    repeat match goal with
           | |- context [match users ?w0 !! ?k with _ => _ end] =>
               destruct (users w0 !! k)
           end;
    destruct w; reflexivity.
Qed.

Lemma sum_time_spent_per_app (apps : dict) : forall totals acc,
  per_app apps = Some totals ->
  sum_time_spent apps (VInt acc) = Ok (VInt (acc + sum_totals totals)).
Proof.
  induction apps as [|[n entry] apps IH]; intros totals acc; simpl.
  - intros [= <-]. simpl. rewrite Z.add_0_r. reflexivity.
  - destruct (entry_minutes entry) as [t|] eqn:Ht; [|discriminate].
    destruct (per_app apps) as [rest|] eqn:Hrest; [|discriminate].
    intros [= <-]. unfold entry_minutes in Ht.
    destruct entry as [| | | | | | |fields]; try discriminate. simpl.
    destruct (dict_get "time_spent" fields) as [[| |t'| | | | |]|]; try discriminate.
    injection Ht as ->. simpl. rewrite (IH rest _ eq_refl). simpl.
    rewrite Z.add_assoc. reflexivity.
Qed.

(** The [if app_name in apps_data] statement on a well-formed [apps] map:
    the named app gains the minutes, every other app keeps its total, and
    the new map absorbs the stored one. *)
Lemma update_app_time_ok data user_id date app minutes (apps : dict) totals :
  usage_event data user_id date app minutes ->
  wf (VDict apps) = true -> per_app apps = Some totals ->
  exists apps' totals',
    update_app_time data (VDict apps) = Ok apps'
    /\ wf (VDict apps') = true
    /\ per_app apps' = Some totals'
    /\ covers apps' apps
    /\ total_of app totals' = Some (default 0 (total_of app totals) + minutes)
    /\ (forall other, other <> app -> total_of other totals' = total_of other totals).
Proof.
  intros (Hu & Hd & Ha & (t & Ht & Hm) & Hwf) Hwfa Hpa.
  pose proof (wf_dict_inv _ Hwfa) as [Hnd Hall].
  assert (Hfinish : forall entry' x,
             wf entry' = true -> entry_minutes entry' = Some x ->
             covers (dict_set app entry' apps) apps ->
             x = default 0 (total_of app totals) + minutes ->
             exists apps' totals',
               Ok (dict_set app entry' apps) = Ok apps'
               /\ wf (VDict apps') = true
               /\ per_app apps' = Some totals'
               /\ covers apps' apps
               /\ total_of app totals' = Some (default 0 (total_of app totals) + minutes)
               /\ (forall other, other <> app ->
                     total_of other totals' = total_of other totals)).
  { intros entry' x Hwe Hx Hc ->.
    destruct (per_app_set app entry' _ apps totals Hpa Hx) as [totals' Ht'].
    exists (dict_set app entry' apps), totals'.
    repeat split; auto using wf_dict_set.
    - rewrite (total_of_per_app _ _ _ Ht'), dict_get_set_eq. exact Hx.
    - intros other Hne. rewrite (total_of_per_app _ _ _ Ht'),
        (total_of_per_app _ _ _ Hpa), dict_get_set_ne by congruence. reflexivity. }
  unfold update_app_time. rewrite Ha. cbn [res_bind].
  pose proof (total_of_per_app _ _ app Hpa) as Htot.
  destruct (dict_get app apps) as [entry|] eqn:Hentry.
  - pose proof (dict_get_wf _ _ _ Hall Hentry) as Hwe.
    destruct (per_app_entry _ _ _ _ Hpa Hentry) as (fields & old & -> & Hts).
    assert (Hold : entry_minutes (VDict fields) = Some old)
      by (unfold entry_minutes; rewrite Hts; reflexivity).
    simpl subscript. rewrite Hts, Ht. cbn [res_bind].
    rewrite Hm. cbn [res_bind num_add].
    pose proof (wf_dict_inv _ Hwe) as [Hndf Hallf].
    apply (Hfinish _ (old + minutes)).
    + apply wf_dict_set; [exact Hwe|reflexivity].
    + unfold entry_minutes. rewrite dict_get_set_eq. reflexivity.
    + eapply covers_dict_set; [exact Hall|exact Hentry|].
      apply merge_value_covers; [apply dict_set_NoDup, Hndf|].
      eapply covers_dict_set; [exact Hallf|exact Hts|reflexivity].
    + rewrite Htot. simpl. rewrite Hts. reflexivity.
  - rewrite Ht. cbn [res_bind]. rewrite Hm. cbn [res_bind].
    destruct data as [| | | | | | |d]; try discriminate.
    cbn [get_default res_bind].
    pose proof (wf_dict_inv _ Hwf) as [_ Halld].
    apply (Hfinish _ minutes).
    + apply wf_dict_intro.
      * apply (proj1 (bool_decide_eq_true (NoDup ["time_spent"; "category"]))).
        reflexivity.
      * repeat constructor. simpl.
        destruct (dict_get "category" d) eqn:Hc; simpl; [|reflexivity].
        eapply dict_get_wf; eauto.
    + reflexivity.
    + apply covers_dict_add; assumption.
    + rewrite Htot. simpl. lia.
Qed.

Lemma day_state_inv (doc : option dict) totals :
  day_state doc = Some totals ->
  exists apps, stored_apps doc = VDict apps
               /\ wf (VDict apps) = true /\ per_app apps = Some totals.
Proof.
  unfold day_state. destruct (stored_apps doc) as [| | | | | | |apps]; try discriminate.
  destruct (wf (VDict apps)) eqn:Hwf; [|discriminate]. eauto.
Qed.

Lemma day_fields_apps user_id date total apps_data e (old : option dict) apps :
  stored_apps old = VDict apps ->
  wf (VDict apps_data) = true -> covers apps_data apps ->
  dict_get "apps" (merge_doc (day_fields user_id date total apps_data e) old)
  = Some (VDict apps_data).
Proof.
  intros Hold Hwf Hc. rewrite merge_doc_get; [|
    apply (proj1 (bool_decide_eq_true (NoDup _))); reflexivity | discriminate].
  change (dict_get "apps" (day_fields user_id date total apps_data e))
    with (Some (VDict apps_data)).
  f_equal. destruct old as [o|]; [|reflexivity]. simpl in *.
  destruct (dict_get "apps" o) as [ov|]; [|reflexivity]. simpl in Hold. subst ov.
  apply merge_value_covers; [|exact Hc]. apply wf_dict_inv in Hwf. tauto.
Qed.

Lemma day_fields_total user_id date total apps_data e (old : option dict) :
  flat total = true ->
  dict_get "total_time_minutes" (merge_doc (day_fields user_id date total apps_data e) old)
  = Some total.
Proof.
  intros Hf. rewrite merge_doc_get; [|
    apply (proj1 (bool_decide_eq_true (NoDup _))); reflexivity | discriminate].
  change (dict_get "total_time_minutes" (day_fields user_id date total apps_data e))
    with (Some total).
  f_equal. destruct (old ≫= dict_get "total_time_minutes"); [|reflexivity].
  apply merge_value_flat, Hf.
Qed.

(** One merge into a day document that is absent or well formed. *)
Lemma screentime_cache_accumulates data e w user_id date app minutes totals :
  usage_event data user_id date app minutes ->
  get_raises e = false -> set_raises e = false ->
  day_state (screentime_daily w !! daily_key user_id date) = Some totals ->
  let w' := (_update_screentime_cache data e w).1 in
  exists doc' totals',
    screentime_daily w' !! daily_key user_id date = Some doc'
    /\ per_app_totals doc' = Some totals'
    /\ total_of app totals' = Some (default 0 (total_of app totals) + minutes)
    /\ (forall other, other <> app -> total_of other totals' = total_of other totals)
    /\ dict_get "total_time_minutes" doc' = Some (VInt (sum_totals totals'))
    /\ day_state (Some doc') = Some totals'.
Proof.
  intros Hev Hget Hset Hstate w'.
  destruct (day_state_inv _ _ Hstate) as (apps & Hstored & Hwf & Hpa).
  destruct (update_app_time_ok _ _ _ _ _ _ _ Hev Hwf Hpa)
    as (apps' & totals' & Hupd & Hwf' & Hpa' & Hc & Htot & Hothers).
  pose proof (sum_time_spent_per_app _ _ 0 Hpa') as Hsum. rewrite Z.add_0_l in Hsum.
  destruct Hev as (Hu & Hd & _).
  rewrite <- Hstored in Hupd.
  pose proof (screentime_cache_daily data e w user_id date apps' _
                Hu Hd Hget Hset Hupd Hsum) as Hdaily.
  fold w' in Hdaily.
  pose proof (day_fields_apps user_id date (VInt (sum_totals totals')) apps' e
                _ apps Hstored Hwf' Hc) as Happs.
  eexists _, totals'. rewrite Hdaily, lookup_insert_eq.
  split; [reflexivity|].
  assert (Hper : per_app_totals
                   (merge_doc (day_fields user_id date (VInt (sum_totals totals')) apps' e)
                              (screentime_daily w !! daily_key user_id date))
                 = Some totals').
  { unfold per_app_totals, apps_of. rewrite Happs. exact Hpa'. }
  repeat split; auto.
  - apply day_fields_total. reflexivity.
  - unfold day_state, stored_apps. rewrite Happs. cbn [from_option id].
    rewrite Hwf'. exact Hpa'.
Qed.

(** C4.  A screen-time merge of [minutes] minutes of [app] into the day
    document of a user and a date, absent or well formed, with the read and
    the write succeeding: the per-app total of [app] becomes what it was
    (nothing, when the app was absent) plus [minutes], the other apps keep
    theirs, and the document's daily total is the sum of its per-app totals. *)
Theorem C4_screentime_merge_accumulates data e w user_id date app minutes totals :
  usage_event data user_id date app minutes ->
  get_raises e = false -> set_raises e = false ->
  day_state (screentime_daily w !! daily_key user_id date) = Some totals ->
  let w' := (_update_screentime_cache data e w).1 in
  exists doc' totals',
    screentime_daily w' !! daily_key user_id date = Some doc'
    /\ per_app_totals doc' = Some totals'
    /\ total_of app totals' = Some (default 0 (total_of app totals) + minutes)
    /\ (forall other, other <> app -> total_of other totals' = total_of other totals)
    /\ dict_get "total_time_minutes" doc' = Some (VInt (sum_totals totals'))
    /\ day_state (Some doc') = Some totals'.
Proof. exact (screentime_cache_accumulates data e w user_id date app minutes totals). Qed.

(** *** The user document *)

(** The [if app_name in apps_data] statement adds the event's minutes to
    the sum of the per-app totals. *)
Lemma update_app_time_sum data user_id date app minutes (apps : dict) totals apps' totals' :
  usage_event data user_id date app minutes ->
  per_app apps = Some totals ->
  update_app_time data (VDict apps) = Ok apps' ->
  per_app apps' = Some totals' ->
  sum_totals totals' = sum_totals totals + minutes.
Proof.
  intros (Hu & Hd & Ha & (t & Ht & Hm) & Hwf) Hpa Hupd Hpa'.
  pose proof (total_of_per_app _ _ app Hpa) as Htot.
  unfold update_app_time in Hupd. rewrite Ha in Hupd. cbn [res_bind] in Hupd.
  destruct (dict_get app apps) as [entry|] eqn:Hentry.
  - destruct (per_app_entry _ _ _ _ Hpa Hentry) as (fields & old & -> & Hts).
    simpl subscript in Hupd. rewrite Hts, Ht in Hupd. cbn [res_bind] in Hupd.
    rewrite Hm in Hupd. cbn [res_bind num_add] in Hupd. injection Hupd as <-.
    destruct (per_app_set_sum app (VDict (dict_set "time_spent" (VInt (old + minutes)) fields))
                (old + minutes) apps totals Hpa) as (totals1 & Hpa1 & Hsum).
    { unfold entry_minutes. rewrite dict_get_set_eq. reflexivity. }
    rewrite Hpa1 in Hpa'. injection Hpa' as <-.
    rewrite Hsum, Htot. simpl. rewrite Hts. simpl. lia.
  - rewrite Ht in Hupd. cbn [res_bind] in Hupd. rewrite Hm in Hupd.
    cbn [res_bind] in Hupd.
    destruct data as [| | | | | | |d]; try discriminate.
    cbn [get_default res_bind] in Hupd. injection Hupd as <-.
    destruct (per_app_set_sum app
                (VDict [("time_spent", VInt minutes);
                        ("category", default (VStr "Other") (dict_get "category" d))])
                minutes apps totals Hpa eq_refl) as (totals1 & Hpa1 & Hsum).
    rewrite Hpa1 in Hpa'. injection Hpa' as <-.
    rewrite Hsum, Htot. simpl. lia.
Qed.

(** What a merge whose day document was written does to [users]: the
    document of the user is rewritten when it is there, and nothing is
    written when it is not. *)
Lemma screentime_cache_users data e w user date apps_data total_time :
  subscript data "user_id" = Ok (VStr user) ->
  subscript data "date" = Ok date ->
  get_raises e = false -> set_raises e = false -> update_raises e = false ->
  update_app_time data (stored_apps (screentime_daily w !! daily_key (VStr user) date))
  = Ok apps_data ->
  sum_time_spent apps_data (VInt 0) = Ok total_time ->
  let w' := (_update_screentime_cache data e w).1 in
  match users w !! user with
  | Some old =>
      users w' = <[user := dict_set "daily_screentime_minutes" total_time
                             (dict_set "last_screentime_update" (VTime (server_time e)) old)]>
                   (users w)
      /\ log w' = log w
  | None => users w' = users w /\ log w' = log w ++ [CacheUpdateError Screentime]
  end.
Proof.
  intros Hu Hd Hget Hset Hupd Happs Hsum.
  unfold _update_screentime_cache, _update_screentime_cache_body, document.
  unfold try_except, when_raises, bind, lift, modify, fresh_id, ret, raise, log_error.
  rewrite Hu, Hd, Hget, Hset, Hupd. cbn beta iota.
  unfold stored_apps in Happs. rewrite Happs, Hsum. cbn beta iota.
  destruct w as [mt st md ph sd us ak nk tk lg ni]; simpl.
  destruct (us !! user); simpl; auto.
Qed.

(** C10.  A screen-time cache merge of [minutes] minutes that has written
    the day document of a user and a date goes on to the document of the
    user in [users], with the total it has just computed: the sum of the
    per-app totals of the day, which is the sum before the merge plus the
    minutes.  When the user's document is there and the update call does
    not fail, its [daily_screentime_minutes] becomes that total, whatever
    it held before and from whichever date, its [last_screentime_update]
    becomes the store's time, and its other fields stay.  When the user
    has no document the update fails: nothing is written to [users], no
    document is created, and the error is only logged, the day document
    staying merged. *)
Theorem C10_merge_rewrites_existing_user_document data e w user date app minutes totals :
  usage_event data (VStr user) date app minutes ->
  get_raises e = false -> set_raises e = false -> update_raises e = false ->
  day_state (screentime_daily w !! daily_key (VStr user) date) = Some totals ->
  let w' := (_update_screentime_cache data e w).1 in
  let total := sum_totals totals + minutes in
  (exists doc' totals',
     screentime_daily w' !! daily_key (VStr user) date = Some doc'
     /\ per_app_totals doc' = Some totals'
     /\ sum_totals totals' = total
     /\ dict_get "total_time_minutes" doc' = Some (VInt total))
  /\ match users w !! user with
     | Some old =>
         users w'
         = <[user := dict_set "daily_screentime_minutes" (VInt total)
                       (dict_set "last_screentime_update" (VTime (server_time e)) old)]>
             (users w)
         /\ (users w' !! user ≫= dict_get "daily_screentime_minutes") = Some (VInt total)
         /\ (users w' !! user ≫= dict_get "last_screentime_update")
            = Some (VTime (server_time e))
         /\ log w' = log w
     | None =>
         users w' = users w /\ log w' = log w ++ [CacheUpdateError Screentime]
     end.
Proof.
  intros Hev Hget Hset Hupdate Hstate w' total.
  destruct (day_state_inv _ _ Hstate) as (apps & Hstored & Hwf & Hpa).
  destruct (update_app_time_ok _ _ _ _ _ _ _ Hev Hwf Hpa)
    as (apps' & totals' & Hupd & Hwf' & Hpa' & Hc & _ & _).
  pose proof (update_app_time_sum _ _ _ _ _ _ _ _ _ Hev Hpa Hupd Hpa') as Htotal.
  pose proof (sum_time_spent_per_app _ _ 0 Hpa') as Hsum.
  rewrite Z.add_0_l, Htotal in Hsum. fold total in Hsum.
  pose proof Hev as (Hu & Hd & _).
  rewrite <- Hstored in Hupd.
  pose proof (screentime_cache_daily data e w (VStr user) date apps' _
                Hu Hd Hget Hset Hupd Hsum) as Hdaily.
  pose proof (screentime_cache_users data e w user date apps' _
                Hu Hd Hget Hset Hupdate Hupd Hsum) as Husers.
  fold w' in Hdaily, Husers.
  split.
  - pose proof (day_fields_apps (VStr user) date (VInt total) apps' e
                  _ apps Hstored Hwf' Hc) as Happs.
    eexists _, totals'. rewrite Hdaily, lookup_insert_eq.
    split; [reflexivity|]. split; [|split; [exact Htotal|]].
    + unfold per_app_totals, apps_of. rewrite Happs. exact Hpa'.
    + apply day_fields_total. reflexivity.
  - destruct (users w !! user) as [old|]; [|exact Husers].
    destruct Husers as [Husers Hlog]. split; [exact Husers|].
    rewrite Husers, lookup_insert_eq. simpl.
    rewrite dict_get_set_eq, dict_get_set_ne, dict_get_set_eq by discriminate.
    auto.
Qed.

(** *** Merges that reach the store interleaved *)

Lemma usage_event_valid data user_id date app minutes :
  usage_event data user_id date app minutes ->
  all_in screentime_required data = Ok true.
Proof.
  intros (Hu & Hd & Ha & (t & Ht & _) & _).
  destruct data as [| | | | | | |d]; try discriminate. simpl in *.
  destruct (dict_get "user_id" d); [|discriminate].
  destruct (dict_get "app_name" d); [|discriminate].
  destruct (dict_get "time_spent" d); [|discriminate].
  destruct (dict_get "date" d); [|discriminate].
  reflexivity.
Qed.

Lemma usage_event_row data user_id date app minutes e :
  usage_event data user_id date app minutes ->
  exists bq_row, screentime_row data e = Ok bq_row.
Proof.
  intros (Hu & Hd & Ha & (t & Ht & Hm) & _).
  unfold screentime_row. rewrite Hu, Ha, Ht, Hd. cbn [res_bind].
  destruct data as [| | | | | | |d]; try discriminate.
  cbn [get_default res_bind]. rewrite Hm. cbn [res_bind]. eauto.
Qed.

Lemma day_state_app_total key app w totals :
  day_state (screentime_daily w !! key) = Some totals ->
  app_total key app w = total_of app totals.
Proof.
  unfold app_total, day_state, per_app_totals, apps_of, stored_apps.
  destruct (screentime_daily w !! key) as [doc|]; simpl.
  - destruct (dict_get "apps" doc) as [[| | | | | | |apps]|]; simpl; try discriminate.
    + match goal with
      | |- (if ?b then _ else _) = _ -> _ => destruct b; [|discriminate]
      end.
      intros ->. reflexivity.
    + intros [= <-]. reflexivity.
  - intros [= <-]. reflexivity.
Qed.

(** A merge that makes its three calls with no other call in between is
    the function. *)
Lemma merge_steps_are_the_function data e w :
  let '(w1, m1) := merge_step (AtGet data e) w in
  let '(w2, m2) := merge_step m1 w1 in
  let '(w3, m3) := merge_step m2 w2 in
  w3 = (_update_screentime_cache data e w).1 /\ m3 = Merged.
Proof.
  unfold _update_screentime_cache, _update_screentime_cache_body.
  unfold merge_step at 1. unfold merge_get.
  unfold try_except, when_raises, bind, lift, modify, ret, raise, log_error.
  destruct (subscript data "user_id") as [user_id|]; cbn beta iota zeta;
    [|simpl; auto].
  destruct (subscript data "date") as [date|]; cbn beta iota zeta; [|simpl; auto].
  destruct (get_raises e); cbn beta iota zeta; [simpl; auto|].
  unfold merge_step at 1. unfold merge_set.
  unfold when_raises, bind, lift, modify, ret, raise, log_error.
  destruct (update_app_time data _) as [apps_data|]; cbn beta iota zeta;
    [|simpl; auto].
  destruct (sum_time_spent apps_data (VInt 0)) as [total_time|]; cbn beta iota zeta;
    [|simpl; auto].
  destruct (set_raises e); cbn beta iota zeta; [simpl; auto|].
  unfold merge_step, merge_update, document.
  unfold when_raises, bind, lift, modify, fresh_id, ret, raise, log_error.
  destruct user_id; cbn beta iota zeta; try (simpl; auto; fail);
    destruct (update_raises e); cbn beta iota zeta; try (simpl; auto; fail);
    match goal with
    | |- context [users ?w0 !! ?k] =>
        destruct (users w0 !! k); cbn beta iota zeta; simpl; auto
    end.
Qed.

Lemma run_schedule_cons i schedule cfg :
  run_schedule (i :: schedule) cfg = run_schedule schedule (step_at i cfg).
Proof. reflexivity. Qed.

Lemma run_schedule_app s1 s2 cfg :
  run_schedule (s1 ++ s2) cfg = run_schedule s2 (run_schedule s1 cfg).
Proof. apply foldl_app. Qed.

Lemma step_at_middle done m rest w :
  step_at (length done) (done ++ m :: rest, w)
  = (done ++ (merge_step m w).2 :: rest, (merge_step m w).1).
Proof.
  unfold step_at. simpl. rewrite list_lookup_middle by reflexivity.
  destruct (merge_step m w) as [w' m']. simpl.
  rewrite insert_app_r_alt by lia. rewrite Nat.sub_diag. reflexivity.
Qed.

(** A schedule that serves every merge once, in order, is one round. *)
Lemma run_sweep todo : forall done w,
  run_schedule (seq (length done) (length todo)) (done ++ todo, w)
  = (done ++ (sweep todo w).1, (sweep todo w).2).
Proof.
  induction todo as [|m todo IH]; intros done w; simpl length; simpl seq.
  - reflexivity.
  - rewrite run_schedule_cons, step_at_middle. simpl sweep.
    destruct (merge_step m w) as [w1 m1]. simpl fst; simpl snd.
    specialize (IH (done ++ [m1]) w1).
    rewrite length_app, Nat.add_1_r, <- app_assoc in IH. simpl in IH.
    rewrite IH. destruct (sweep todo w1) as [pool1 w2]. simpl.
    rewrite <- app_assoc. reflexivity.
Qed.

(** A schedule that lets each merge finish before the next starts is the
    function called once per merge. *)
Lemma run_one_by_one data envs : forall done w,
  run_schedule (flat_map (fun i => [i; i; i]) (seq (length done) (length envs)))
               (done ++ merges_of data envs, w)
  = (done ++ map (fun _ => Merged) envs, merge_in_turn data envs w).
Proof.
  induction envs as [|e envs IH]; intros done w; simpl length; simpl seq.
  - reflexivity.
  - cbn [flat_map app merges_of map].
    pose proof (merge_steps_are_the_function data e w) as Hfun.
    rewrite run_schedule_cons, step_at_middle.
    destruct (merge_step (AtGet data e) w) as [w1 m1]. simpl fst; simpl snd.
    rewrite run_schedule_cons, step_at_middle.
    destruct (merge_step m1 w1) as [w2 m2]. simpl fst; simpl snd.
    rewrite run_schedule_cons, step_at_middle.
    destruct (merge_step m2 w2) as [w3 m3]. simpl fst; simpl snd.
    destruct Hfun as [-> ->].
    specialize (IH (done ++ [Merged]) (_update_screentime_cache data e w).1).
    rewrite length_app, Nat.add_1_r, <- app_assoc in IH. simpl in IH.
    fold (merges_of data envs). rewrite IH, <- app_assoc. reflexivity.
Qed.

(** Merges made in turn all count. *)
Lemma merge_in_turn_total data user_id date app minutes envs : forall w totals,
  usage_event data user_id date app minutes ->
  Forall (fun e => get_raises e = false /\ set_raises e = false) envs ->
  day_state (screentime_daily w !! daily_key user_id date) = Some totals ->
  exists totals',
    day_state (screentime_daily (merge_in_turn data envs w) !! daily_key user_id date)
    = Some totals'
    /\ total_of app totals'
       = match envs with
         | [] => total_of app totals
         | _ => Some (default 0 (total_of app totals)
                      + Z.of_nat (length envs) * minutes)
         end.
Proof.
  induction envs as [|e envs IH]; intros w totals Hev Hall Hday.
  - exists totals. auto.
  - apply Forall_cons in Hall as [[Hget Hset] Hall].
    destruct (screentime_cache_accumulates data e w user_id date app minutes totals
                Hev Hget Hset Hday) as (doc1 & totals1 & Hdoc1 & _ & Htot1 & _ & _ & Hday1).
    rewrite <- Hdoc1 in Hday1.
    destruct (IH _ totals1 Hev Hall Hday1) as (totals' & Hday' & Htot').
    exists totals'. split; [exact Hday'|].
    rewrite Htot', Htot1. destruct envs; simpl length; simpl default; f_equal; lia.
Qed.

(** The first round of a race: every merge reads the same document and
    leaves the store as it was. *)
Lemma sweep_get data user_id date envs w :
  subscript data "user_id" = Ok user_id -> subscript data "date" = Ok date ->
  Forall (fun e => get_raises e = false /\ set_raises e = false) envs ->
  sweep (merges_of data envs) w
  = (map (fun e => AtSet data e user_id date
                     (screentime_daily w !! daily_key user_id date)) envs, w).
Proof.
  intros Hu Hd Hall. induction Hall as [|e envs [Hget _] _ IH]; [reflexivity|].
  cbn [merges_of map sweep]. fold (merges_of data envs).
  assert (Hstep : merge_step (AtGet data e) w
                  = (w, AtSet data e user_id date
                          (screentime_daily w !! daily_key user_id date))).
  { unfold merge_step, merge_get, when_raises, bind, lift, ret.
    rewrite Hu, Hd, Hget. reflexivity. }
  rewrite Hstep, IH. reflexivity.
Qed.

(** The second round: every merge writes the totals it computed from the
    document it read, so after the first write the [apps] map is the one
    every one of them computed, and stays so. *)
Lemma sweep_set data user_id date doc0 apps' total envs :
  update_app_time data (stored_apps doc0) = Ok apps' ->
  sum_time_spent apps' (VInt 0) = Ok total ->
  wf (VDict apps') = true ->
  Forall (fun e => get_raises e = false /\ set_raises e = false) envs ->
  forall w,
    (exists a, stored_apps (screentime_daily w !! daily_key user_id date) = VDict a
               /\ covers apps' a) ->
    let r := sweep (map (fun e => AtSet data e user_id date doc0) envs) w in
    r.1 = map (fun e => AtUpdate e user_id total) envs
    /\ (exists a, stored_apps (screentime_daily r.2 !! daily_key user_id date) = VDict a
                  /\ covers apps' a)
    /\ (envs <> [] ->
        stored_apps (screentime_daily r.2 !! daily_key user_id date) = VDict apps').
Proof.
  intros Hupd Hsum Hwf Hall.
  induction Hall as [|e envs [_ Hset] _ IH]; intros w HQ.
  - simpl. split; [reflexivity|]. split; [exact HQ|congruence].
  - cbn [map sweep].
    set (w1 := with_screentime_daily (fun m =>
                 <[daily_key user_id date :=
                     merge_doc (day_fields user_id date total apps' e)
                               (m !! daily_key user_id date)]> m) w).
    assert (Hstep : merge_step (AtSet data e user_id date doc0) w
                    = (w1, AtUpdate e user_id total)).
    { unfold merge_step, merge_set, when_raises, bind, lift, modify, ret.
      unfold stored_apps in Hupd. rewrite Hupd. cbn beta iota.
      rewrite Hsum. cbn beta iota. rewrite Hset. reflexivity. }
    assert (Hw1 : stored_apps (screentime_daily w1 !! daily_key user_id date)
                  = VDict apps').
    { destruct HQ as (a & Ha & Hc).
      assert (Hd : screentime_daily w1
                   = <[daily_key user_id date :=
                         merge_doc (day_fields user_id date total apps' e)
                                   (screentime_daily w !! daily_key user_id date)]>
                       (screentime_daily w)) by (subst w1; destruct w; reflexivity).
      rewrite Hd, lookup_insert_eq. unfold stored_apps at 1.
      rewrite (day_fields_apps user_id date total apps' e _ a Ha Hwf Hc).
      reflexivity. }
    rewrite Hstep.
    destruct (IH w1) as (Hpool & HQ' & Hne).
    { exists apps'. split; [exact Hw1|apply covers_refl, Hwf]. }
    destruct (sweep (map (fun e0 => AtSet data e0 user_id date doc0) envs) w1)
      as [pool1 w2] eqn:Hsw.
    simpl in *. split; [f_equal; exact Hpool|]. split; [exact HQ'|].
    intros _. destruct envs as [|e' envs'].
    + simpl in Hsw. injection Hsw as <- <-. exact Hw1.
    + apply Hne. discriminate.
Qed.

(** The third round: the updates of the user document leave the day
    documents alone. *)
Lemma sweep_update user_id total envs : forall w,
  let r := sweep (map (fun e => AtUpdate e user_id total) envs) w in
  r.1 = map (fun _ => Merged) envs
  /\ screentime_daily r.2 = screentime_daily w.
Proof.
  induction envs as [|e envs IH]; intros w; [split; reflexivity|].
  cbn [map sweep].
  assert (Hstep : (merge_step (AtUpdate e user_id total) w).2 = Merged
                  /\ screentime_daily (merge_step (AtUpdate e user_id total) w).1
                     = screentime_daily w).
  { unfold merge_step, merge_update, document.
    unfold when_raises, bind, lift, modify, fresh_id, ret, raise, log_error.
    destruct user_id; cbn beta iota; try (destruct w; split; reflexivity);
      destruct (update_raises e); cbn beta iota;
      try (destruct w; split; reflexivity);
      destruct w as [mt st md ph sd us ak nk tk lg ni]; simpl;
      match goal with
      | |- context [us !! ?k] => destruct (us !! k); simpl; split; reflexivity
      end. }
  destruct (merge_step (AtUpdate e user_id total) w) as [w1 m1].
  simpl in Hstep. destruct Hstep as [-> Hd].
  destruct (IH w1) as [Hpool Hdaily].
  destruct (sweep (map (fun e0 => AtUpdate e0 user_id total) envs) w1) as [pool1 w2].
  simpl in *. split; [f_equal; exact Hpool|]. rewrite Hdaily. exact Hd.
Qed.

Lemma all_merged (envs : list env) :
  forallb is_merged (map (fun _ => Merged) envs) = true.
Proof. induction envs; simpl; auto. Qed.

(** C9, as the code has it.  The code does not serialize the merges of one
    key: a merge reads the day document and later writes it back, with no
    lock and no transaction between the two calls.  For any number of
    merges of one event of [minutes] minutes, the store's read and write
    not raising, into a day document that is absent or well formed: when
    each merge makes its calls before the next starts, which is the
    function called that many times in turn, every merge counts and the
    per-app total grows by the number of merges times the minutes; when
    every merge reads before the first of them writes, each writes the
    total it computed from what it read, and the per-app total grows by the
    minutes of one merge only, the others being lost. *)
Theorem C9_merges_count_in_turn_and_are_lost_when_interleaved
    data envs w user_id date app minutes totals :
  usage_event data user_id date app minutes ->
  Forall (fun e => get_raises e = false /\ set_raises e = false) envs ->
  envs <> [] ->
  day_state (screentime_daily w !! daily_key user_id date) = Some totals ->
  let key := daily_key user_id date in
  let n := length envs in
  let in_turn := run_schedule (one_by_one n) (merges_of data envs, w) in
  let raced := run_schedule (readers_first n) (merges_of data envs, w) in
  (forallb is_merged in_turn.1 = true
   /\ in_turn.2 = merge_in_turn data envs w
   /\ app_total key app in_turn.2
      = Some (default 0 (app_total key app w) + Z.of_nat n * minutes))
  /\ (forallb is_merged raced.1 = true
      /\ app_total key app raced.2
         = Some (default 0 (app_total key app w) + minutes)).
Proof.
  intros Hev Hall Hne Hday key n in_turn raced. subst key.
  assert (Hlen : length (merges_of data envs) = n)
    by (unfold merges_of; apply length_map).
  rewrite (day_state_app_total _ app _ _ Hday).
  split.
  - pose proof (run_one_by_one data envs [] w) as Hrun. simpl in Hrun.
    fold n in Hrun. fold (one_by_one n) in Hrun.
    subst in_turn. rewrite Hrun. simpl.
    split; [apply all_merged|]. split; [reflexivity|].
    destruct (merge_in_turn_total data user_id date app minutes envs w totals
                Hev Hall Hday) as (totals' & Hday' & Htot).
    rewrite (day_state_app_total _ app _ _ Hday'), Htot.
    destruct envs; [congruence|reflexivity].
  - destruct (day_state_inv _ _ Hday) as (apps & Hstored & Hwf & Hpa).
    destruct (update_app_time_ok _ _ _ _ _ _ _ Hev Hwf Hpa)
      as (apps' & totals' & Hupd & Hwf' & Hpa' & Hc & Htot & _).
    pose proof (sum_time_spent_per_app _ _ 0 Hpa') as Hsum.
    rewrite <- Hstored in Hupd.
    pose proof Hev as (Hu & Hd & _).
    subst raced. unfold readers_first. rewrite !run_schedule_app.
    pose proof (run_sweep (merges_of data envs) [] w) as Hr1.
    simpl in Hr1. rewrite Hlen in Hr1. rewrite Hr1.
    rewrite (sweep_get data user_id date envs w Hu Hd Hall). simpl fst; simpl snd.
    set (doc0 := screentime_daily w !! daily_key user_id date) in *.
    set (pool2 := map (fun e => AtSet data e user_id date doc0) envs).
    pose proof (run_sweep pool2 [] w) as Hr2. simpl in Hr2.
    assert (Hlen2 : length pool2 = n) by (subst pool2; apply length_map).
    rewrite Hlen2 in Hr2. rewrite Hr2.
    destruct (sweep_set data user_id date doc0 apps' _ envs Hupd Hsum Hwf' Hall w)
      as (Hpool2 & _ & Hw2).
    { exists apps. split; [exact Hstored|exact Hc]. }
    fold pool2 in Hpool2, Hw2. specialize (Hw2 Hne).
    destruct (sweep pool2 w) as [pool3 w2]. simpl in Hpool2, Hw2. subst pool3.
    simpl fst; simpl snd.
    set (pool3 := map (fun e => AtUpdate e user_id (VInt (0 + sum_totals totals'))) envs).
    pose proof (run_sweep pool3 [] w2) as Hr3. simpl in Hr3.
    assert (Hlen3 : length pool3 = n) by (subst pool3; apply length_map).
    rewrite Hlen3 in Hr3. rewrite Hr3.
    destruct (sweep_update user_id (VInt (0 + sum_totals totals')) envs w2)
      as [Hpool4 Hdaily].
    fold pool3 in Hpool4, Hdaily.
    destruct (sweep pool3 w2) as [pool4 w3]. simpl in Hpool4, Hdaily. subst pool4.
    cbn [fst snd]. split; [apply all_merged|].
    assert (Hday3 : day_state (screentime_daily w3 !! daily_key user_id date)
                    = Some totals').
    { rewrite Hdaily. unfold day_state. rewrite Hw2, Hwf'. exact Hpa'. }
    rewrite (day_state_app_total _ app _ _ Hday3). exact Htot.
Qed.

End WithPlatform.


(** C6, against the specification's statement: one validated event
    delivered twice leaves two rows in the archive, alike in symbol and
    timestamp. *)
Lemma C6_redelivery_duplicates_the_row :
  let m := MkMessage 7 (Some (tick 0)) in
  let w1 := (deliver Market m (calm 1) empty_world).1 in
  let w2 := (deliver Market m (calm 2) w1).1 in
  length (market_table w1) = 1%nat /\ length (market_table w2) = 2%nat
  /\ map (fun row => (dict_get "symbol" row, dict_get "timestamp" row)) (market_table w2)
     = [(Some (VStr "INFY"), Some (VStr "2024-01-01T09:15:00.000"));
        (Some (VStr "INFY"), Some (VStr "2024-01-01T09:15:00.000"))].
Proof. vm_compute. repeat split. Qed.

(** C6 at one row appended twice. *)
Lemma C6_append_twice_appends_twice_witness :
  let row := [("symbol", VStr "INFY"); ("timestamp", VStr "2024-01-01T09:15:00.000")] in
  let w1 := (_insert_to_bigquery Market [row] (calm 1) empty_world).1 in
  let w2 := (_insert_to_bigquery Market [row] (calm 2) w1).1 in
  table_of Market w1 = [row] /\ table_of Market w2 = [row; row].
Proof.
  exact (C6_append_twice_appends_twice Market
           [[("symbol", VStr "INFY"); ("timestamp", VStr "2024-01-01T09:15:00.000")]]
           (calm 1) (calm 2) empty_world eq_refl eq_refl).
Defined.

(** C8, against the specification's statement: the store rejects the row,
    the message is acknowledged and not negatively acknowledged, and the
    cache is updated although the archive holds nothing. *)
Lemma C8_acked_though_row_rejected :
  let w := (deliver Market (MkMessage 7 (Some (tick 0))) row_rejected empty_world).1 in
  acked w = [7%nat] /\ nacked w = [] /\ market_table w = []
  /\ is_Some (market_data w !! "INFY")
  /\ log w = [BigQueryInsertErrors
                [VDict [("index", VInt 0);
                        ("errors", VList [VStr "no such field: open"])]]].
Proof. vm_compute. repeat split. eexists. reflexivity. Qed.

(** C8 at a tick whose row the store rejects. *)
Lemma C8_row_errors_are_logged_not_reported_witness :
  let errors := [VDict [("index", VInt 0);
                        ("errors", VList [VStr "no such field: open"])]] in
  let logged := with_log (fun l => l ++ [BigQueryInsertErrors errors]) in
  (forall table rows w0,
      _insert_to_bigquery table rows row_rejected w0 = (logged w0, Ok tt))
  /\ _process_market_data (tick 0) row_rejected empty_world
     = _update_market_cache (tick 0) row_rejected (logged empty_world).
Proof.
  refine (C8_row_errors_are_logged_not_reported (tick 0) row_rejected empty_world
            [VDict [("index", VInt 0); ("errors", VList [VStr "no such field: open"])]]
            _ eq_refl _ eq_refl eq_refl).
  discriminate.
Defined.

(** C2 at a tick without its price. *)
Lemma C2_market_event_missing_field_writes_nothing_witness :
  _process_market_data (VDict unpriced_tick) (calm 1) empty_world
  = (with_log (fun l => l ++ [InvalidFormat Market]) empty_world, Ok tt)
  /\ sinks (deliver Market (MkMessage 7 (Some (VDict unpriced_tick))) (calm 1) empty_world).1
     = sinks empty_world.
Proof.
  refine (C2_market_event_missing_field_writes_nothing
            (MkMessage 7 (Some (VDict unpriced_tick))) unpriced_tick (calm 1)
            empty_world "price" eq_refl eq_refl _ eq_refl).
  simpl. auto.
Defined.

(** C3, the code at the failing input: a screen-time event with all four
    fields and a date that is no calendar date is not rejected; a row goes
    to the archive and a cache document is created under that date. *)
Lemma C3_unparsed_date_reaches_both_sinks :
  let w := (deliver Screentime (MkMessage 7 (Some undated_usage)) (calm 1) empty_world).1 in
  is_ymd "not-a-date" = false
  /\ map (dict_get "date") (screentime_table w) = [Some (VStr "not-a-date")]
  /\ app_total "u1_not-a-date" "Chrome" w = Some 10
  /\ acked w = [7%nat].
Proof. vm_compute. repeat split. Qed.

(** C5, the code at the failing input: 150 ticks of one symbol merged one
    after the other leave 150 history entries, the oldest still first,
    whether the limited query streams or raises. *)
Lemma C5_150_ticks_leave_150_entries :
  let w := merge_all (ticks 150) empty_world in
  let w' := merge_all (ticks_unstreamed 150) empty_world in
  length (history_entries "INFY" w) = 150%nat
  /\ (head (history_entries "INFY" w) ≫= dict_get "timestamp")
     = Some (VStr "2024-01-01T09:15:00.000")
  /\ log w = []
  /\ length (history_entries "INFY" w') = 150%nat
  /\ length (log w') = 150%nat.
Proof. vm_compute. repeat split. Qed.

(** C7, against the specification's statement: of two ticks, the one with
    the later timestamp merged first, [current] ends up holding the earlier
    tick; merged in timestamp order it holds the later one. *)
Lemma C7_current_follows_arrival_not_timestamp :
  let a := merge_all late_tick_first empty_world in
  let b := merge_all (ticks 2) empty_world in
  (market_data a !! "INFY" ≫= dict_get "high") = Some (VInt 1500)
  /\ (market_data b !! "INFY" ≫= dict_get "high") = Some (VInt 1501)
  /\ (market_data a !! "INFY" ≫= dict_get "current_price")
     = Some (VFloat (S754_finite false 6597069766656000 (-42)))
  /\ (market_data b !! "INFY" ≫= dict_get "current_price")
     = Some (VFloat (S754_finite false 6601467813167104 (-42)))
  /\ map (dict_get "timestamp") (history_by_timestamp "INFY" a)
     = [Some (VStr "2024-01-01T09:15:00.000"); Some (VStr "2024-01-01T09:15:00.001")]
  /\ history_by_timestamp "INFY" a = history_by_timestamp "INFY" b.
Proof. vm_compute. repeat split. Qed.

(** C7 at two ticks arriving against their timestamps: the current
    document is the tick that arrived last, and the reader gets the two
    entries in the order of their timestamps, as in any other order of
    arrival. *)
Lemma C7_last_arrival_wins_history_sorted_by_timestamp_witness :
  let w' := merge_all late_tick_first empty_world in
  map (dict_get "timestamp") (history_by_timestamp "INFY" w')
  = [Some (VStr "2024-01-01T09:15:00.000"); Some (VStr "2024-01-01T09:15:00.001")]
  /\ (forall data e, last late_tick_first = Some (data, e) ->
        exists doc, market_update_data data e = Ok doc
                    /\ market_data w' !! "INFY" = Some doc)
  /\ Permutation (history_by_timestamp "INFY" w') (entries_of late_tick_first)
  /\ Sorted timestamp_le (history_by_timestamp "INFY" w')
  /\ (forall events', Permutation events' late_tick_first ->
        history_by_timestamp "INFY" (merge_all events' empty_world)
        = history_by_timestamp "INFY" w').
Proof.
  split; [vm_compute; reflexivity|].
  assert (Hcmp : comparable (entries_of late_tick_first)).
  { intros a b Ha Hb. vm_compute in Ha, Hb.
    destruct Ha as [<-|[<-|[]]], Hb as [<-|[<-|[]]]; vm_compute; auto. }
  assert (Hdis : distinct_timestamps (entries_of late_tick_first)).
  { split.
    - intros a b c Ha Hb Hc. vm_compute in Ha, Hb, Hc.
      destruct Ha as [<-|[<-|[]]], Hb as [<-|[<-|[]]], Hc as [<-|[<-|[]]];
        vm_compute; auto.
    - intros a b Ha Hb. vm_compute in Ha, Hb.
      destruct Ha as [<-|[<-|[]]], Hb as [<-|[<-|[]]]; vm_compute;
        first [reflexivity | discriminate | auto]. }
  assert (Hok : Forall (fun de => market_event_ok "INFY" de.1 = true
                                  /\ set_raises de.2 = false /\ add_raises de.2 = false)
                       late_tick_first) by repeat constructor.
  assert (Hlen : (length late_tick_first <= 100)%nat) by (simpl; lia).
  destruct (C7_last_arrival_wins_history_sorted_by_timestamp "INFY" late_tick_first
              empty_world Hok eq_refl eq_refl Hlen Hcmp)
    as (Hcur & Hperm & Hsorted & Hsame).
  split; [exact Hcur|]. split; [exact Hperm|]. split; [exact Hsorted|].
  exact (Hsame Hdis).
Defined.

(** C4 at the events [{app=Chrome, minutes=10}] then [{app=Chrome,
    minutes=5}] for one user and date: the per-app total is 15. *)
Lemma C4_screentime_merge_accumulates_witness :
  exists doc' totals',
    screentime_daily (_update_screentime_cache (usage "Chrome" 5) (calm 2) after_ten).1
      !! "u1_2024-01-01" = Some doc'
    /\ per_app_totals doc' = Some totals'
    /\ total_of "Chrome" totals' = Some 15
    /\ (forall other, other <> "Chrome" ->
          total_of other totals' = total_of other [("Chrome", 10)])
    /\ dict_get "total_time_minutes" doc' = Some (VInt (sum_totals totals'))
    /\ day_state (Some doc') = Some totals'.
Proof.
  refine (C4_screentime_merge_accumulates (usage "Chrome" 5) (calm 2) after_ten
            (VStr "u1") (VStr "2024-01-01") "Chrome" 5 [("Chrome", 10)]
            _ eq_refl eq_refl _).
  - repeat split. exists (VInt 5). split; reflexivity.
  - vm_compute. reflexivity.
Defined.

(** C10, against the statement that every merge rewrites the user's
    document: ten minutes of Chrome of a user who has no document in
    [users].  The day document is merged, with 10 as its
    total, and [users] is as it was: no document for the user. *)
Lemma C10_merge_without_user_document_writes_no_user :
  let w' := (_update_screentime_cache guest_usage (calm 1) registered).1 in
  app_total "u2_2024-01-01" "Chrome" w' = Some 10
  /\ (screentime_daily w' !! "u2_2024-01-01" ≫= dict_get "total_time_minutes")
     = Some (VInt 10)
  /\ users w' !! "u2" = None
  /\ users w' = users registered
  /\ log w' = [CacheUpdateError Screentime].
Proof. vm_compute. repeat split. Qed.

(** C10 at the second Chrome merge of a registered user: the day holds 10
    minutes, the event brings 5, and the user's document, which said 10
    after the first merge and 999 before, says 15. *)
Lemma C10_merge_rewrites_existing_user_document_witness :
  let w' := (_update_screentime_cache (usage "Chrome" 5) (calm 2) after_ten).1 in
  let total := sum_totals [("Chrome", 10)] + 5 in
  (exists doc' totals',
     screentime_daily w' !! daily_key (VStr "u1") (VStr "2024-01-01") = Some doc'
     /\ per_app_totals doc' = Some totals'
     /\ sum_totals totals' = total
     /\ dict_get "total_time_minutes" doc' = Some (VInt total))
  /\ users w'
     = <["u1" := dict_set "daily_screentime_minutes" (VInt total)
                   (dict_set "last_screentime_update" (VTime (server_time (calm 2)))
                      [("email", VStr "u1@example.org");
                       ("daily_screentime_minutes", VInt 10);
                       ("last_screentime_update", VTime 1)])]>
         (users after_ten)
  /\ (users w' !! "u1" ≫= dict_get "daily_screentime_minutes") = Some (VInt 15)
  /\ (users w' !! "u1" ≫= dict_get "last_screentime_update") = Some (VTime 2)
  /\ log w' = log after_ten.
Proof.
  refine (C10_merge_rewrites_existing_user_document (usage "Chrome" 5) (calm 2) after_ten
            "u1" (VStr "2024-01-01") "Chrome" 5 [("Chrome", 10)]
            _ eq_refl eq_refl eq_refl eq_refl).
  repeat split. exists (VInt 5). split; reflexivity.
Defined.

(** C9, against the specification's statement: fifty increments of one
    minute for one user, date and app, every one of them reading the day
    document before the first writes.  All fifty merges run to their end
    and the per-app total is 1. *)
Lemma C9_fifty_increments_read_first_leave_one :
  let raced := run_schedule (readers_first 50)
                            (merges_of (usage "Chrome" 1) fifty, registered) in
  length raced.1 = 50%nat
  /\ forallb is_merged raced.1 = true
  /\ app_total "u1_2024-01-01" "Chrome" registered = None
  /\ app_total "u1_2024-01-01" "Chrome" raced.2 = Some 1
  /\ log raced.2 = [].
Proof. vm_compute. repeat split. Qed.

(** C9 at fifty increments of one minute: 50 when made in turn, 1 when all
    read first. *)
Lemma C9_merges_count_in_turn_and_are_lost_when_interleaved_witness :
  let in_turn := run_schedule (one_by_one 50)
                              (merges_of (usage "Chrome" 1) fifty, registered) in
  let raced := run_schedule (readers_first 50)
                            (merges_of (usage "Chrome" 1) fifty, registered) in
  (forallb is_merged in_turn.1 = true
   /\ in_turn.2 = merge_in_turn (usage "Chrome" 1) fifty registered
   /\ app_total "u1_2024-01-01" "Chrome" in_turn.2 = Some 50)
  /\ (forallb is_merged raced.1 = true
      /\ app_total "u1_2024-01-01" "Chrome" raced.2 = Some 1).
Proof.
  refine (C9_merges_count_in_turn_and_are_lost_when_interleaved
            (usage "Chrome" 1) fifty registered (VStr "u1") (VStr "2024-01-01")
            "Chrome" 1 [] _ _ _ eq_refl).
  - repeat split. exists (VInt 1). split; reflexivity.
  - unfold fifty. apply Forall_fmap, Forall_forall. intros i _. split; reflexivity.
  - discriminate.
Defined.

End Theory.

(** ** Further properties of the consumer *)

Module Coverage.
Import Py Store Consumer Reading Examples Scenarios Theory.
Local Open Scope M_scope.

Section WithPlatform.
Context `{Platform}.

(** *** The two sinks do not influence each other *)

Lemma store_only_ret {A} (a : A) : store_only (ret a).
Proof. intros w1 w2 Hs. split; [exact Hs|reflexivity]. Qed.

Lemma store_only_raise {A} (ex : exn) : store_only (@raise A ex).
Proof. intros w1 w2 Hs. split; [exact Hs|reflexivity]. Qed.

Lemma store_only_lift {A} (r : res A) : store_only (lift r).
Proof. intros w1 w2 Hs. split; [exact Hs|reflexivity]. Qed.

Lemma store_only_when_raises flag ex : store_only (when_raises flag ex).
Proof. destruct flag; [apply store_only_raise|apply store_only_ret]. Qed.

Lemma store_only_bind {A B} (c : M A) (k : A -> M B) :
  store_only c -> (forall a, store_only (k a)) -> store_only (bind c k).
Proof.
  intros Hc Hk w1 w2 Hs. unfold bind. destruct (Hc w1 w2 Hs) as [Hs' Hr].
  destruct (c w1) as [w1' r1], (c w2) as [w2' r2]. simpl in *. subst r2.
  destruct r1 as [a|ex]; [apply Hk, Hs'|split; [exact Hs'|reflexivity]].
Qed.

Lemma store_only_if {A} (b : bool) (c1 c2 : M A) :
  store_only c1 -> store_only c2 -> store_only (if b then c1 else c2).
Proof. destruct b; auto. Qed.

Lemma store_only_try_except (body handler : M unit) :
  store_only body -> store_only handler -> store_only (try_except body handler).
Proof.
  intros Hb Hh w1 w2 Hs. unfold try_except. destruct (Hb w1 w2 Hs) as [Hs' Hr].
  destruct (body w1) as [w1' r1], (body w2) as [w2' r2]. simpl in *. subst r2.
  destruct r1 as [a|ex]; [split; [exact Hs'|reflexivity]|apply Hh, Hs'].
Qed.

Lemma store_only_log entry : store_only (log_error entry).
Proof.
  intros [] [] [Hc Hn]. simpl in *. split; [split|]; assumption || reflexivity.
Qed.

Lemma store_only_fresh_id : store_only fresh_id.
Proof.
  intros [] [] [Hc Hn]. simpl in *. unfold same_store, cache_of in *. simpl in *.
  split; [split|]; congruence.
Qed.

Lemma store_only_with_market_data f :
  store_only (modify (with_market_data f)).
Proof.
  intros [] [] [Hc Hn]. unfold same_store, cache_of in *. simpl in *.
  injection Hc as -> -> -> ->. auto.
Qed.

Lemma store_only_with_price_history f :
  store_only (modify (with_price_history f)).
Proof.
  intros [] [] [Hc Hn]. unfold same_store, cache_of in *. simpl in *.
  injection Hc as -> -> -> ->. auto.
Qed.

Lemma store_only_read_history ref :
  store_only (fun w => (w, Ok (history_of ref w))).
Proof.
  intros [] [] [Hc Hn]. unfold same_store, cache_of, history_of in *. simpl in *.
  injection Hc as -> -> -> ->. auto.
Qed.

Lemma store_only_document id : store_only (document id).
Proof.
  destruct id; simpl; try apply store_only_raise; try apply store_only_ret.
  apply store_only_bind; [apply store_only_fresh_id|intros n; apply store_only_ret].
Qed.

Lemma store_only_market_cache data e : store_only (_update_market_cache data e).
Proof.
  unfold _update_market_cache, _update_market_cache_body, stream_docs, delete_docs.
  apply store_only_try_except; [|apply store_only_log].
  repeat first
    [ apply store_only_lift | apply store_only_document | apply store_only_when_raises
    | apply store_only_with_market_data | apply store_only_with_price_history
    | apply store_only_fresh_id | apply store_only_read_history | apply store_only_ret
    | apply store_only_if
    | apply store_only_bind; [|intros ?] ].
Qed.

Lemma insert_keeps_store table rows e w :
  same_store (_insert_to_bigquery table rows e w).1 w.
Proof.
  unfold _insert_to_bigquery, try_except, bind, _sync_insert, _insert_report.
  destruct (bq_result e) as [|[|err errs]]; destruct table, w; simpl; split; reflexivity.
Qed.

Lemma insert_table table rows e w :
  table_of table (_insert_to_bigquery table rows e w).1
  = table_of table w ++ match bq_result e with BqReturns [] => rows | _ => [] end.
Proof.
  unfold _insert_to_bigquery, try_except, bind, _sync_insert, _insert_report.
  destruct (bq_result e) as [|[|err errs]]; destruct table, w; simpl;
    rewrite ?app_nil_r; reflexivity.
Qed.

Lemma market_cache_keeps_archive data e :
  keeps archive_of (_update_market_cache data e).
Proof.
  unfold _update_market_cache, _update_market_cache_body, stream_docs, delete_docs.
  apply keeps_try_except; [|apply keeps_modify; frame].
  repeat first
    [ apply keeps_document; frame
    | apply keeps_bind; [|intros ?]
    | apply keeps_if
    | apply keeps_lift | apply keeps_when_raises | apply keeps_ret | apply keeps_read
    | apply keeps_modify; frame
    | intros ?; frame ].
Qed.

(** A tick that passes validation and whose row can be built goes through
    both sinks, the archive first. *)
Lemma process_market_runs_both data e w bq_row :
  all_in market_required data = Ok true -> market_row data e = Ok bq_row ->
  (_process_market_data data e w).1
  = (_update_market_cache data e (_insert_to_bigquery Market [bq_row] e w).1).1.
Proof.
  intros Hvalid Hrow.
  unfold _process_market_data, try_except, bind, lift.
  rewrite Hvalid, Hrow. cbn [negb].
  destruct (_insert_to_bigquery Market [bq_row] e w) as [w1 [[]|ex]] eqn:Hins.
  - simpl. destruct (_update_market_cache data e w1) as [w2 [[]|]] eqn:Hupd;
      [reflexivity|].
    exfalso. unfold _update_market_cache, try_except in Hupd.
    destruct (_update_market_cache_body data e w1) as [? [|]]; discriminate.
  - exfalso. unfold _insert_to_bigquery, try_except in Hins.
    destruct (bind _ _ w) as [? [|]]; discriminate.
Qed.

(** X5.  For a tick that passes validation the two sinks are written
    independently.  The cache ends exactly as if the cache update had run
    alone, whatever the archive answered (accepted, row errors, an
    exception); and the archive holds the row exactly when the store
    accepted it, whatever happened to the cache afterwards: a cache failure
    takes no row back. *)
Theorem X5_sinks_are_independent data e w bq_row :
  all_in market_required data = Ok true -> market_row data e = Ok bq_row ->
  let w' := (_process_market_data data e w).1 in
  cache_of w' = cache_of (_update_market_cache data e w).1
  /\ market_table w'
     = market_table w ++ match bq_result e with BqReturns [] => [bq_row] | _ => [] end
  /\ screentime_table w' = screentime_table w.
Proof.
  intros Hvalid Hrow w'.
  assert (Hw' : w' = (_update_market_cache data e
                        (_insert_to_bigquery Market [bq_row] e w).1).1)
    by exact (process_market_runs_both data e w bq_row Hvalid Hrow).
  pose proof (market_cache_keeps_archive data e
                (_insert_to_bigquery Market [bq_row] e w).1) as Harch.
  rewrite <- Hw' in Harch. unfold archive_of in Harch. injection Harch as Hm Hs.
  split; [|split].
  - rewrite Hw'. apply (store_only_market_cache data e), insert_keeps_store.
  - rewrite Hm. apply (insert_table Market).
  - rewrite Hs. pose proof (insert_table Market [bq_row] e w) as _.
    unfold _insert_to_bigquery, try_except, bind, _sync_insert, _insert_report.
    destruct (bq_result e) as [|[|err errs]]; destruct w; reflexivity.
Qed.

(** *** What a cache update touches *)

(** Every way a market cache update can end, as far as the two market
    collections go. *)
Lemma market_cache_effect data e w :
  let w' := (_update_market_cache data e w).1 in
  let ref := market_ref_of data w in
  (market_data w' = market_data w
   \/ exists doc, market_data w' = <[ref := doc]> (market_data w))
  /\ (price_history w' = price_history w
      \/ exists id entry,
           price_history w' = <[ref := history_of ref w ++ [(id, entry)]]> (price_history w)).
Proof.
  unfold market_ref_of.
  unfold _update_market_cache, _update_market_cache_body, document, stream_docs.
  unfold try_except, when_raises, bind, lift, modify, fresh_id, ret, raise, log_error.
  destruct (subscript data "symbol") as [symbol|ex]; cbn beta iota;
    [|destruct w; simpl; auto].
  destruct symbol; cbn beta iota; try (destruct w; simpl; auto; fail);
    (destruct (market_update_data data e) as [upd|]; cbn beta iota;
       [|destruct w; simpl; auto]);
    (destruct (set_raises e); cbn beta iota; [destruct w; simpl; auto|]);
    (destruct (history_entry data) as [entry|]; cbn beta iota;
       [|destruct w; simpl; eauto]);
    (destruct (add_raises e); cbn beta iota; [destruct w; simpl; eauto|]);
    (destruct (stream_raises e); cbn beta iota; [|rewrite trim_branch_dead]);
    destruct w; simpl; split; eauto.
Qed.

(** X6.  A market cache update, whatever the payload and whatever fails,
    touches nothing but the cache document and the history of the one
    symbol it addresses: the documents and histories of all other symbols,
    the screen-time documents, the user documents and both archive tables
    are as they were. *)
Theorem X6_market_cache_update_is_local data e w :
  let w' := (_update_market_cache data e w).1 in
  archive_of w' = archive_of w
  /\ screentime_daily w' = screentime_daily w /\ users w' = users w
  /\ forall other, other <> market_ref_of data w ->
       market_data w' !! other = market_data w !! other
       /\ history_of other w' = history_of other w.
Proof.
  intros w'. split; [apply market_cache_keeps_archive|].
  assert (Hk : forall X (proj : World -> X),
             (forall f w0, proj (with_market_data f w0) = proj w0) ->
             (forall f w0, proj (with_price_history f w0) = proj w0) ->
             (forall f w0, proj (with_next_id f w0) = proj w0) ->
             (forall f w0, proj (with_log f w0) = proj w0) ->
             keeps proj (_update_market_cache data e)).
  { intros X proj H1 H2 H3 H4.
    unfold _update_market_cache, _update_market_cache_body, stream_docs, delete_docs.
    apply keeps_try_except; [|apply keeps_modify, H4].
    repeat first
      [ apply keeps_document; exact H3
      | apply keeps_bind; [|intros ?]
      | apply keeps_if
      | apply keeps_lift | apply keeps_when_raises | apply keeps_ret | apply keeps_read
      | apply keeps_modify; intros ?; first [apply H1|apply H2]
      | intros ?; apply H3 ]. }
  split; [apply (Hk _ screentime_daily); frame|].
  split; [apply (Hk _ users); frame|].
  intros other Hne. destruct (market_cache_effect data e w) as [Hmd Hph].
  fold w' in Hmd, Hph. unfold history_of. split.
  - destruct Hmd as [->|[doc ->]]; [reflexivity|].
    rewrite lookup_insert_ne; congruence.
  - destruct Hph as [->|(id & entry & ->)]; [reflexivity|].
    rewrite lookup_insert_ne; congruence.
Qed.

(** X13.  No market cache update ever removes a history entry: whatever
    the payload and whatever fails, the history of every symbol afterwards
    starts with the history it had before. *)
Theorem X13_history_never_loses_an_entry data e w symbol :
  history_of symbol w `prefix_of` history_of symbol (_update_market_cache data e w).1.
Proof.
  destruct (market_cache_effect data e w) as [_ Hph]. unfold history_of at 2.
  destruct Hph as [->|(id & entry & ->)]; [reflexivity|].
  destruct (decide (symbol = market_ref_of data w)) as [->|Hne].
  - rewrite lookup_insert_eq. simpl. apply prefix_app_r. reflexivity.
  - rewrite lookup_insert_ne by congruence. reflexivity.
Qed.

(** Every way a screen-time cache update can end, as far as the day
    documents and the user documents go. *)
Lemma screentime_cache_effect data e w :
  let w' := (_update_screentime_cache data e w).1 in
  (screentime_daily w' = screentime_daily w
   \/ exists doc, screentime_daily w' = <[day_ref_of data := doc]> (screentime_daily w))
  /\ (users w' = users w
      \/ exists old new, users w !! user_ref_of data w = Some old
                         /\ users w' = <[user_ref_of data w := new]> (users w)).
Proof.
  unfold day_ref_of, user_ref_of.
  unfold _update_screentime_cache, _update_screentime_cache_body, document.
  unfold try_except, when_raises, bind, lift, modify, fresh_id, ret, raise, log_error.
  destruct (subscript data "user_id") as [user_id|]; cbn beta iota;
    [|destruct w; simpl; auto].
  destruct (subscript data "date") as [date|]; cbn beta iota;
    [|destruct w; simpl; auto].
  destruct (get_raises e); cbn beta iota; [destruct w; simpl; auto|].
  match goal with
  | |- context [update_app_time ?d ?a] =>
      destruct (update_app_time d a) as [apps_data|]; cbn beta iota;
        [|destruct w; simpl; auto]
  end.
  destruct (sum_time_spent apps_data (VInt 0)) as [total|]; cbn beta iota;
    [|destruct w; simpl; auto].
  destruct (set_raises e); cbn beta iota; [destruct w; simpl; auto|].
  destruct user_id; cbn beta iota; try (destruct w; simpl; eauto; fail);
    (destruct (update_raises e); cbn beta iota; [destruct w; simpl; eauto|]);
    destruct w; simpl;
    match goal with
    | |- context [match ?m !! ?k with _ => _ end] => destruct (m !! k) eqn:Hold
    end; simpl; split; eauto.
Qed.

Lemma screentime_cache_keeps {X} (proj : World -> X) data e :
  (forall f w0, proj (with_screentime_daily f w0) = proj w0) ->
  (forall f w0, proj (with_users f w0) = proj w0) ->
  (forall f w0, proj (with_next_id f w0) = proj w0) ->
  (forall f w0, proj (with_log f w0) = proj w0) ->
  keeps proj (_update_screentime_cache data e).
Proof.
  intros H1 H2 H3 H4.
  unfold _update_screentime_cache, _update_screentime_cache_body.
  apply keeps_try_except; [|apply keeps_modify, H4].
  repeat first
    [ apply keeps_document; exact H3
    | apply keeps_bind; [|intros ?]
    | apply keeps_lift | apply keeps_when_raises | apply keeps_ret | apply keeps_read
    | apply keeps_modify; intros ?; first [apply H1|apply H2]
    | intros ?; reflexivity ].
Qed.

(** X7.  A screen-time cache update, whatever the payload and whatever
    fails, touches nothing but the one day document and the one user
    document it addresses, and it never creates a user document: both
    archive tables, the market cache, all other day documents and all other
    user documents are as they were, and the user collection has the same
    documents as before. *)
Theorem X7_screentime_cache_update_is_local data e w :
  let w' := (_update_screentime_cache data e w).1 in
  archive_of w' = archive_of w
  /\ market_data w' = market_data w /\ price_history w' = price_history w
  /\ (forall other, other <> day_ref_of data ->
        screentime_daily w' !! other = screentime_daily w !! other)
  /\ (forall other, other <> user_ref_of data w ->
        users w' !! other = users w !! other)
  /\ (forall user, is_Some (users w' !! user) <-> is_Some (users w !! user)).
Proof.
  intros w'.
  split; [apply (screentime_cache_keeps archive_of); frame|].
  split; [apply (screentime_cache_keeps market_data); frame|].
  split; [apply (screentime_cache_keeps price_history); frame|].
  destruct (screentime_cache_effect data e w) as [Hday Husers].
  fold w' in Hday, Husers.
  split; [|split].
  - intros other Hne. destruct Hday as [->|[doc ->]]; [reflexivity|].
    rewrite lookup_insert_ne; congruence.
  - intros other Hne. destruct Husers as [->|(old & new & _ & ->)]; [reflexivity|].
    rewrite lookup_insert_ne; congruence.
  - intros user. destruct Husers as [->|(old & new & Hold & ->)]; [reflexivity|].
    destruct (decide (user = user_ref_of data w)) as [->|Hne].
    + rewrite lookup_insert_eq, Hold. split; eauto.
    + rewrite lookup_insert_ne by congruence. reflexivity.
Qed.

(** *** Partial writes *)

(** X8.  The market cache update is not atomic.  For a tick whose fields
    it can read: when the write of the current document raises, nothing is
    written; when that write succeeds and the history write raises, the
    current document has already been overwritten and stays so, with no
    history entry for the tick; either way the error is only logged. *)
Theorem X8_market_cache_update_is_not_atomic symbol data e w upd entry :
  subscript data "symbol" = Ok (VStr symbol) ->
  market_update_data data e = Ok upd -> history_entry data = Ok entry ->
  let w' := (_update_market_cache data e w).1 in
  (set_raises e = true ->
     cache_of w' = cache_of w /\ log w' = log w ++ [CacheUpdateError Market])
  /\ (set_raises e = false -> add_raises e = true ->
       market_data w' = <[symbol := merge_doc upd (market_data w !! symbol)]> (market_data w)
       /\ price_history w' = price_history w
       /\ log w' = log w ++ [CacheUpdateError Market]).
Proof.
  intros Hs Hu He w'. subst w'.
  unfold _update_market_cache, _update_market_cache_body, document, stream_docs.
  unfold try_except, when_raises, bind, lift, modify, fresh_id, ret, raise, log_error.
  rewrite Hs, Hu, He. cbn beta iota. split.
  - intros ->. destruct w; simpl. auto.
  - intros -> ->. destruct w; simpl. auto.
Qed.

Lemma app_total_after_merge data e w user_id date app minutes totals :
  usage_event data user_id date app minutes ->
  get_raises e = false -> set_raises e = false ->
  day_state (screentime_daily w !! daily_key user_id date) = Some totals ->
  app_total (daily_key user_id date) app (_update_screentime_cache data e w).1
  = Some (default 0 (app_total (daily_key user_id date) app w) + minutes).
Proof.
  intros Hev Hget Hset Hday.
  destruct (screentime_cache_accumulates _ _ _ _ _ _ _ _ Hev Hget Hset Hday)
    as (doc' & totals' & Hdoc & _ & Htot & _ & _ & Hday').
  rewrite <- Hdoc in Hday'.
  rewrite (day_state_app_total _ app _ _ Hday'), (day_state_app_total _ app _ _ Hday).
  exact Htot.
Qed.

(** X9.  A screen-time event for a user who has no document in [users]:
    the day document is merged all the same, then the update of the user
    document fails, which is only logged; no user document is created. *)
Theorem X9_unknown_user_keeps_day_merge data e w user date app minutes totals :
  usage_event data (VStr user) date app minutes ->
  get_raises e = false -> set_raises e = false ->
  day_state (screentime_daily w !! daily_key (VStr user) date) = Some totals ->
  users w !! user = None ->
  let w' := (_update_screentime_cache data e w).1 in
  app_total (daily_key (VStr user) date) app w'
  = Some (default 0 (app_total (daily_key (VStr user) date) app w) + minutes)
  /\ users w' = users w
  /\ log w' = log w ++ [CacheUpdateError Screentime].
Proof.
  intros Hev Hget Hset Hday Hnone w'.
  split; [exact (app_total_after_merge _ _ _ _ _ _ _ _ Hev Hget Hset Hday)|].
  destruct (day_state_inv _ _ Hday) as (apps & Hstored & Hwf & Hpa).
  destruct (update_app_time_ok _ _ _ _ _ _ _ Hev Hwf Hpa)
    as (apps' & totals' & Hupd & _ & Hpa' & _).
  pose proof (sum_time_spent_per_app _ _ 0 Hpa') as Hsum.
  destruct Hev as (Hu & Hd & _). rewrite <- Hstored in Hupd. subst w'.
  unfold _update_screentime_cache, _update_screentime_cache_body, document.
  unfold try_except, when_raises, bind, lift, modify, fresh_id, ret, raise, log_error.
  rewrite Hu, Hd, Hget, Hset. cbn beta iota.
  unfold stored_apps in Hupd. rewrite Hupd, Hsum. cbn beta iota.
  destruct (update_raises e); cbn beta iota; destruct w; simpl in *;
    rewrite ?Hnone; auto.
Qed.

(** *** What a merge does to one app entry *)

Lemma app_entry_stored key name w (apps : dict) :
  stored_apps (screentime_daily w !! key) = VDict apps ->
  app_entry key name w
  = match dict_get name apps with Some (VDict fields) => Some fields | _ => None end.
Proof.
  unfold app_entry, stored_apps.
  destruct (screentime_daily w !! key) as [doc|]; simpl.
  - destruct (dict_get "apps" doc) as [v|]; simpl;
      [intros ->; reflexivity|intros [= <-]; reflexivity].
  - intros [= <-]. reflexivity.
Qed.

Lemma update_app_time_entry data user_id date app minutes (apps apps' : dict) totals :
  usage_event data user_id date app minutes ->
  per_app apps = Some totals ->
  update_app_time data (VDict apps) = Ok apps' ->
  match dict_get app apps with
  | Some (VDict fields) =>
      exists t, dict_get app apps' = Some (VDict (dict_set "time_spent" (VInt t) fields))
  | Some _ => False
  | None =>
      exists category,
        get_default data "category" (VStr "Other") = Ok category
        /\ dict_get app apps'
           = Some (VDict [("time_spent", VInt minutes); ("category", category)])
  end.
Proof.
  intros (Hu & Hd & Ha & (t & Ht & Hm) & Hwf) Hpa.
  unfold update_app_time. rewrite Ha. cbn [res_bind].
  destruct (dict_get app apps) as [entry|] eqn:Hentry.
  - destruct (per_app_entry _ _ _ _ Hpa Hentry) as (fields & old & -> & Hts).
    simpl subscript. rewrite Hts, Ht. cbn [res_bind]. rewrite Hm. cbn [res_bind num_add].
    intros [= <-]. exists (old + minutes). apply dict_get_set_eq.
  - rewrite Ht. cbn [res_bind]. rewrite Hm. cbn [res_bind].
    destruct data as [| | | | | | |d]; try discriminate. cbn [get_default res_bind].
    intros [= <-]. eexists. split; [reflexivity|]. apply dict_get_set_eq.
Qed.

(** X10.  What a successful merge does to the entry of the app it names.
    An entry that exists keeps every field it has, its [category]
    included, whatever category the event carries; only [time_spent] is
    replaced.  An app seen for the first time gets an entry of exactly two
    fields, its minutes and the event's category, ["Other"] when the event
    has none. *)
Theorem X10_merge_rewrites_only_time_spent data e w user_id date app minutes totals :
  usage_event data user_id date app minutes ->
  get_raises e = false -> set_raises e = false ->
  day_state (screentime_daily w !! daily_key user_id date) = Some totals ->
  let key := daily_key user_id date in
  let w' := (_update_screentime_cache data e w).1 in
  match app_entry key app w with
  | Some fields =>
      exists t, app_entry key app w' = Some (dict_set "time_spent" (VInt t) fields)
  | None =>
      exists category,
        get_default data "category" (VStr "Other") = Ok category
        /\ app_entry key app w'
           = Some [("time_spent", VInt minutes); ("category", category)]
  end.
Proof.
  intros Hev Hget Hset Hday key w'.
  destruct (day_state_inv _ _ Hday) as (apps & Hstored & Hwf & Hpa).
  destruct (update_app_time_ok _ _ _ _ _ _ _ Hev Hwf Hpa)
    as (apps' & totals' & Hupd & Hwf' & Hpa' & Hc & _).
  pose proof (update_app_time_entry _ _ _ _ _ _ _ _ Hev Hpa Hupd) as Hentry.
  pose proof (sum_time_spent_per_app _ _ 0 Hpa') as Hsum.
  pose proof Hev as (Hu & Hd & _).
  pose proof Hupd as Hupd0. rewrite <- Hstored in Hupd0.
  pose proof (screentime_cache_daily data e w user_id date apps' _
                Hu Hd Hget Hset Hupd0 Hsum) as Hdaily.
  fold w' key in Hdaily.
  pose proof (day_fields_apps user_id date (VInt (0 + sum_totals totals')) apps' e
                _ apps Hstored Hwf' Hc) as Happs.
  fold key in Hstored, Happs.
  assert (Hafter : app_entry key app w'
                   = match dict_get app apps' with
                     | Some (VDict fields) => Some fields
                     | _ => None
                     end).
  { unfold app_entry. rewrite Hdaily, lookup_insert_eq. simpl. rewrite Happs.
    reflexivity. }
  rewrite (app_entry_stored key app w apps Hstored), Hafter.
  destruct (dict_get app apps) as [[| | | | | | |fields]|]; try contradiction.
  - destruct Hentry as [t ->]. eauto.
  - destruct Hentry as (category & Hcat & ->). eauto.
Qed.

(** *** Archive and cache, side by side *)

Lemma usage_event_row_fields data user_id date app minutes e :
  usage_event data user_id date app minutes ->
  exists bq_row,
    screentime_row data e = Ok bq_row
    /\ dict_get "time_spent_minutes" bq_row = Some (VInt minutes)
    /\ dict_get "app_name" bq_row = Some (VStr app).
Proof.
  intros (Hu & Hd & Ha & (t & Ht & Hm) & _).
  unfold screentime_row. rewrite Hu, Ha, Ht, Hd. cbn [res_bind].
  destruct data as [| | | | | | |d]; try discriminate.
  cbn [get_default res_bind]. rewrite Hm. cbn [res_bind].
  eexists. split; [reflexivity|]. split; reflexivity.
Qed.

Lemma app_total_same_daily key app w1 w2 :
  screentime_daily w1 = screentime_daily w2 ->
  app_total key app w1 = app_total key app w2.
Proof. unfold app_total. intros ->. reflexivity. Qed.

(** X11.  For a screen-time event that both sinks accept, the archive and
    the cache record the same minutes: the row appended to the archive
    carries [int(time_spent)] as [time_spent_minutes], and the per-app
    total in the cache grows by that same integer, also when [time_spent]
    arrived as a fraction or as text. *)
Theorem X11_archive_and_cache_agree_on_minutes data e w user_id date app minutes totals :
  usage_event data user_id date app minutes ->
  bq_result e = BqReturns [] -> get_raises e = false -> set_raises e = false ->
  day_state (screentime_daily w !! daily_key user_id date) = Some totals ->
  let key := daily_key user_id date in
  let w' := (_process_screentime_data data e w).1 in
  exists bq_row,
    screentime_table w' = screentime_table w ++ [bq_row]
    /\ dict_get "app_name" bq_row = Some (VStr app)
    /\ dict_get "time_spent_minutes" bq_row = Some (VInt minutes)
    /\ app_total key app w' = Some (default 0 (app_total key app w) + minutes).
Proof.
  intros Hev Hbq Hget Hset Hday key w'.
  destruct (usage_event_row_fields _ _ _ _ _ e Hev) as (bq_row & Hrow & Hmin & Happ).
  set (w1 := (_insert_to_bigquery Screentime [bq_row] e w).1).
  assert (Hw' : w' = (_update_screentime_cache data e w1).1).
  { subst w' w1. unfold _process_screentime_data, try_except, bind, lift.
    rewrite (usage_event_valid _ _ _ _ _ Hev), Hrow. cbn [negb].
    destruct (_insert_to_bigquery Screentime [bq_row] e w) as [w1 [[]|ex]] eqn:Hins.
    - simpl. destruct (_update_screentime_cache data e w1) as [w2 [[]|]] eqn:Hupd;
        [reflexivity|].
      exfalso. unfold _update_screentime_cache, try_except in Hupd.
      destruct (_update_screentime_cache_body data e w1) as [? [|]]; discriminate.
    - exfalso. unfold _insert_to_bigquery, try_except in Hins.
      destruct (bind _ _ w) as [? [|]]; discriminate. }
  destruct (insert_keeps_store Screentime [bq_row] e w) as [Hcache _].
  fold w1 in Hcache. unfold cache_of in Hcache. injection Hcache as _ _ Hdaily _.
  pose proof (insert_table Screentime [bq_row] e w) as Htable.
  fold w1 in Htable. rewrite Hbq in Htable. simpl in Htable.
  exists bq_row. split; [|split; [exact Happ|split; [exact Hmin|]]].
  - rewrite Hw'.
    transitivity (screentime_table w1); [|exact Htable].
    pose proof (screentime_cache_keeps archive_of data e) as Hk.
    assert (Harch : archive_of (_update_screentime_cache data e w1).1 = archive_of w1)
      by (apply Hk; frame).
    unfold archive_of in Harch. congruence.
  - rewrite Hw', <- (app_total_same_daily key app w1 w Hdaily).
    subst key. eapply app_total_after_merge; eauto. rewrite Hdaily. exact Hday.
Qed.

(** *** Batches of screen-time events *)

Lemma usage_event_reads data user_id date app minutes :
  usage_event data user_id date app minutes ->
  forall name, names_app name data = String.eqb app name
  /\ event_minutes data = minutes.
Proof.
  intros (_ & _ & Ha & (t & Ht & Hm) & _) name.
  unfold names_app, event_app, event_minutes. rewrite Ha, Ht. simpl. rewrite Hm. auto.
Qed.

Lemma minutes_of_unnamed app events :
  existsb (fun de : value * env => names_app app de.1) events = false ->
  minutes_of app events = 0.
Proof.
  induction events as [|de events IH]; simpl; [reflexivity|].
  intros Hex. apply orb_false_elim in Hex as [-> Hex]. rewrite IH; auto.
Qed.

Lemma after_batch_cons app de events total :
  after_batch app (de :: events) total
  = after_batch app events
      (if names_app app de.1 then Some (default 0 total + event_minutes de.1) else total).
Proof.
  unfold after_batch. simpl.
  destruct (names_app app de.1); simpl; [|reflexivity].
  destruct (existsb _ events) eqn:Hex.
  - f_equal. lia.
  - rewrite (minutes_of_unnamed _ _ Hex). f_equal. lia.
Qed.

Lemma after_batch_Permutation app events events' total :
  Permutation events' events ->
  after_batch app events' total = after_batch app events total.
Proof.
  intros Hperm. unfold after_batch.
  assert (He : existsb (fun de : value * env => names_app app de.1) events'
               = existsb (fun de : value * env => names_app app de.1) events).
  { induction Hperm; simpl; try congruence.
    rewrite !orb_assoc. f_equal. apply orb_comm. }
  assert (Hm : minutes_of app events' = minutes_of app events).
  { clear He. induction Hperm; simpl; try lia. }
  rewrite Hm, He. reflexivity.
Qed.

Lemma merge_usage_totals user_id date events : forall w totals,
  Forall (fun de => (exists app minutes, usage_event de.1 user_id date app minutes)
                    /\ get_raises de.2 = false /\ set_raises de.2 = false) events ->
  day_state (screentime_daily w !! daily_key user_id date) = Some totals ->
  forall app,
    app_total (daily_key user_id date) app (merge_usage events w)
    = after_batch app events (app_total (daily_key user_id date) app w).
Proof.
  induction events as [|[data e] events IH]; intros w totals Hall Hday app;
    [reflexivity|].
  apply Forall_cons in Hall as [((app0 & minutes0 & Hev) & Hget & Hset) Hall].
  simpl in Hev, Hget, Hset.
  destruct (screentime_cache_accumulates _ _ _ _ _ _ _ _ Hev Hget Hset Hday)
    as (doc' & totals' & Hdoc & _ & Htot & Hothers & _ & Hday').
  rewrite <- Hdoc in Hday'.
  change (merge_usage ((data, e) :: events) w)
    with (merge_usage events (_update_screentime_cache data e w).1).
  rewrite (IH _ _ Hall Hday' app), after_batch_cons. f_equal. simpl fst.
  destruct (usage_event_reads _ _ _ _ _ Hev app) as [-> ->].
  rewrite (day_state_app_total _ app _ _ Hday'), (day_state_app_total _ app _ _ Hday).
  destruct (String.eqb_spec app0 app) as [->|Hne]; [exact Htot|].
  apply Hothers. congruence.
Qed.

(** X12.  After any batch of well-formed screen-time events for one user
    and date, merged one after the other into a day document that was
    absent or well formed, with the store's read and write succeeding:
    every app named by the batch holds what it held before plus the sum of
    the minutes of the events that name it, every other app holds what it
    held, and the same events merged in any other order give the same
    per-app totals.  In particular an event merged twice counts twice. *)
Theorem X12_batch_totals_are_sums user_id date events w totals :
  Forall (fun de => (exists app minutes, usage_event de.1 user_id date app minutes)
                    /\ get_raises de.2 = false /\ set_raises de.2 = false) events ->
  day_state (screentime_daily w !! daily_key user_id date) = Some totals ->
  let key := daily_key user_id date in
  (forall app, app_total key app (merge_usage events w)
               = after_batch app events (app_total key app w))
  /\ (forall events', Permutation events' events ->
       forall app, app_total key app (merge_usage events' w)
                   = app_total key app (merge_usage events w)).
Proof.
  intros Hall Hday key. split.
  - exact (merge_usage_totals user_id date events w totals Hall Hday).
  - intros events' Hperm app.
    assert (Hall' : Forall (fun de =>
               (exists app minutes, usage_event de.1 user_id date app minutes)
               /\ get_raises de.2 = false /\ set_raises de.2 = false) events').
    { rewrite Forall_forall in *. intros de Hin. apply Hall. rewrite <- Hperm. exact Hin. }
    subst key.
    rewrite (merge_usage_totals user_id date events' w totals Hall' Hday),
            (merge_usage_totals user_id date events w totals Hall Hday).
    apply after_batch_Permutation, Hperm.
Qed.

(** X1.  A screen-time event that lacks [user_id], [app_name],
    [time_spent] or [date] is rejected before either sink is called:
    processing it only logs the invalid format, and a delivery of it leaves
    the archive tables and every cache document as they were. *)
Theorem X1_screentime_event_missing_field_writes_nothing m d e w field :
  payload m = Some (VDict d) -> tasks w = [] ->
  In field screentime_required -> dict_get field d = None ->
  _process_screentime_data (VDict d) e w
  = (with_log (fun l => l ++ [InvalidFormat Screentime]) w, Ok tt)
  /\ sinks (deliver Screentime m e w).1 = sinks w.
Proof.
  intros Hp Ht Hin Hnone.
  split; [exact (process_screentime_rejects _ _ _ _ Hin Hnone)|].
  unfold deliver, bind. destruct (loop_running e) eqn:Hl.
  - rewrite (callback_scheduled _ _ _ _ _ Hp Hl). unfold run_ready.
    destruct w; simpl in *; subst; simpl. unfold run_task; simpl.
    rewrite (process_screentime_rejects _ _ _ _ Hin Hnone). reflexivity.
  - rewrite (callback_refused Screentime m e w (or_intror Hl)). unfold run_ready.
    destruct w; simpl in *; subst; reflexivity.
Qed.

(** X2.  The callback never raises and settles a message exactly once:
    either it schedules one coroutine for the decoded payload and
    acknowledges, or (the payload does not decode, or nothing could be
    scheduled) it schedules nothing, logs, and negatively acknowledges.  It
    never does both and never leaves the message unsettled. *)
Theorem X2_callback_settles_exactly_once s m e w :
  let w' := (callback s m e w).1 in
  (callback s m e w).2 = Ok tt
  /\ ((exists data, payload m = Some data /\ loop_running e = true
        /\ acked w' = acked w ++ [msg_id m] /\ nacked w' = nacked w
        /\ tasks w' = tasks w ++ [MkTask s data e] /\ log w' = log w)
      \/ ((payload m = None \/ loop_running e = false)
          /\ nacked w' = nacked w ++ [msg_id m] /\ acked w' = acked w
          /\ tasks w' = tasks w /\ log w' = log w ++ [CallbackError s])).
Proof.
  intros w'. subst w'.
  destruct (payload m) as [data|] eqn:Hp; [destruct (loop_running e) eqn:Hl|].
  - rewrite (callback_scheduled _ _ _ _ _ Hp Hl). split; [reflexivity|].
    left. exists data. destruct w; simpl. repeat split.
  - rewrite (callback_refused s m e w (or_intror Hl)). split; [reflexivity|].
    right. destruct w; simpl. repeat split. right. reflexivity.
  - rewrite (callback_refused s m e w (or_introl Hp)). split; [reflexivity|].
    right. destruct w; simpl. repeat split. left. reflexivity.
Qed.

(** X3.  A payload that decodes to something other than a JSON object (an
    array, a text, a number, [null]) never reaches a sink on either stream:
    processing it logs one error and changes nothing else, even when the
    array or the text contains the names of the required fields. *)
Theorem X3_non_object_payload_only_logs data e w :
  is_object data = false ->
  (exists entry, _process_market_data data e w
                 = (with_log (fun l => l ++ [entry]) w, Ok tt))
  /\ (exists entry, _process_screentime_data data e w
                    = (with_log (fun l => l ++ [entry]) w, Ok tt)).
Proof.
  intros Hobj.
  unfold _process_market_data, _process_screentime_data, try_except, bind, lift.
  split.
  - destruct (all_in market_required data) as [[|]|]; simpl; eauto.
    assert (Hrow : exists ex, market_row data e = Raise ex).
    { destruct data; try discriminate; simpl; eauto. }
    destruct Hrow as [ex ->]. simpl. eauto.
  - destruct (all_in screentime_required data) as [[|]|]; simpl; eauto.
    assert (Hrow : exists ex, screentime_row data e = Raise ex).
    { destruct data; try discriminate; simpl; eauto. }
    destruct Hrow as [ex ->]. simpl. eauto.
Qed.

(** X4.  A market tick with all three required fields whose [price] is
    refused by [float(..)] is dropped whole: the row is never built, so
    neither the archive nor the cache is written, and only the processing
    error is logged. *)
Theorem X4_unreadable_price_writes_nothing d e w price ex :
  all_in market_required (VDict d) = Ok true ->
  dict_get "price" d = Some price -> py_float price = Raise ex ->
  _process_market_data (VDict d) e w
  = (with_log (fun l => l ++ [ProcessingError Market]) w, Ok tt).
Proof.
  intros Hvalid Hprice Hfloat.
  unfold _process_market_data, try_except, bind, lift. rewrite Hvalid. simpl.
  unfold market_row. simpl. rewrite Hprice.
  destruct (dict_get "symbol" d); simpl; [rewrite Hfloat|]; reflexivity.
Qed.

End WithPlatform.

(** X1 at a screen-time event without its date. *)
Lemma X1_screentime_event_missing_field_writes_nothing_witness :
  _process_screentime_data (VDict undated) (calm 1) empty_world
  = (with_log (fun l => l ++ [InvalidFormat Screentime]) empty_world, Ok tt)
  /\ sinks (deliver Screentime (MkMessage 7 (Some (VDict undated))) (calm 1) empty_world).1
     = sinks empty_world.
Proof.
  refine (X1_screentime_event_missing_field_writes_nothing
            (MkMessage 7 (Some (VDict undated))) undated (calm 1)
            empty_world "date" eq_refl eq_refl _ eq_refl).
  simpl. auto.
Defined.

(** X3 at the array of the three field names. *)
Lemma X3_non_object_payload_only_logs_witness :
  (exists entry, _process_market_data field_names (calm 1) empty_world
                 = (with_log (fun l => l ++ [entry]) empty_world, Ok tt))
  /\ (exists entry, _process_screentime_data field_names (calm 1) empty_world
                    = (with_log (fun l => l ++ [entry]) empty_world, Ok tt)).
Proof. exact (X3_non_object_payload_only_logs field_names (calm 1) empty_world eq_refl). Defined.

(** X4 at a tick whose price is [null]. *)
Lemma X4_unreadable_price_writes_nothing_witness :
  _process_market_data (VDict null_priced) (calm 1) empty_world
  = (with_log (fun l => l ++ [ProcessingError Market]) empty_world, Ok tt).
Proof.
  exact (X4_unreadable_price_writes_nothing null_priced (calm 1) empty_world
           VNull TypeError eq_refl eq_refl eq_refl).
Defined.

(** X5 at a tick delivered while the archive raises: the cache is updated
    as if the archive had answered, and the archive stays empty. *)
Lemma X5_sinks_are_independent_witness :
  let w' := (_process_market_data (tick 0) archive_down empty_world).1 in
  cache_of w' = cache_of (_update_market_cache (tick 0) archive_down empty_world).1
  /\ market_table w' = []
  /\ screentime_table w' = [].
Proof.
  refine (X5_sinks_are_independent (tick 0) archive_down empty_world _ eq_refl eq_refl).
Defined.

(** X8 at a tick whose history write fails: the current document is
    written and the history stays empty. *)
Lemma X8_market_cache_update_is_not_atomic_witness :
  let w' := (_update_market_cache (tick 0) add_fails empty_world).1 in
  is_Some (market_data w' !! "INFY")
  /\ price_history w' = ∅
  /\ log w' = [CacheUpdateError Market].
Proof.
  destruct (X8_market_cache_update_is_not_atomic "INFY" (tick 0) add_fails empty_world
              _ _ eq_refl eq_refl eq_refl) as [_ Hadd].
  destruct (Hadd eq_refl eq_refl) as (Hmd & Hph & Hlog).
  split; [|split; assumption].
  rewrite Hmd, lookup_insert_eq. eauto.
Defined.

(** X9 at ten minutes of Chrome for a user the store does not know. *)
Lemma X9_unknown_user_keeps_day_merge_witness :
  let w' := (_update_screentime_cache (usage "Chrome" 10) (calm 1) empty_world).1 in
  app_total "u1_2024-01-01" "Chrome" w' = Some 10
  /\ users w' = ∅
  /\ log w' = [CacheUpdateError Screentime].
Proof.
  refine (X9_unknown_user_keeps_day_merge (usage "Chrome" 10) (calm 1) empty_world
            "u1" (VStr "2024-01-01") "Chrome" 10 [] _ eq_refl eq_refl eq_refl eq_refl).
  repeat split. exists (VInt 10). split; reflexivity.
Defined.

(** X10 at a second Chrome event that carries the category ["Work"]: the
    entry keeps the category ["Other"] it was created with. *)
Lemma X10_merge_rewrites_only_time_spent_witness :
  app_entry "u1_2024-01-01" "Chrome" after_ten
  = Some [("time_spent", VInt 10); ("category", VStr "Other")]
  /\ exists t,
       app_entry "u1_2024-01-01" "Chrome"
         (_update_screentime_cache fractional_usage (calm 2) after_ten).1
       = Some (dict_set "time_spent" (VInt t)
                 [("time_spent", VInt 10); ("category", VStr "Other")]).
Proof.
  split; [reflexivity|].
  refine (X10_merge_rewrites_only_time_spent fractional_usage (calm 2) after_ten
            (VStr "u1") (VStr "2024-01-01") "Chrome" 28 [("Chrome", 10)]
            _ eq_refl eq_refl _).
  - repeat split. eexists. split; reflexivity.
  - vm_compute. reflexivity.
Defined.

(** X11 at 28.75 minutes of Chrome: 28 in the archive row, 28 more in the
    cache. *)
Lemma X11_archive_and_cache_agree_on_minutes_witness :
  let w' := (_process_screentime_data fractional_usage (calm 2) after_ten).1 in
  exists bq_row,
    screentime_table w' = screentime_table after_ten ++ [bq_row]
    /\ dict_get "app_name" bq_row = Some (VStr "Chrome")
    /\ dict_get "time_spent_minutes" bq_row = Some (VInt 28)
    /\ app_total "u1_2024-01-01" "Chrome" w' = Some 38.
Proof.
  refine (X11_archive_and_cache_agree_on_minutes fractional_usage (calm 2) after_ten
            (VStr "u1") (VStr "2024-01-01") "Chrome" 28 [("Chrome", 10)]
            _ eq_refl eq_refl eq_refl _).
  - repeat split. eexists. split; reflexivity.
  - vm_compute. reflexivity.
Defined.

(** X12 at Chrome 10, Slack 3, Chrome 5: Chrome holds 15 and Slack 3, in
    whatever order the three are merged. *)
Lemma X12_batch_totals_are_sums_witness :
  let key := "u1_2024-01-01" in
  (forall app, app_total key app (merge_usage mixed_batch registered)
               = after_batch app mixed_batch (app_total key app registered))
  /\ (forall events', Permutation events' mixed_batch ->
       forall app, app_total key app (merge_usage events' registered)
                   = app_total key app (merge_usage mixed_batch registered)).
Proof.
  refine (X12_batch_totals_are_sums (VStr "u1") (VStr "2024-01-01") mixed_batch
            registered [] _ eq_refl).
  repeat constructor; try (eexists _, _; repeat split; eexists; split; reflexivity).
Defined.

End Coverage.

(** ** Properties of the consumers' life cycle *)

Module LifecycleTheory.
Import Store Lifecycle.

Lemma act_pulls_grow a sv : pulls sv `prefix_of` pulls (act a sv).
Proof.
  destruct a as [| |s raises]; simpl; try reflexivity.
  unfold loop_turn. destruct (loops s sv); [reflexivity|].
  destruct (_running sv); simpl; [|destruct s; reflexivity].
  destruct raises; simpl; [reflexivity|]. apply prefix_app_r. reflexivity.
Qed.

Lemma act_stopped a sv :
  _running sv = false -> is_start a = false ->
  _running (act a sv) = false /\ pulls (act a sv) = pulls sv.
Proof.
  intros Hr Ha. destruct a as [| |s raises]; simpl; try discriminate; auto.
  unfold loop_turn. destruct (loops s sv); [auto|]. rewrite Hr. simpl.
  destruct s; simpl; auto.
Qed.

(** X14.  Stopping the consumers closes nothing.  Whatever is done to the
    service, start, stop, turns of the loops, the streaming pulls that were
    open stay open, in the order they were opened: none is ever
    cancelled.  [stop_consumers] itself only lowers the flag; after it, and
    until the consumers are started again, no further pull is opened, but
    the pulls opened before keep delivering messages to the callbacks. *)
Theorem X14_stop_closes_no_pull actions sv :
  pulls sv `prefix_of` pulls (run actions sv)
  /\ pulls (stop_consumers sv) = pulls sv
  /\ (forallb (fun a => negb (is_start a)) actions = true ->
      pulls (run actions (stop_consumers sv)) = pulls sv).
Proof.
  split; [|split; [reflexivity|]].
  - revert sv. induction actions as [|a actions IH]; intros sv; [reflexivity|].
    simpl. etransitivity; [apply (act_pulls_grow a)|apply IH].
  - intros Hno.
    assert (Hgen : forall sv0, _running sv0 = false ->
                     pulls (run actions sv0) = pulls sv0).
    { induction actions as [|a actions IH]; intros sv0 Hr; [reflexivity|].
      simpl in Hno. apply andb_prop in Hno as [Ha Hno].
      apply negb_true_iff in Ha.
      destruct (act_stopped a sv0 Hr Ha) as [Hr' Hp].
      simpl. rewrite (IH Hno _ Hr'). exact Hp. }
    apply (Hgen (stop_consumers sv)). reflexivity.
Qed.

(** X15.  While the flag is up, every turn of a live loop whose
    [subscribe] succeeds opens one more streaming pull for its stream, with
    that stream's flow-control window, and sleeps one second: after [n]
    such turns, [n] more pulls are open and [n] more seconds have passed.
    The loop never waits on the pull it opened. *)
Theorem X15_every_turn_opens_another_pull s n sv :
  _running sv = true -> (0 < loops s sv)%nat ->
  let sv' := run (replicate n (Turn s false)) sv in
  pulls sv' = pulls sv ++ replicate n (s, max_messages s)
  /\ slept sv' = (slept sv + n)%nat
  /\ _running sv' = true /\ loops s sv' = loops s sv.
Proof.
  revert sv. induction n as [|n IH]; intros sv Hr Hl; simpl.
  - rewrite app_nil_r, Nat.add_0_r. auto.
  - assert (Hturn : loop_turn s false sv
                    = MkService (_running sv) (market_loops sv) (screentime_loops sv)
                        (pulls sv ++ [(s, max_messages s)]) (slept sv + 1)
                        (service_log sv)).
    { unfold loop_turn. destruct (loops s sv); [lia|]. rewrite Hr. reflexivity. }
    rewrite Hturn.
    edestruct (IH (MkService (_running sv) (market_loops sv) (screentime_loops sv)
                     (pulls sv ++ [(s, max_messages s)]) (slept sv + 1)
                     (service_log sv))) as (Hp & Hs & Hr' & Hl');
      [exact Hr|destruct s; exact Hl|].
    rewrite Hp, Hs, Hr', Hl'. simpl. rewrite <- app_assoc. simpl.
    repeat split; try lia; destruct s; reflexivity.
Qed.

(** X14 after a minute of both loops turning: the 120 pulls opened in that
    minute are all still open after [stop_consumers] and after the loops'
    next turns. *)
Lemma X14_stop_closes_no_pull_witness :
  let sv := run one_minute (start_consumers new_service) in
  let actions := [Turn Market false; Turn Screentime false] in
  length (pulls sv) = 120%nat
  /\ pulls sv `prefix_of` pulls (run actions sv)
  /\ pulls (stop_consumers sv) = pulls sv
  /\ pulls (run actions (stop_consumers sv)) = pulls sv.
Proof.
  intros sv actions.
  destruct (X14_stop_closes_no_pull actions sv) as (Hgrow & Hstop & Hafter).
  split; [reflexivity|]. split; [exact Hgrow|]. split; [exact Hstop|].
  apply Hafter. reflexivity.
Defined.

(** X15 at a service just started: ten turns of the market loop leave ten
    market pulls open. *)
Lemma X15_every_turn_opens_another_pull_witness :
  let sv' := run (replicate 10 (Turn Market false)) (start_consumers new_service) in
  pulls sv' = [] ++ replicate 10 (Market, 1000%nat)
  /\ slept sv' = 10%nat
  /\ _running sv' = true /\ loops Market sv' = 1%nat.
Proof.
  refine (X15_every_turn_opens_another_pull Market 10 (start_consumers new_service)
            eq_refl _).
  simpl. lia.
Defined.

End LifecycleTheory.

(** ** Properties of the market-data service's consumer *)

Module SiblingTheory.
Import Py Store Sibling Examples.

Section WithPlatform.
Context `{Platform}.

Lemma archive_rows s data c w :
  (archive s data c w).2 = Ok tt \/ (exists ex, archive s data c w = (w, Raise ex)).
Proof.
  unfold archive. destruct (bigquery_client c); [|left; reflexivity].
  destruct (get_table_raises c); [right; eauto|].
  destruct (insert_rows_json c) as [|[|]]; [right; eauto|left; reflexivity..].
Qed.

Lemma archive_keeps s data c w :
  let w' := (archive s data c w).1 in
  market_docs w' = market_docs w /\ screentime_docs w' = screentime_docs w
  /\ acks w' = acks w /\ nacks w' = nacks w /\ next_doc w' = next_doc w.
Proof.
  unfold archive. destruct (bigquery_client c); [|simpl; auto].
  destruct (get_table_raises c); [simpl; auto|].
  destruct (insert_rows_json c) as [|[|]]; simpl; auto.
  destruct s; simpl; auto.
Qed.

Lemma archive_returns_spec s data c w :
  archive_returns c = true <-> (archive s data c w).2 = Ok tt.
Proof.
  unfold archive_returns, archive.
  destruct (bigquery_client c); simpl; [|tauto].
  destruct (get_table_raises c); simpl; [split; discriminate|].
  destruct (insert_rows_json c) as [|[|]]; simpl; split; auto; discriminate.
Qed.

Lemma store_keeps s data c w :
  let w' := (store s data c w).1 in
  market_rows w' = market_rows w /\ screentime_rows w' = screentime_rows w
  /\ acks w' = acks w /\ nacks w' = nacks w /\ errors_logged w' = errors_logged w.
Proof.
  destruct s; simpl; unfold store_market, store_screentime;
    destruct (firestore_client c); simpl; auto.
  - destruct (default (VStr "unknown") (dict_get "symbol" data));
      simpl; auto; destruct (doc_set_raises c); simpl; auto.
  - destruct (doc_set_raises c); simpl; auto.
Qed.

Lemma store_returns_spec s data c w :
  store_returns s data c = true <-> (store s data c w).2 = Ok tt.
Proof.
  unfold store_returns.
  destruct s; simpl; unfold store_market, store_screentime;
    destruct (firestore_client c); simpl; try tauto.
  - destruct (default (VStr "unknown") (dict_get "symbol" data));
      destruct (doc_set_raises c); simpl; split; auto; discriminate.
  - destruct (doc_set_raises c); simpl; split; auto; discriminate.
Qed.

(** X16.  The market-data service's callbacks settle a message exactly
    once, and acknowledge it only after every call they made for it has
    returned: the payload decoded to an object, the store accepted the
    document and the archive call came back (row errors are a return).  In
    every other case the message is negatively acknowledged, one processing
    error is logged, and no row has been appended to either archive
    table. *)
Theorem X16_sibling_acks_after_the_sinks_returned s m c w :
  let w' := callback s m c w in
  if all_return s m c
  then acks w' = acks w ++ [msg_id m] /\ nacks w' = nacks w
       /\ ~ In (ProcessingFailed s) (drop (length (errors_logged w)) (errors_logged w'))
  else nacks w' = nacks w ++ [msg_id m] /\ acks w' = acks w
       /\ errors_logged w' = errors_logged w ++ [ProcessingFailed s]
       /\ market_rows w' = market_rows w /\ screentime_rows w' = screentime_rows w.
Proof.
  unfold callback, callback_body, all_return.
  destruct (payload m) as [[| | | | | | |data]|]; simpl; auto 6.
  pose proof (store_keeps s data c w) as (Hmr & Hsr & Ha & Hn & Hl).
  pose proof (store_returns_spec s data c w) as Hs.
  destruct (store s data c w) as [w1 [[]|ex]] eqn:Hst; simpl in *.
  - rewrite (proj2 Hs eq_refl). simpl.
    pose proof (archive_keeps s data c w1) as (_ & _ & Ha2 & Hn2 & _).
    pose proof (archive_returns_spec s data c w1) as Har.
    destruct (archive_rows s data c w1) as [Hok|[ex Hex]].
    + rewrite (proj2 Har Hok).
      destruct (archive s data c w1) as [w2 [[]|ex]] eqn:Harch; [|discriminate].
      simpl in *. rewrite Ha2, Hn2, Ha, Hn. repeat split.
      unfold archive in Harch. destruct (bigquery_client c).
      * destruct (get_table_raises c); [discriminate|].
        destruct (insert_rows_json c) as [|[|]]; inversion Harch; subst; simpl.
        -- destruct s; simpl; rewrite Hl, drop_all; intros [].
        -- rewrite Hl, drop_app_length. intros [?|[]]. discriminate.
      * inversion Harch; subst. rewrite Hl, drop_all. intros [].
    + destruct (archive_returns c) eqn:Hret.
      * rewrite Hex in Har. simpl in Har. discriminate (proj1 Har eq_refl).
      * rewrite Hex. simpl. rewrite Hn, Ha, Hl, Hmr, Hsr. auto.
  - destruct (store_returns s data c) eqn:Hret.
    + destruct Hs as [Hs _]. specialize (Hs eq_refl). discriminate.
    + simpl. rewrite Hn, Ha, Hl, Hmr, Hsr. auto.
Qed.

(** X17.  The store write of the market callback is immediate, whole and
    unvalidated.  For any object payload, whatever its fields, once
    [doc_ref.set] returns the document named by the payload's [symbol]
    (["unknown"] when it has none) is exactly the payload: nothing of the
    document stored before is kept.  The write stays when the archive call
    then raises and the message is negatively acknowledged. *)
Theorem X17_sibling_store_write_replaces_and_stays m data c w ref :
  payload m = Some (VDict data) ->
  default (VStr "unknown") (dict_get "symbol" data) = VStr ref ->
  firestore_client c = true -> doc_set_raises c = false ->
  let w' := callback Market m c w in
  market_docs w' = <[ref := data]> (market_docs w)
  /\ (archive_returns c = false ->
      nacks w' = nacks w ++ [msg_id m] /\ acks w' = acks w
      /\ market_rows w' = market_rows w).
Proof.
  intros Hp Hsym Hf Hset. unfold callback, callback_body. rewrite Hp. simpl.
  unfold store_market. rewrite Hf, Hsym, Hset.
  pose proof (archive_keeps Market data c (set_market_doc ref data w))
    as (Hd & _ & Ha & Hn & _).
  pose proof (archive_returns_spec Market data c (set_market_doc ref data w)) as Har.
  destruct (archive_rows Market data c (set_market_doc ref data w)) as [Hok|[ex Hex]].
  - destruct (archive Market data c (set_market_doc ref data w)) as [w2 [[]|ex]];
      [|discriminate].
    simpl in *. split; [exact Hd|]. intros Hret.
    rewrite (proj2 Har eq_refl) in Hret. discriminate.
  - rewrite Hex. simpl. auto.
Qed.

Lemma redeliver_screentime n m data c w :
  payload m = Some (VDict data) ->
  firestore_client c = true -> doc_set_raises c = false ->
  let w' := redeliver n Screentime m c w in
  screentime_docs w'
  = screentime_docs w ++ map (fun i => (auto_id (next_doc w + i), data)) (seq 0 n)
  /\ (archive_returns c = false ->
      nacks w' = nacks w ++ replicate n (msg_id m) /\ acks w' = acks w
      /\ screentime_rows w' = screentime_rows w).
Proof.
  intros Hp Hf Hset. revert w. induction n as [|n IH]; intros w; simpl.
  - rewrite !app_nil_r. auto.
  - destruct (IH (callback Screentime m c w)) as [Hdocs Hdown].
    assert (Hstep : screentime_docs (callback Screentime m c w)
                    = screentime_docs w ++ [(auto_id (next_doc w), data)]
                    /\ next_doc (callback Screentime m c w) = S (next_doc w)
                    /\ (archive_returns c = false ->
                        nacks (callback Screentime m c w) = nacks w ++ [msg_id m]
                        /\ acks (callback Screentime m c w) = acks w
                        /\ screentime_rows (callback Screentime m c w)
                           = screentime_rows w)).
    { unfold callback, callback_body. rewrite Hp. simpl.
      unfold store_screentime. rewrite Hf, Hset.
      set (w1 := add_screentime_doc (auto_id (next_doc w)) data (take_id w)).
      pose proof (archive_keeps Screentime data c w1) as (_ & Hd & Ha & Hn & Hid).
      pose proof (archive_returns_spec Screentime data c w1) as Har.
      destruct (archive_rows Screentime data c w1) as [Hok|[ex Hex]].
      - destruct (archive Screentime data c w1) as [w2 [[]|ex]]; [|discriminate].
        simpl in *. split; [exact Hd|]. split; [exact Hid|].
        intros Hret. rewrite (proj2 Har eq_refl) in Hret. discriminate.
      - rewrite Hex. simpl. auto. }
    destruct Hstep as (Hd1 & Hid1 & Hdown1).
    split.
    + rewrite Hdocs, Hd1, Hid1, <- app_assoc. simpl. do 2 f_equal.
      * f_equal. f_equal. lia.
      * rewrite <- seq_shift, map_map. apply map_ext. intros i.
        do 2 f_equal. lia.
    + intros Hret. destruct (Hdown Hret) as (Hn & Ha & Hr).
      destruct (Hdown1 Hret) as (Hn1 & Ha1 & Hr1).
      rewrite Hn, Hn1, Ha, Ha1, Hr, Hr1, <- app_assoc. auto.
Qed.

(** X18.  Every delivery of a screen-time message to the market-data
    service's callback creates a document of its own: [n] deliveries of one
    message whose store write succeeds leave [n] more documents, each the
    whole payload under a fresh identifier.  When the archive call raises
    each time, all [n] deliveries are negatively acknowledged and no row is
    appended, yet the [n] documents are there. *)
Theorem X18_sibling_redelivery_adds_documents n m data c w :
  payload m = Some (VDict data) ->
  firestore_client c = true -> doc_set_raises c = false ->
  let w' := redeliver n Screentime m c w in
  screentime_docs w'
  = screentime_docs w ++ map (fun i => (auto_id (next_doc w + i), data)) (seq 0 n)
  /\ docs_written w' = (docs_written w + n)%nat
  /\ (archive_returns c = false ->
      nacks w' = nacks w ++ replicate n (msg_id m) /\ acks w' = acks w
      /\ screentime_rows w' = screentime_rows w).
Proof.
  intros Hp Hf Hset.
  destruct (redeliver_screentime n m data c w Hp Hf Hset) as [Hdocs Hdown].
  split; [exact Hdocs|]. split; [|exact Hdown].
  unfold docs_written. rewrite Hdocs, length_app, length_map, length_seq.
  reflexivity.
Qed.

End WithPlatform.

(** X17 on a payload without a price, over an older document, with the
    archive raising: the document is the payload, the message is negatively
    acknowledged. *)
Lemma X17_sibling_store_write_replaces_and_stays_witness :
  let w' := callback Market unpriced_note archive_raises stale_tcs in
  market_docs w' !! "TCS"
  = Some [("symbol", VStr "TCS"); ("note", VStr "no price")]
  /\ nacks w' = [7%nat] /\ acks w' = [] /\ market_rows w' = [].
Proof.
  destruct (X17_sibling_store_write_replaces_and_stays unpriced_note
              [("symbol", VStr "TCS"); ("note", VStr "no price")]
              archive_raises stale_tcs "TCS" eq_refl eq_refl eq_refl eq_refl)
    as [Hdoc Hdown].
  split; [rewrite Hdoc; apply lookup_insert_eq|].
  exact (Hdown eq_refl).
Defined.

(** X18 on three deliveries of one message with the archive raising: three
    documents, three negative acknowledgements, no row. *)
Lemma X18_sibling_redelivery_adds_documents_witness :
  let w' := redeliver 3 Screentime usage_note archive_raises no_sinks in
  screentime_docs w'
  = [] ++ map (fun i => (auto_id (0 + i),
                         [("user_id", VStr "u1"); ("app_name", VStr "Chrome")]))
              (seq 0 3)
  /\ docs_written w' = 3%nat
  /\ nacks w' = [8; 8; 8]%nat /\ acks w' = [] /\ screentime_rows w' = [].
Proof.
  destruct (X18_sibling_redelivery_adds_documents 3 usage_note
              [("user_id", VStr "u1"); ("app_name", VStr "Chrome")]
              archive_raises no_sinks eq_refl eq_refl eq_refl)
    as (Hdocs & Hcount & Hdown).
  split; [exact Hdocs|]. split; [exact Hcount|]. exact (Hdown eq_refl).
Defined.

End SiblingTheory.

(** ** Properties of the receiving routes, alone and before the consumer *)

Module ReceiverTheory.
Import Py Store Consumer Reading Examples Scenarios Theory Coverage Receiver.

Section WithPlatform.
Context `{Platform}.
Variable lower : string -> string.

Lemma enriched_usage_text event received_at :
  app_is_text event = true ->
  exists enriched_data, enriched_usage lower event received_at = Ok enriched_data.
Proof.
  unfold app_is_text, enriched_usage.
  destruct (default (VStr "") (dict_get "app" (ScreentimeEvent.data event)));
    try discriminate.
  intros _. simpl. eauto.
Qed.

Lemma enriched_usage_not_text event received_at :
  app_is_text event = false ->
  enriched_usage lower event received_at = Raise AttributeError.
Proof.
  unfold app_is_text, enriched_usage.
  destruct (default (VStr "") (dict_get "app" (ScreentimeEvent.data event)));
    try discriminate; reflexivity.
Qed.

Lemma enriched_usage_fields event received_at enriched_data :
  enriched_usage lower event received_at = Ok enriched_data ->
  keys enriched_data
  = ["device_id"; "user_id"; "event_type"; "timestamp"; "app_name"; "title";
     "duration"; "category"; "source"; "received_at"].
Proof.
  unfold enriched_usage.
  destruct (_categorize_app _ _) as [category|]; [|discriminate].
  intros [= <-]. reflexivity.
Qed.

(** The loop over a run of events whose [app] is text, followed by
    anything. *)
Lemma publish_events_text pre rest clock outcome : forall i t,
  forallb app_is_text pre = true ->
  exists t1,
    publish_events lower (pre ++ rest) i clock outcome t
    = publish_events lower rest (i + length pre) clock outcome t1
    /\ market_topic t1 = market_topic t
    /\ ((forall j, outcome j <> Published) ->
        screentime_topic t1 = screentime_topic t)
    /\ ((forall j, outcome j = Published) ->
        receiver_logged t1 = receiver_logged t
        /\ exists payloads,
             Forall2 (enriched lower) pre payloads
             /\ screentime_topic t1 = screentime_topic t ++ payloads).
Proof.
  induction pre as [|event pre IH]; intros i t Htext.
  - exists t. simpl. rewrite Nat.add_0_r. repeat split; auto.
    exists []. rewrite app_nil_r. split; [constructor|reflexivity].
  - simpl in Htext. apply andb_prop in Htext as [Hev Hpre].
    destruct (enriched_usage_text event (clock i) Hev) as [d Hd].
    destruct (IH (S i) (publish Screentime d (outcome i) t).1 Hpre)
      as (t1 & Hrun & Hm & Hnone & Hall).
    exists t1. simpl. rewrite Hd, Hrun.
    replace (i + S (length pre))%nat with (S i + length pre)%nat by lia.
    split; [reflexivity|]. split; [|split].
    + rewrite Hm. destruct (outcome i); reflexivity.
    + intros Hno. rewrite (Hnone Hno).
      specialize (Hno i). destruct (outcome i); [reflexivity..|congruence].
    + intros Hpub. destruct (Hall Hpub) as (Hlog & payloads & Hf & Ht).
      rewrite Hlog, Ht, (Hpub i). simpl. split; [reflexivity|].
      exists (VDict d :: payloads). split.
      * constructor; [exists (clock i), d; auto|exact Hf].
      * rewrite <- app_assoc. reflexivity.
Qed.

(** Whatever the loop does, what it adds to the screen-time topic are
    enrichments, and it adds nothing to the market topic. *)
Lemma publish_events_adds events clock outcome : forall i t,
  let t' := (publish_events lower events i clock outcome t).1 in
  market_topic t' = market_topic t
  /\ exists payloads,
       screentime_topic t' = screentime_topic t ++ payloads
       /\ Forall (fun payload => exists event, enriched lower event payload) payloads.
Proof.
  induction events as [|event events IH]; intros i t; simpl.
  - split; [reflexivity|]. exists []. rewrite app_nil_r. split; [reflexivity|constructor].
  - destruct (enriched_usage lower event (clock i)) as [d|ex] eqn:Hd; simpl.
    + destruct (IH (S i) (publish Screentime d (outcome i) t).1)
        as (Hm & payloads & Ht & Hf).
      split; [rewrite Hm; destruct (outcome i); reflexivity|].
      rewrite Ht. destruct (outcome i); simpl; eauto.
      exists (VDict d :: payloads). rewrite <- app_assoc. split; [reflexivity|].
      constructor; [|exact Hf]. exists event, (clock i), d. auto.
    + split; [reflexivity|]. exists []. rewrite app_nil_r.
      split; [reflexivity|constructor].
Qed.

(** X19.  [receive_screentime_data] answers success whatever became of the
    publishing.  For a batch in which every event's [app] is text or
    absent, the answer is the success message built from the [batch_size]
    the caller sent, for every way the publish calls can go: when each of
    them fails the topic is as it was and the answer is the same as when
    each event was published.  The market topic is never written. *)
Theorem X19_receiver_accepts_whatever_was_published request clock outcome t :
  forallb app_is_text (ScreentimeBatch.events request) = true ->
  let t' := (receive_screentime_data lower request clock outcome t).1 in
  (receive_screentime_data lower request clock outcome t).2
  = Accepted ("Processed " ++ pretty (ScreentimeBatch.batch_size request)
                ++ " screentime events")
             (ScreentimeBatch.device_id request)
             (clock (length (ScreentimeBatch.events request)))
  /\ market_topic t' = market_topic t
  /\ ((forall i, outcome i <> Published) ->
      screentime_topic t' = screentime_topic t)
  /\ ((forall i, outcome i = Published) ->
      exists payloads,
        Forall2 (enriched lower) (ScreentimeBatch.events request) payloads
        /\ screentime_topic t' = screentime_topic t ++ payloads).
Proof.
  intros Htext.
  destruct (publish_events_text (ScreentimeBatch.events request) [] clock outcome 0 t Htext)
    as (t1 & Hrun & Hm & Hnone & Hall).
  rewrite app_nil_r in Hrun. unfold receive_screentime_data. rewrite Hrun. simpl.
  repeat split; auto.
  intros Hpub. destruct (Hall Hpub) as (_ & payloads & Hf & Ht). eauto.
Qed.

(** X20.  No screen-time payload that [receive_screentime_data] publishes
    is accepted by the consumer of [backend_main].  Whatever the batch and
    however the request ends, every payload it added to the topic has
    exactly the ten fields of the enrichment, [time_spent] and [date] not
    among them, so [_process_screentime_data] logs it as an invalid format
    and writes neither sink. *)
Theorem X20_received_usage_is_rejected_by_the_consumer request clock outcome t :
  let t' := (receive_screentime_data lower request clock outcome t).1 in
  exists payloads,
    screentime_topic t' = screentime_topic t ++ payloads
    /\ Forall (fun payload =>
         (exists event, enriched lower event payload)
         /\ forall e w,
              _process_screentime_data payload e w
              = (with_log (fun l => l ++ [InvalidFormat Screentime]) w, Ok tt))
       payloads.
Proof.
  destruct (publish_events_adds (ScreentimeBatch.events request) clock outcome 0 t)
    as (_ & payloads & Ht & Hf).
  exists payloads. split.
  - unfold receive_screentime_data.
    destruct (publish_events lower (ScreentimeBatch.events request) 0 clock outcome t)
      as [t1 [[]|ex]]; exact Ht.
  - eapply Forall_impl; [exact Hf|].
    intros payload [event Hev]. split; [eauto|].
    destruct Hev as (received_at & d & Hd & ->). intros e w.
    apply (process_screentime_rejects d e w "time_spent"); [simpl; auto|].
    unfold enriched_usage in Hd.
    destruct (_categorize_app _ _) as [category|]; [|discriminate].
    injection Hd as <-. reflexivity.
Qed.

(** X21.  A batch with an event whose [app] is present and not text fails
    half way.  The events before it have been handed to the publisher, and
    stay published; the events after it are never looked at; the request is
    answered with status 500 and one error is logged. *)
Theorem X21_receiver_fails_a_batch_half_way request clock outcome t pre bad post :
  ScreentimeBatch.events request = pre ++ bad :: post ->
  forallb app_is_text pre = true -> app_is_text bad = false ->
  (forall i, outcome i = Published) ->
  let t' := (receive_screentime_data lower request clock outcome t).1 in
  (receive_screentime_data lower request clock outcome t).2
  = HTTPException 500 "Failed to process screentime data"
  /\ receiver_logged t' = receiver_logged t ++ [ReceiveFailed Screentime]
  /\ exists payloads,
       Forall2 (enriched lower) pre payloads
       /\ screentime_topic t' = screentime_topic t ++ payloads.
Proof.
  intros Hev Hpre Hbad Hpub.
  destruct (publish_events_text pre (bad :: post) clock outcome 0 t Hpre)
    as (t1 & Hrun & _ & _ & Hall).
  destruct (Hall Hpub) as (Hlog & payloads & Hf & Ht).
  unfold receive_screentime_data. rewrite Hev, Hrun. simpl.
  rewrite (enriched_usage_not_text bad _ Hbad). simpl.
  rewrite Hlog. repeat split. eauto.
Qed.

(** X22.  A tick that [receive_market_data] publishes is accepted by the
    consumer of [backend_main].  The request is always answered with
    success; when the publish call succeeds the topic gains one payload;
    and when the archive accepts the row, processing that payload appends
    one row whose [high], [low] and [open] are the price and whose [market]
    is ["NSE"], fields the receiver never sends.  With the store's writes
    succeeding, the cache document of the symbol then holds the price as
    [current_price]. *)
Theorem X22_received_tick_is_archived_with_defaults request clock t e w :
  let t' := (receive_market_data request clock Published t).1 in
  let data := VDict (enriched_tick request (clock 0%nat)) in
  let w' := (_process_market_data data e w).1 in
  (forall outcome,
     (receive_market_data request clock outcome t).2
     = Accepted ("Processed market data for " ++ MarketDataEvent.symbol request)
                (MarketDataEvent.symbol request) (clock 1%nat))
  /\ market_topic t' = market_topic t ++ [data]
  /\ (bq_result e = BqReturns [] ->
      market_table w' = market_table w ++ [archived_tick request (now e)])
  /\ (set_raises e = false -> add_raises e = false ->
      exists doc,
        market_data w' !! MarketDataEvent.symbol request = Some doc
        /\ dict_get "current_price" doc = Some (VFloat (MarketDataEvent.price request))
        /\ dict_get "market" doc = Some (VStr "NSE")).
Proof.
  intros t' data w'.
  assert (Hvalid : all_in market_required data = Ok true) by reflexivity.
  assert (Hrow : market_row data e = Ok (archived_tick request (now e))) by reflexivity.
  pose proof (process_market_runs_both data e w _ Hvalid Hrow) as Hw'.
  fold w' in Hw'.
  set (w1 := (_insert_to_bigquery Market [archived_tick request (now e)] e w).1) in *.
  split; [reflexivity|]. split; [reflexivity|]. split.
  - intros Hbq.
    pose proof (market_cache_keeps_archive data e w1) as Harch.
    rewrite <- Hw' in Harch. unfold archive_of in Harch. injection Harch as Hm _.
    rewrite Hm. subst w1.
    pose proof (insert_table Market [archived_tick request (now e)] e w) as Hins.
    rewrite Hbq in Hins. exact Hins.
  - intros Hset Hadd.
    destruct (market_cache_merge (MarketDataEvent.symbol request) data e w1 _ _
                eq_refl eq_refl eq_refl Hset Hadd) as (Hmd & _ & _).
    rewrite <- Hw' in Hmd. rewrite Hmd, lookup_insert_eq.
    eexists. split; [reflexivity|].
    rewrite !merge_doc_get
      by first [discriminate
               |apply (proj1 (bool_decide_eq_true (NoDup _))); reflexivity].
    simpl. split.
    + destruct (_ ≫= dict_get "current_price"); reflexivity.
    + destruct (_ ≫= dict_get "market"); reflexivity.
Qed.

End WithPlatform.

(** X19 on a batch of two windows that says it has forty, with every
    publish call failing: success for forty events, nothing published. *)
Lemma X19_receiver_accepts_whatever_was_published_witness :
  let failing := fun _ : nat => PublishRaises in
  let t' := (receive_screentime_data ascii_lower good_batch every_second failing
               no_topics).1 in
  (receive_screentime_data ascii_lower good_batch every_second failing no_topics).2
  = Accepted "Processed 40 screentime events" "laptop" (every_second 2)
  /\ market_topic t' = [] /\ screentime_topic t' = [].
Proof.
  intros failing.
  destruct (X19_receiver_accepts_whatever_was_published ascii_lower good_batch
              every_second failing no_topics eq_refl) as (Hanswer & Hmarket & Hnone & _).
  split; [exact Hanswer|]. split; [exact Hmarket|].
  apply Hnone. intros i. discriminate.
Defined.

(** X21 on a batch whose third window has a number for [app]: status 500,
    with the first two windows published. *)
Lemma X21_receiver_fails_a_batch_half_way_witness :
  let published := fun _ : nat => Published in
  let t' := (receive_screentime_data ascii_lower broken_batch every_second published
               no_topics).1 in
  (receive_screentime_data ascii_lower broken_batch every_second published no_topics).2
  = HTTPException 500 "Failed to process screentime data"
  /\ receiver_logged t' = [] ++ [ReceiveFailed Screentime]
  /\ exists payloads,
       Forall2 (enriched ascii_lower) [window (VStr "Chrome"); window (VStr "Slack")]
               payloads
       /\ screentime_topic t' = [] ++ payloads.
Proof.
  intros published.
  refine (X21_receiver_fails_a_batch_half_way ascii_lower broken_batch every_second
            published no_topics [window (VStr "Chrome"); window (VStr "Slack")]
            (window (VInt 7)) [window (VStr "Zoom")] eq_refl eq_refl eq_refl _).
  intros i. reflexivity.
Defined.

(** X22 on a quote for TCS at 3500, with nothing failing: one row with the
    price as high, low and open, and the price in the cache. *)
Lemma X22_received_tick_is_archived_with_defaults_witness :
  let w' := (_process_market_data (VDict (enriched_tick quote (every_second 0)))
               (calm 1) empty_world).1 in
  market_topic (receive_market_data quote every_second Published no_topics).1
  = [VDict (enriched_tick quote (every_second 0))]
  /\ market_table w' = [archived_tick quote (now (calm 1))]
  /\ exists doc,
       market_data w' !! "TCS" = Some doc
       /\ dict_get "current_price" doc = Some (VFloat (S754_finite false 3500 0))
       /\ dict_get "market" doc = Some (VStr "NSE").
Proof.
  destruct (X22_received_tick_is_archived_with_defaults quote every_second no_topics
              (calm 1) empty_world) as (_ & Htopic & Hrow & Hdoc).
  split; [exact Htopic|]. split; [exact (Hrow eq_refl)|].
  exact (Hdoc eq_refl eq_refl).
Defined.

End ReceiverTheory.

(** ** Properties of the ingest route, alone and beside the consumer *)

Module IngestTheory.
Import Py Store Consumer Reading Examples Ingest.

Section WithPlatform.
Context `{Platform}.
Variable strptime_ymd : string -> bool.

Lemma ingest_app_time_as_event data apps_data :
  ingest_app_time data apps_data = update_app_time (event_of data) apps_data.
Proof.
  unfold ingest_app_time, update_app_time, event_of. simpl.
  destruct apps_data; reflexivity.
Qed.

(** X23.  As the route is declared, it ingests nothing.  Its
    [current_user] is the value of [Depends(lambda: {})], an empty
    dictionary, so [current_user.get("userId")] is [None]: every request,
    whatever its body and whatever the store would do, is answered with
    status 401 and leaves the store, the records and the log as they
    were.  The same holds for any [current_user] whose [userId] is absent
    or falsy. *)
Theorem X23_ingest_refuses_every_request_as_declared data c b :
  ingest_screen_time_data strptime_ymd data current_user_dependency c b
  = (b, HTTPException 401 "User not authenticated")
  /\ forall current_user,
       truthy (default VNull (dict_get "userId" current_user)) = false ->
       ingest_screen_time_data strptime_ymd data current_user c b
       = (b, HTTPException 401 "User not authenticated").
Proof.
  split; [reflexivity|].
  intros current_user Hfalsy. unfold ingest_screen_time_data.
  rewrite Hfalsy. reflexivity.
Qed.

(** X24.  With a signed-in user, the route checks before it writes.  A
    body for another user is answered with 403; a body whose date
    [strptime] refuses is answered with 400; in both cases nothing is
    written and nothing is logged. *)
Theorem X24_ingest_checks_user_and_date_before_writing data user c b :
  user <> "" -> no_client c = false ->
  ScreenTimeData.user_id data <> user
  \/ strptime_ymd (ScreenTimeData.date data) = false ->
  ingest_screen_time_data strptime_ymd data (signed_in user) c b
  = (b, HTTPException
          (if String.eqb (ScreenTimeData.user_id data) user then 400 else 403)
          (if String.eqb (ScreenTimeData.user_id data) user
           then "Invalid date format. Use YYYY-MM-DD"
           else "Cannot ingest data for other users")).
Proof.
  intros Huser Hclient Hbad. unfold ingest_screen_time_data, signed_in. simpl.
  destruct (String.eqb_spec user "") as [->|_]; [congruence|]. simpl.
  destruct (String.eqb_spec (ScreenTimeData.user_id data) user) as [Heq|Hne]; simpl.
  - rewrite Hclient. destruct Hbad as [Hother|Hdate]; [congruence|].
    rewrite Hdate. reflexivity.
  - reflexivity.
Qed.

(** X25.  The route and the consumer merge alike, up to the record.  For
    a signed-in user and a date [strptime] accepts, with the read of the
    day document, its write and the update of the user document failing or
    not alike on both sides: a request leaves the day documents exactly as
    the consumer's cache update leaves them for the event with the same
    user, app, minutes, date and category.  The user documents are left
    alike too when the write into [screentime_records], which stands
    between the two in the route and which the consumer does not have,
    does not raise; when it raises, the route stops there and leaves the
    user documents as they were, whatever the consumer does to them.  The
    route adds at most one document to [screentime_records], and none when
    that write raises. *)
Theorem X25_ingest_merges_like_the_consumer data c e b :
  ScreenTimeData.user_id data <> "" ->
  strptime_ymd (ScreenTimeData.date data) = true ->
  no_client c = false -> env_of c e ->
  let b' := (ingest_screen_time_data strptime_ymd data
               (signed_in (ScreenTimeData.user_id data)) c b).1 in
  let w' := (_update_screentime_cache (event_of data) e (store b)).1 in
  screentime_daily (store b') = screentime_daily w'
  /\ users (store b') = (if record_set_raises c then users (store b) else users w')
  /\ (screentime_records b' = screentime_records b
      \/ record_set_raises c = false
         /\ exists ref,
              screentime_records b'
              = screentime_records b
                  ++ [(ref, record_of data (VStr (ScreenTimeData.user_id data)) c)]).
Proof.
  intros Huser Hdate Hclient (Hget & Hset & Hupd & Htime) b' w'.
  subst b' w'.
  unfold ingest_screen_time_data, signed_in.
  change (default VNull (dict_get "userId" [("userId", VStr (ScreenTimeData.user_id data))]))
    with (VStr (ScreenTimeData.user_id data)).
  cbn [truthy].
  destruct (String.eqb_spec (ScreenTimeData.user_id data) "") as [?|_]; [congruence|].
  rewrite String.eqb_refl, Hclient, Hdate. cbn [negb].
  unfold _update_screentime_cache, _update_screentime_cache_body, merge_day, update_user.
  change (subscript (event_of data) "user_id")
    with (@Ok value (VStr (ScreenTimeData.user_id data))).
  change (subscript (event_of data) "date")
    with (@Ok value (VStr (ScreenTimeData.date data))).
  unfold document, try_except, when_raises, bind, lift, modify, ret, raise, log_error.
  unfold failed.
  rewrite Hget, Hset, Hupd, Htime.
  destruct (daily_get_raises c); cbn beta iota;
    [destruct (record_set_raises c), (store b); simpl; auto|].
  rewrite <- ingest_app_time_as_event.
  destruct (ingest_app_time data _) as [apps|]; cbn beta iota;
    [|destruct (record_set_raises c), (store b); simpl; auto].
  destruct (sum_time_spent apps (VInt 0)) as [total|]; cbn beta iota;
    [|destruct (record_set_raises c), (store b); simpl; auto].
  destruct (daily_set_raises c); cbn beta iota;
    [destruct (record_set_raises c), (store b); simpl; auto|].
  destruct (record_set_raises c); cbn beta iota.
  - destruct (user_update_raises c); cbn beta iota;
      destruct (store b) as [mt st md ph sd us ak nk tk lg ni]; simpl;
      try destruct (us !! ScreenTimeData.user_id data); simpl; auto.
  - destruct (user_update_raises c); cbn beta iota;
      destruct (store b) as [mt st md ph sd us ak nk tk lg ni]; simpl;
      try destruct (us !! ScreenTimeData.user_id data); simpl;
      (split; [reflexivity|]; split; [reflexivity|]; right; split; [reflexivity|];
       eexists; reflexivity).
Qed.

End WithPlatform.

(** X24 for a request with a date that is no date. *)
Lemma X24_ingest_checks_user_and_date_before_writing_witness :
  ingest_screen_time_data only_new_year (chrome_on "yesterday") (signed_in "u1")
    all_fine (MkBackend registered [] 0)
  = (MkBackend registered [] 0,
     HTTPException 400 "Invalid date format. Use YYYY-MM-DD").
Proof.
  refine (X24_ingest_checks_user_and_date_before_writing only_new_year
            (chrome_on "yesterday") "u1" all_fine (MkBackend registered [] 0)
            _ eq_refl (or_intror eq_refl)).
  discriminate.
Defined.

(** X25 for ten minutes of Chrome when the write of the record raises: the
    day document is merged on both sides, and the user document keeps its
    999 minutes in the route while the consumer sets it to 10. *)
Lemma X25_ingest_merges_like_the_consumer_witness :
  let b' := (ingest_screen_time_data only_new_year (chrome_on "2024-01-01")
               (signed_in "u1") record_fails (MkBackend registered [] 0)).1 in
  let w' := (_update_screentime_cache (event_of (chrome_on "2024-01-01")) (calm 1)
               registered).1 in
  (app_total "u1_2024-01-01" "Chrome" (store b') = Some 10
   /\ (users (store b') !! "u1" ≫= dict_get "daily_screentime_minutes")
      = Some (VInt 999)
   /\ (users w' !! "u1" ≫= dict_get "daily_screentime_minutes") = Some (VInt 10))
  /\ screentime_daily (store b') = screentime_daily w'
  /\ users (store b') = users registered
  /\ (screentime_records b' = []
      \/ record_set_raises record_fails = false
         /\ exists ref,
              screentime_records b'
              = [] ++ [(ref, record_of (chrome_on "2024-01-01") (VStr "u1") record_fails)]).
Proof.
  split; [vm_compute; repeat split|].
  refine (X25_ingest_merges_like_the_consumer only_new_year (chrome_on "2024-01-01")
            record_fails (calm 1) (MkBackend registered [] 0) _ eq_refl eq_refl _).
  - discriminate.
  - repeat split.
Defined.

End IngestTheory.
